(** * New-employees synchronisation: Costpoint to Connecteam

    A shallow embedding of the six-phase reconciliation pipeline
    ([app/services/sync.py]), of the two API clients it drives
    ([app/clients/deltek.py], [app/clients/connecteam.py]) and of the report
    builders ([app/services/email_service.py]).

    Conventions of the embedding.
    - A Python [dict] is an association list in insertion order ([dict]);
      assignment to a key that is present keeps the key's position.
    - A Python [set] of strings is a [gset string].
    - A function that can raise returns a [Res]; a function with effects is
      a computation [M] over the chronological trace of its effects
      (HTTP requests, S3 writes, audit events, sleeps, e-mail).  The answers
      of the outside world are given by a [Backend], as functions of the
      trace so far and of the request.
    - A string holds the UTF-8 encoding of the Python text, byte by byte.
    - Time is read from the backend's monotonic clock, a function of the
      trace so far; only the retry budget of [stamina] reads it.
    - Console diagnostics through [structlog] and the rendered text of audit
      messages are not part of the model; the audit events themselves are. *)

From Stdlib Require Import ZArith Lia Ascii.
From stdpp Require Import base option list strings pretty gmap sets sorting.

Set Warnings "-register-all".

(** ** Exceptions and results *)

Inductive Exn : Type :=
| HTTPStatusError (status_code : Z)  (* httpx.HTTPStatusError *)
| TimeoutException                   (* httpx.TimeoutException *)
| NetworkError                       (* any other httpx transport failure *)
| JSONDecodeError                    (* response.json() on a body that is not JSON *)
| KeyError (key : string)
| ValueError
| AttributeError                     (* [.get] on a value that is not a dict *)
| ClientError.                       (* botocore ClientError, re-raised *)

Inductive Res (A : Type) : Type :=
| Ok (a : A)
| Raise (e : Exn).
Arguments Ok {A} a.
Arguments Raise {A} e.

Definition res_bind {A B} (r : Res A) (k : A -> Res B) : Res B :=
  match r with
  | Ok a => k a
  | Raise e => Raise e
  end.

(** ** Insertion-ordered dictionaries *)

Definition dict (V : Type) : Type := list (string * V).

Fixpoint dict_get {V} (k : string) (d : dict V) : option V :=
  match d with
  | [] => None
  | (k', v) :: d' => if String.eqb k k' then Some v else dict_get k d'
  end.

(** [k in d] *)
Definition dict_mem {V} (k : string) (d : dict V) : bool :=
  match dict_get k d with Some _ => true | None => false end.

(** [d[k] = v] *)
Fixpoint dict_setitem {V} (k : string) (v : V) (d : dict V) : dict V :=
  match d with
  | [] => [(k, v)]
  | (k', v') :: d' =>
      if String.eqb k k' then (k', v) :: d' else (k', v') :: dict_setitem k v d'
  end.

(** [d[k]], which raises [KeyError] on an absent key *)
Definition dict_getitem {V} (k : string) (d : dict V) : Res V :=
  match dict_get k d with
  | Some v => Ok v
  | None => Raise (KeyError k)
  end.

(** [d.get(k, default)] *)
Definition dict_get_default {V} (k : string) (default : V) (d : dict V) : V :=
  match dict_get k d with Some v => v | None => default end.

Definition dict_keys {V} (d : dict V) : list string := map fst d.
Definition dict_values {V} (d : dict V) : list V := map snd d.

(** Truthiness of a string and of a list *)
Definition nonempty (s : string) : bool :=
  match s with EmptyString => false | String _ _ => true end.

Definition is_nil {A} (l : list A) : bool :=
  match l with [] => true | _ :: _ => false end.

(** ** Data model ([app/models/model.py]) *)

Record WorkforceRecord : Type := {
  wf_empl_id : string;
  proj_id : string;
  proj_name : string;
  bill_lab_cat_cd : string
}.

Record EmployeeRecord : Type := {
  empl_id : string;
  first_name : string;
  last_name : string;
  home_email_id : string;
  orig_hire_dt : string;
  birth_dt : string;
  is_active : bool
}.

Record DeltekConfig : Type := {
  base_url : string;
  system : string;
  company : string;
  username : string;
  password : string;
  filter_notes_value : string
}.

Record ConnecteamConfig : Type := {
  api_key : string;
  users_base_url : string
}.

Definition full_url (c : DeltekConfig) : string :=
  base_url c +:+ "?system=" +:+ system c +:+ "&company=" +:+ company c.

(** What [json.loads] makes of the text of a secret: a JSON object, whose
    values are strings as the key/value secrets of Secrets Manager have
    them, or a JSON value that is not an object (a list, a string, a
    number, [true], [false] or [null]), which has no [.get]. *)
Inductive Secret : Type :=
| SecretObject (fields : dict string)
| SecretValue.

Definition DeltekConfig_from_env (secrets : Secret) : Res DeltekConfig :=
  match secrets with
  | SecretObject secrets =>
      Ok {| base_url := dict_get_default "base_url" "" secrets;
            system := dict_get_default "system" "" secrets;
            company := dict_get_default "cp_company" "" secrets;
            username := dict_get_default "username" "" secrets;
            password := dict_get_default "password" "" secrets;
            filter_notes_value := dict_get_default "filter_notes_value" "CT" secrets |}
  | SecretValue => Raise AttributeError
  end.

Definition ConnecteamConfig_from_env (secrets : Secret) : Res ConnecteamConfig :=
  match secrets with
  | SecretObject secrets =>
      let key := dict_get_default "key" "" secrets in
      if nonempty key
      then Ok {| api_key := key;
                 users_base_url := "https://api.connecteam.com/users/v1/users" |}
      else Raise ValueError
  | SecretValue => Raise AttributeError
  end.

(** ** Wire formats *)

(** A JSON value, for bodies the program stores without looking inside. *)
Inductive Json : Type :=
| JNull
| JBool (b : bool)
| JNum (z : Z)
| JStr (s : string)
| JArr (l : list Json)
| JObj (l : list (string * Json)).

(** A row of a Costpoint report document: [{"row": {"rsId": .., "data":
    {..}, "children": [..]}}].  A key that is absent reads as [None], the
    empty dictionary or the empty list, as the [.get] defaults of the source
    have it. *)
Inductive Row : Type :=
| MkRow (rsId : option string) (data : dict string) (children : list Row).

Definition row_rsId (r : Row) : option string := let 'MkRow i _ _ := r in i.
Definition row_data (r : Row) : dict string := let 'MkRow _ d _ := r in d.
Definition row_children (r : Row) : list Row := let 'MkRow _ _ c := r in c.

(** [data.get("document", {}).get("rows", [])] *)
Definition Document : Type := list Row.

(** A scalar custom-field value as Connecteam returns it. *)
Inductive Scalar : Type :=
| SStr (s : string)
| SInt (z : Z).

Record UserCustomField : Type := {
  ucf_customFieldId : option Z;   (* cf.get("customFieldId") *)
  ucf_value : option Scalar       (* cf.get("value") *)
}.

Record User : Type := {
  user_customFields : list UserCustomField   (* user.get("customFields", []) *)
}.

Record Page : Type := {
  page_users : list User;             (* data.get("data", {}).get("users", []) *)
  page_paging_offset : option Z       (* data.get("paging", {}).get("offset") *)
}.

Record CustomField : Type := {
  customFieldId : Z;
  value : string
}.

Record Payload : Type := {
  userType : string;
  isArchived : bool;
  firstName : string;
  lastName : string;
  customFields : list CustomField;
  email : option string
}.

(** The filter of a Costpoint report request: [filter.id], and in its single
    [rsWhere] the [rsId], the [(name, value)] pairs of the equality relations
    and the [rsId]s of the children. *)
Record DeltekPayload : Type := {
  filter_id : string;
  where_rsId : string;
  where_relations : list (string * string);
  where_children : list string
}.

(** An HTTP response: its status code, its body decoded as JSON ([None] when
    the body is not JSON) and its raw text. *)
Record Response (B : Type) : Type := {
  status_code : Z;
  json : option B;
  text : string
}.
Arguments status_code {B} r.
Arguments json {B} r.
Arguments text {B} r.

(** What one HTTP exchange comes to. *)
Inductive Exchange (B : Type) : Type :=
| Responded (r : Response B)
| TimedOut
| Unreachable.
Arguments Responded {B} r.
Arguments TimedOut {B}.
Arguments Unreachable {B}.

(** ** Results of Phase 6 *)

Inductive ErrorDetail : Type :=
| DetailJson (j : Json)
| DetailText (s : string).

(** The result dictionary of [post_user]; [cr_error] stands for [str(exc)],
    kept as the status code it is made from. *)
Inductive CreationResult : Type :=
| Created (cr_empl_id cr_name : string) (response : Json)
| Failed (cr_empl_id cr_name : string) (cr_error : Z) (detail : ErrorDetail).

(** [r["success"]] and [r["empl_id"]] *)
Definition success (r : CreationResult) : bool :=
  match r with Created _ _ _ => true | Failed _ _ _ _ => false end.

Definition result_empl_id (r : CreationResult) : string :=
  match r with Created e _ _ => e | Failed e _ _ _ => e end.

Record PreviewEntry : Type := {
  pv_empl_id : string;    (* "_empl_id" *)
  pv_name : string;       (* "_name" *)
  pv_payload : Payload    (* "payload" *)
}.

(** ** Dates: [datetime.fromisoformat] and [strftime("%m/%d/%Y")]

    A string holds the UTF-8 encoding of the Python text.  The parser is
    that of CPython 3.11, which reads the encoded text byte by byte up to
    its terminating zero: the calendar and the week spellings of a date,
    with or without dashes; any one character as separator; a time
    [HH[[:]MM[[:]SS[(.|,)f+]]]]; and an offset [Z] or [(+|-)] followed by
    a time.  The fields are range-checked when the [datetime] is built. *)

Record datetime : Type := {
  year : Z; month : Z; day : Z;
  hour : Z; minute : Z; second : Z; microsecond : Z;
  utcoffset : option Z   (* in microseconds *)
}.

Definition digit_val (c : Ascii.ascii) : option Z :=
  let n := Z.of_N (Ascii.N_of_ascii c) in
  if ((48 <=? n) && (n <=? 57))%Z then Some (n - 48)%Z else None.

Definition digit_char (d : Z) : Ascii.ascii := Ascii.ascii_of_N (Z.to_N (48 + d)).

(** Read exactly [n] decimal digits. *)
Fixpoint parse_digits (n : nat) (s : string) (acc : Z) : option (Z * string) :=
  match n with
  | O => Some (acc, s)
  | S n' =>
      match s with
      | String c s' =>
          match digit_val c with
          | Some d => parse_digits n' s' (10 * acc + d)%Z
          | None => None
          end
      | EmptyString => None
      end
  end.

Definition expect (c : Ascii.ascii) (s : string) : option string :=
  match s with
  | String c' s' => if Ascii.eqb c c' then Some s' else None
  | EmptyString => None
  end.

(** The byte a pointer into the text reads, which is zero at its end, and
    the text after that byte. *)
Definition peek (s : string) : Ascii.ascii :=
  match s with String c _ => c | EmptyString => Ascii.zero end.

Definition advance (s : string) : string :=
  match s with String _ s' => s' | EmptyString => EmptyString end.

Fixpoint drop_bytes (n : nat) (s : string) : string :=
  match n with
  | O => s
  | S n' => drop_bytes n' (advance s)
  end.

Definition is_digit (c : Ascii.ascii) : bool :=
  match digit_val c with Some _ => true | None => false end.

Fixpoint skip_digits (s : string) : string :=
  match s with
  | String c s' => if is_digit c then skip_digits s' else s
  | EmptyString => EmptyString
  end.

Definition is_leap (y : Z) : bool :=
  ((y mod 4 =? 0) && (negb (y mod 100 =? 0) || (y mod 400 =? 0)))%Z.

Definition days_in_month (y m : Z) : Z :=
  (if m =? 2 then (if is_leap y then 29 else 28)
   else if (m =? 4) || (m =? 6) || (m =? 9) || (m =? 11) then 30
   else 31)%Z.

(** Ordinals of days, 1 being 1 January of year 1. *)
Definition days_before_year (y : Z) : Z :=
  let y := (y - 1)%Z in (y * 365 + y / 4 - y / 100 + y / 400)%Z.

Definition days_before_month (y m : Z) : Z :=
  (nth (Z.to_nat m) [0; 0; 31; 59; 90; 120; 151; 181; 212; 243; 273; 304; 334] 0
   + if (2 <? m) && is_leap y then 1 else 0)%Z.

Definition ymd_to_ord (y m d : Z) : Z :=
  (days_before_year y + days_before_month y m + d)%Z.

Definition ord_to_ymd (ordinal : Z) : Z * Z * Z :=
  let n := (ordinal - 1)%Z in
  let n400 := (n / 146097)%Z in
  let n := (n mod 146097)%Z in
  let n100 := (n / 36524)%Z in
  let n := (n mod 36524)%Z in
  let n4 := (n / 1461)%Z in
  let n := (n mod 1461)%Z in
  let n1 := (n / 365)%Z in
  let n := (n mod 365)%Z in
  let y := (n400 * 400 + 1 + n100 * 100 + n4 * 4 + n1)%Z in
  if ((n1 =? 4) || (n100 =? 4))%Z then ((y - 1)%Z, 12%Z, 31%Z)
  else
    let leapyear := ((n1 =? 3) && (negb (n4 =? 24) || (n100 =? 3)))%Z in
    let m := ((n + 50) / 32)%Z in
    let preceding :=
      (nth (Z.to_nat m) [0; 0; 31; 59; 90; 120; 151; 181; 212; 243; 273; 304; 334] 0
       + if (2 <? m) && leapyear then 1 else 0)%Z in
    if (n <? preceding)%Z
    then (y, (m - 1)%Z, (n - (preceding - days_in_month y (m - 1)) + 1)%Z)
    else (y, m, (n - preceding + 1)%Z).

Definition weekday (y m d : Z) : Z := ((ymd_to_ord y m d + 6) mod 7)%Z.

Definition iso_week1_monday (y : Z) : Z :=
  let first_day := ymd_to_ord y 1 1 in
  let first_weekday := ((first_day + 6) mod 7)%Z in
  let week1_monday := (first_day - first_weekday)%Z in
  if (3 <? first_weekday)%Z then (week1_monday + 7)%Z else week1_monday.

(** The calendar date of a day of an ISO week.  Year 0 has none: what the
    library computes for it is refused when the [datetime] is built. *)
Definition iso_to_ymd (iso_year iso_week iso_day : Z) : option (Z * Z * Z) :=
  if (iso_year <? 1)%Z then None
  else if negb (((0 <? iso_week) && (iso_week <? 53))%Z
                || ((iso_week =? 53)%Z
                    && ((weekday iso_year 1 1 =? 3)%Z
                        || ((weekday iso_year 1 1 =? 2)%Z && is_leap iso_year))))
  then None
  else if negb ((0 <? iso_day) && (iso_day <? 8))%Z then None
  else Some (ord_to_ymd (iso_week1_monday iso_year + (iso_week - 1) * 7 + iso_day - 1)).

(** Where the date ends: 7, 8 or 10 bytes into a text of at least 7. *)
Definition find_isoformat_datetime_separator (s : string) : option nat :=
  let len := String.length s in
  let at_ i := peek (drop_bytes i s) in
  if (len =? 7)%nat then Some 7%nat
  else if Ascii.eqb (at_ 4%nat) "-"%char then
    if Ascii.eqb (at_ 5%nat) "W"%char then
      if (8 <? len)%nat && Ascii.eqb (at_ 8%nat) "-"%char then
        if (len =? 9)%nat then None
        else if (10 <? len)%nat && is_digit (at_ 10%nat) then Some 8%nat
        else Some 10%nat
      else Some 8%nat
    else Some 10%nat
  else if Ascii.eqb (at_ 4%nat) "W"%char then
    let idx := (len - String.length (skip_digits (drop_bytes 7 s)))%nat in
    if (idx <? 9)%nat then Some idx
    else if Nat.even idx then Some 7%nat else Some 8%nat
  else Some 8%nat.

(** The date of a text whose date part is [separator] bytes long. *)
Definition parse_isoformat_date (s : string) (separator : nat) : option (Z * Z * Z) :=
  '(y, s1) ← parse_digits 4 s 0%Z;
  let uses_separator := Ascii.eqb (peek s1) "-"%char in
  let s2 := if uses_separator then advance s1 else s1 in
  if Ascii.eqb (peek s2) "W"%char then
    '(w, s3) ← parse_digits 2 (advance s2) 0%Z;
    if ((if uses_separator then 8 else 7) <? separator)%nat then
      s4 ← (if uses_separator then expect "-"%char s3 else Some s3);
      '(d, _) ← parse_digits 1 s4 0%Z;
      iso_to_ymd y w d
    else iso_to_ymd y w 1%Z
  else
    '(m, s3) ← parse_digits 2 s2 0%Z;
    s4 ← (if uses_separator then expect "-"%char s3 else Some s3);
    '(d, _) ← parse_digits 2 s4 0%Z;
    Some (y, m, d).

(** The fraction of a second, of which six digits count, read from a text
    that has [n] bytes left before its end or its offset.  The flag tells
    that the text goes on after the digits. *)
Definition parse_fraction (s : string) (n : Z) : option (bool * Z) :=
  let to_parse := Z.to_nat (Z.min 6 n) in
  '(us, s') ← parse_digits to_parse s 0%Z;
  Some (negb (Ascii.eqb (peek (skip_digits s')) Ascii.zero),
        (us * 10 ^ (6 - Z.of_nat to_parse))%Z).

(** The components [HH], [MM] and [SS], of which [todo] are still to be
    read.  Either the text is at its end ([inl], with the flag that the
    last byte read was not the terminating zero) or a fraction follows
    ([inr]). *)
Fixpoint parse_components (todo : nat) (is_first has_separator : bool)
    (s : string) (n : Z) (vals : list Z)
  : option (list Z * (bool + string * Z)) :=
  match todo with
  | O => Some (vals, inr (s, n))
  | S todo' =>
      '(v, s1) ← parse_digits 2 s 0%Z;
      let c := peek s1 in
      let has_separator := if is_first then Ascii.eqb c ":"%char else has_separator in
      let vals := vals ++ [v] in
      if (n - 3 <=? 0)%Z then Some (vals, inl (negb (Ascii.eqb c Ascii.zero)))
      else if has_separator && Ascii.eqb c ":"%char
      then parse_components todo' false has_separator (advance s1) (n - 3)%Z vals
      else if Ascii.eqb c "."%char || Ascii.eqb c ","%char
      then Some (vals, inr (advance s1, (n - 3)%Z))
      else if negb has_separator
      then parse_components todo' false has_separator s1 (n - 2)%Z vals
      else None
  end.

(** [HH[[:]MM[[:]SS[(.|,)f+]]]] in the [n] bytes before the end of the
    text or before its offset. *)
Definition parse_hh_mm_ss_ff (s : string) (n : Z) : option (bool * (Z * Z * Z * Z)) :=
  '(vals, next) ← parse_components 3 true true s n [];
  let hms := (nth 0 vals 0%Z, nth 1 vals 0%Z, nth 2 vals 0%Z) in
  match next with
  | inl more => Some (more, (hms, 0%Z))
  | inr (s', n') => '(more, us) ← parse_fraction s' n'; Some (more, (hms, us))
  end.

Definition is_offset_start (c : Ascii.ascii) : bool :=
  Ascii.eqb c "Z"%char || Ascii.eqb c "+"%char || Ascii.eqb c "-"%char.

(** The number of bytes before the first [Z], [+] or [-], or the length. *)
Fixpoint offset_position (s : string) : nat :=
  match s with
  | String c s' => if is_offset_start c then O else S (offset_position s')
  | EmptyString => O
  end.

Definition day_us : Z := 86400000000.

(** The time and the offset (in microseconds) after the separator. *)
Definition parse_isoformat_time (s : string)
  : option (Z * Z * Z * Z * option Z) :=
  let len := String.length s in
  let tz := if (len =? 0)%nat then 1%nat else offset_position s in
  match parse_hh_mm_ss_ff s (Z.of_nat tz) with
  | None => None
  | Some (more, t) =>
      if (tz =? len)%nat then
        if more then None else Some (t, None)
      else
        let at_tz := drop_bytes tz s in
        if Ascii.eqb (peek at_tz) "Z"%char then
          if Ascii.eqb (peek (advance at_tz)) Ascii.zero then Some (t, Some 0%Z)
          else None
        else
          let sign := if Ascii.eqb (peek at_tz) "-"%char then (-1)%Z else 1%Z in
          match parse_hh_mm_ss_ff (advance at_tz) (Z.of_nat (len - tz - 1)) with
          | None => None
          | Some (more', (h, mi, se, us)) =>
              let seconds := (sign * (h * 3600 + mi * 60 + se))%Z in
              if more' then None
              else if (seconds =? 0)%Z then Some (t, Some 0%Z)
              else
                let off := (seconds * 1000000 + sign * us)%Z in
                if ((- day_us <? off) && (off <? day_us))%Z then Some (t, Some off)
                else None
          end
  end.

(** The length in bytes of the character that starts with byte [c]. *)
Definition utf8_width (c : Ascii.ascii) : nat :=
  let n := Ascii.N_of_ascii c in
  if (n <? 128)%N then 1%nat
  else if (N.land n 240 =? 224)%N then 3%nat
  else if (N.land n 240 =? 240)%N then 4%nat
  else 2%nat.

Definition valid_date (y m d : Z) : bool :=
  ((1 <=? y) && (y <=? 9999) && (1 <=? m) && (m <=? 12)
   && (1 <=? d) && (d <=? days_in_month y m))%Z.

Definition valid_time (h mi se : Z) : bool :=
  ((h <? 24) && (mi <? 60) && (se <? 60))%Z.

Definition fromisoformat (iso : string) : option datetime :=
  let len := String.length iso in
  if (len <? 7)%nat then None
  else
    separator ← find_isoformat_datetime_separator iso;
    '(y, m, d) ← parse_isoformat_date iso separator;
    '(h, mi, se, us, tz) ←
      (if (separator <? len)%nat then
         let width := utf8_width (peek (drop_bytes separator iso)) in
         if (len <? separator + width)%nat then None
         else parse_isoformat_time (drop_bytes (separator + width) iso)
       else Some (0%Z, 0%Z, 0%Z, 0%Z, @None Z));
    if valid_date y m d && valid_time h mi se
    then Some {| year := y; month := m; day := d;
                 hour := h; minute := mi; second := se; microsecond := us;
                 utcoffset := tz |}
    else None.

(** A number in [n] decimal digits, zero padded. *)
Fixpoint zero_pad (n : nat) (z : Z) : string :=
  match n with
  | O => EmptyString
  | S n' => String (digit_char ((z / 10 ^ Z.of_nat n') mod 10)) (zero_pad n' z)
  end.

(** [%Y] of the platform's [strftime]: the year in decimal, not padded. *)
Definition strftime_Y (y : Z) : string :=
  if (y <? 10)%Z then zero_pad 1 y
  else if (y <? 100)%Z then zero_pad 2 y
  else if (y <? 1000)%Z then zero_pad 3 y
  else zero_pad 4 y.

(** [dt.strftime("%m/%d/%Y")] *)
Definition strftime_mdY (dt : datetime) : string :=
  zero_pad 2 (month dt) +:+ "/" +:+ zero_pad 2 (day dt) +:+ "/" +:+ strftime_Y (year dt).

(** ** Payload construction ([app/clients/connecteam.py]) *)

Definition CF_CP_ID : Z := 15329039.
Definition CF_HIRE_DATE : Z := 4360693.
Definition CF_BIRTH_DATE : Z := 4360698.
Definition CF_BRANCH : Z := 4360696.
Definition CF_TEAM : Z := 4360694.
Definition CF_TITLE : Z := 4360692.
Definition CF_ORG : Z := 4360695.

Definition format_date (iso_date : string) : Res string :=
  match fromisoformat iso_date with
  | Some dt => Ok (strftime_mdY dt)
  | None => Raise ValueError
  end.

Definition get_team (proj_id : string) : string :=
  if String.prefix "2392" proj_id then "FL Security 2025" else "FL Baker 2025".

(** [custom_fields.append({..: format_date(iso)})] when [iso] is not empty *)
Definition append_date (cf_id : Z) (iso : string) (fields : list CustomField)
  : Res (list CustomField) :=
  if nonempty iso
  then res_bind (format_date iso) (fun v =>
         Ok (fields ++ [{| customFieldId := cf_id; value := v |}]))
  else Ok fields.

Definition build_payload (workforce : WorkforceRecord) (employee : EmployeeRecord)
  : Res Payload :=
  let custom_fields :=
    [ {| customFieldId := CF_CP_ID; value := empl_id employee |};
      {| customFieldId := CF_TITLE; value := bill_lab_cat_cd workforce |};
      {| customFieldId := CF_BRANCH; value := proj_id workforce |};
      {| customFieldId := CF_TEAM; value := get_team (proj_id workforce) |};
      {| customFieldId := CF_ORG; value := proj_name workforce |} ] in
  res_bind (append_date CF_HIRE_DATE (orig_hire_dt employee) custom_fields)
    (fun custom_fields =>
  res_bind (append_date CF_BIRTH_DATE (birth_dt employee) custom_fields)
    (fun custom_fields =>
  Ok {| userType := "user";
        isArchived := false;
        firstName := first_name employee;
        lastName := last_name employee;
        customFields := custom_fields;
        email := if nonempty (home_email_id employee)
                 then Some (home_email_id employee) else None |})).

(** ** Reports ([app/services/email_service.py])

    The reports are kept as the values their markup is rendered from: the
    header counters and one row per missing employee. *)

Record ReportRow : Type := {
  row_empl_id : string;
  row_name : string;
  row_email : string;        (* the HTML report only *)
  row_proj_id : string;
  row_proj_name : string;    (* the HTML report only *)
  row_team : string;
  row_labor_cat : string;
  row_hire_date : string;
  row_status : option bool   (* live mode: the Created / Failed badge *)
}.

Record Report : Type := {
  rep_dry_run : bool;
  rep_counts : option (Z * Z);    (* live mode: success_count, fail_count *)
  rep_total : Z;
  rep_projects : list string;     (* sorted(projects) *)
  rep_rows : list ReportRow
}.

Record Email : Type := {
  mail_source : string;
  mail_to : list string;
  mail_subject : Z * string;      (* len(missing_ids) and the project ids *)
  mail_text : Report;
  mail_html : Report
}.

(** ** Effects, traces and the outside world *)

Inductive Level : Type := LInfo | LError | LSuccess.

(** What [save_json] and [save_html] upload. *)
Inductive Stored : Type :=
| SProjects (d : dict string)
| SWorkforce (l : list WorkforceRecord)
| SEmployees (l : list EmployeeRecord)
| SIds (l : list string)
| SPreview (l : list PreviewEntry)
| SResults (l : list CreationResult)
| SHtml (h : Report).

Inductive Effect : Type :=
| EInitEventService (client_name function_name : string)
| EEvent (level : Level) (log_type : string)
| EGetSecretValue (secret_name : string)
| EDeltekPost (url : string) (payload : DeltekPayload) (timeout : Z)
| EUsersGet (url : string) (limit offset : Z) (userStatus : string)
| EUsersPost (url : string) (body : list Payload)
| EPutObject (key : string) (body : Stored)
| ESleep (milliseconds : Z)
| ESendEmail (mail : Email)
| ECloseDeltek
| ECloseConnecteam.

Definition Trace : Type := list Effect.

(** The answer of Secrets Manager to [get_secret_value]: a client error with
    its code, or a response with [SecretString], with [SecretBinary] or with
    neither; the secret is given as [json.loads] reads it, [None] when its
    text is not JSON (or, for [SecretBinary], does not decode to text). *)
Inductive SecretReply : Type :=
| SecretClientError (code : string)
| SecretString (decoded : option Secret)
| SecretBinary (decoded : option Secret)
| SecretMissing.

Record Backend : Type := {
  getenv : string -> option string;
  secrets_get_secret_value : Trace -> string -> SecretReply;
  deltek_http_post : Trace -> string -> DeltekPayload -> Z -> Exchange Document;
  users_http_get : Trace -> string -> Z -> Z -> string -> Exchange Page;
  users_http_post : Trace -> string -> list Payload -> Exchange Json;
  ses_send_email : Trace -> Email -> option string;  (* the MessageId, or an exception *)
  monotonic : Trace -> Z   (* [time.monotonic()], in milliseconds, at this trace *)
}.

(** The outcome of a computation.  [Unfinished] is not an outcome of the
    program: it marks a run of the model whose page loop was cut by its
    fuel, and no handler catches it. *)
Inductive Outcome (A : Type) : Type :=
| Done (r : Res A)
| Unfinished.
Arguments Done {A} r.
Arguments Unfinished {A}.

Definition M (A : Type) : Type := Trace -> Outcome A * Trace.

Definition ret {A} (a : A) : M A := fun tr => (Done (Ok a), tr).

Definition bind {A B} (m : M A) (k : A -> M B) : M B :=
  fun tr =>
    match m tr with
    | (Done (Ok a), tr') => k a tr'
    | (Done (Raise e), tr') => (Done (Raise e), tr')
    | (Unfinished, tr') => (Unfinished, tr')
    end.

#[global] Instance M_ret : MRet M := @ret.
#[global] Instance M_bind : MBind M := fun A B k m => bind m k.

Definition lift {A} (r : Res A) : M A := fun tr => (Done r, tr).

Definition emit (e : Effect) : M unit := fun tr => (Done (Ok tt), tr ++ [e]).

(** [try: m  except <the exceptions h handles>: ..] *)
Definition try_except {A} (m : M A) (h : Exn -> option (M A)) : M A :=
  fun tr =>
    match m tr with
    | (Done (Raise e), tr') =>
        match h e with
        | Some handler => handler tr'
        | None => (Done (Raise e), tr')
        end
    | r => r
    end.

(** [try: m  finally: fin]: [fin] runs whatever [m] returned or raised *)
Definition try_finally {A} (m : M A) (fin : M unit) : M A :=
  fun tr =>
    match m tr with
    | (Done r, tr') =>
        match fin tr' with
        | (Done (Ok _), tr'') => (Done r, tr'')
        | (Done (Raise e), tr'') => (Done (Raise e), tr'')
        | (Unfinished, tr'') => (Unfinished, tr'')
        end
    | (Unfinished, tr') => (Unfinished, tr')
    end.

(** [for x in l: acc = body acc x] *)
Fixpoint for_each {A S} (l : list A) (body : S -> A -> M S) (acc : S) : M S :=
  match l with
  | [] => ret acc
  | x :: l' => bind (body acc x) (for_each l' body)
  end.

(** stamina's default [timeout=45.0], the time that a retried call may
    take in all, in milliseconds. *)
Definition STAMINA_TIMEOUT : Z := 45000.

(** [@stamina.retry(on=httpx.TimeoutException, attempts=..)], which keeps
    stamina's default [timeout]: the call is made again when it raises a
    timeout, unless it has been made [attempts] times or, when that
    attempt failed, 45 seconds or more had passed since the first attempt
    began; any other outcome is final.  [clock] reads the monotonic clock
    at a trace and [start] is its reading when the first attempt began.
    The waits of [stamina] between two attempts leave no effect in the
    trace: they show in the clock alone. *)
Fixpoint retrying {A} (clock : Trace -> Z) (start : Z) (attempts : nat) (m : M A)
  : M A :=
  fun tr =>
    match m tr with
    | (Done (Raise TimeoutException), tr') =>
        match attempts with
        | S (S _ as remaining) =>
            if (STAMINA_TIMEOUT <=? clock tr' - start)%Z
            then (Done (Raise TimeoutException), tr')
            else retrying clock start remaining m tr'
        | _ => (Done (Raise TimeoutException), tr')
        end
    | r => r
    end.

Definition stamina_retry {A} (clock : Trace -> Z) (attempts : nat) (m : M A) : M A :=
  fun tr => retrying clock (clock tr) attempts m tr.

Definition is_success (code : Z) : bool := ((200 <=? code) && (code <=? 299))%Z.

(** [response.raise_for_status()] and [response.json()] *)
Definition raise_for_status {B} (r : Response B) : Res unit :=
  if is_success (status_code r) then Ok tt else Raise (HTTPStatusError (status_code r)).

Definition response_json {B} (r : Response B) : Res B :=
  match json r with
  | Some b => Ok b
  | None => Raise JSONDecodeError
  end.

(** One request: the effect is recorded and the exchange either yields a
    response or raises the transport's exception. *)
Definition request {B} (e : Effect) (x : Trace -> Exchange B) : M (Response B) :=
  fun tr =>
    match x tr with
    | Responded r => (Done (Ok r), tr ++ [e])
    | TimedOut => (Done (Raise TimeoutException), tr ++ [e])
    | Unreachable => (Done (Raise NetworkError), tr ++ [e])
    end.

(** [get_event_service().log_info / log_error / log_success], [time.sleep]
    and the two uploads of [app/utils/utils.py] *)
Definition log_event (level : Level) (log_type : string) : M unit :=
  emit (EEvent level log_type).

Definition sleep (ms : Z) : M unit := emit (ESleep ms).

Definition S3_KEY_PREFIX : string := "new-employees".

Definition save_json (data : Stored) (filename : string) : M unit :=
  emit (EPutObject (S3_KEY_PREFIX +:+ "/" +:+ filename) data).

Definition save_html (html : Report) (filename : string) : M unit :=
  emit (EPutObject (S3_KEY_PREFIX +:+ "/" +:+ filename) (SHtml html)).

Section Pipeline.

Context (be : Backend).

(** ** Secrets ([app/services/secrets_service.py]) *)

Definition get_secret (secret_name : string) : M Secret :=
  fun tr =>
    let tr' := tr ++ [EGetSecretValue secret_name] in
    match secrets_get_secret_value be tr secret_name with
    | SecretClientError code =>
        if String.eqb code "ResourceNotFoundException"
        then (Done (Raise ValueError), tr')
        else (Done (Raise ClientError), tr')
    | SecretString (Some secret) | SecretBinary (Some secret) => (Done (Ok secret), tr')
    | SecretString None | SecretBinary None => (Done (Raise ValueError), tr')
    | SecretMissing => (Done (Raise ValueError), tr')
    end.

(** ** The Costpoint client ([app/clients/deltek.py]) *)

Definition HTTP_TIMEOUT : Z := 300.

Definition _post (config : DeltekConfig) (payload : DeltekPayload)
    (timeout : option Z) : M Document :=
  stamina_retry (monotonic be) 3
    (let t := match timeout with Some t => if (t =? 0)%Z then HTTP_TIMEOUT else t
                               | None => HTTP_TIMEOUT end in
     response ← request (EDeltekPost (full_url config) payload t)
                  (fun tr => deltek_http_post be tr (full_url config) payload t);
     _ ← lift (raise_for_status response);
     lift (response_json response)).

Definition rsId_is (r : Row) (name : string) : bool :=
  bool_decide (row_rsId r = Some name).

(** The loops of [get_ct_projects] over the rows and their children. *)
Definition collect_ct_projects (filter_notes : string) (rows : Document) : dict string :=
  fold_left
    (fun ct_projects row =>
       if negb (rsId_is row "PJMBASIC_PROJ") then ct_projects
       else
         let proj_id := dict_get_default "PROJ_ID" "" (row_data row) in
         let proj_name := dict_get_default "PROJ_NAME" "" (row_data row) in
         fold_left
           (fun ct_projects child_row =>
              if rsId_is child_row "PJMBASIC_PROJ_NOTES"
                 && bool_decide (dict_get "NOTES" (row_data child_row) = Some filter_notes)
              then dict_setitem proj_id proj_name ct_projects
              else ct_projects)
           (row_children row) ct_projects)
    rows [].

Definition get_ct_projects (config : DeltekConfig) : M (dict string) :=
  let payload :=
    {| filter_id := "pjmbasicrrexpt";
       where_rsId := "PJMBASIC_PROJ";
       where_relations := [("ACTIVE_FL", "Y"); ("ALLOW_CHARGES_FL", "Y")];
       where_children := [] |} in
  data ← _post config payload None;
  mret (collect_ct_projects (filter_notes_value config) data).

(** [empl_rows] of [get_workforce]: the data of the labor-category rows,
    grouped by employee in order of first appearance. *)
Definition collect_empl_rows (rows : Document) : dict (list (dict string)) :=
  fold_left
    (fun empl_rows row =>
       if negb (rsId_is row "PJM_PROJEMPL_HDR") then empl_rows
       else
         fold_left
           (fun empl_rows child_row =>
              if negb (rsId_is child_row "PJM_PROJEMPL_LABCAT_PLCWKFRCE") then empl_rows
              else
                fold_left
                  (fun empl_rows gc_row =>
                     if negb (rsId_is gc_row "PJM_PROJEMPLLABCAT_PLCWK") then empl_rows
                     else
                       let d := row_data gc_row in
                       let empl_id :=
                         dict_get_default "PJM_PROJEMPLLABCAT_PLCWK_EMPL_ID" "" d in
                       if negb (nonempty empl_id) then empl_rows
                       else dict_setitem empl_id
                              (dict_get_default empl_id [] empl_rows ++ [d]) empl_rows)
                  (row_children child_row) empl_rows)
           (row_children row) empl_rows)
    rows [].

(** [next((r for r in rows if r.get("DFLT_FL") == "Y"), None)] *)
Definition default_row (rows : list (dict string)) : option (dict string) :=
  List.find (fun r => bool_decide (dict_get "DFLT_FL" r = Some "Y")) rows.

Fixpoint workforce_records (proj_id proj_name : string)
    (empl_rows : dict (list (dict string))) (records : list WorkforceRecord)
  : Res (list WorkforceRecord) :=
  match empl_rows with
  | [] => Ok records
  | (empl_id, rows) :: rest =>
      match default_row rows with
      | Some dflt =>
          res_bind (dict_getitem "PJM_PROJEMPLLABCAT_PLCWK_BILL_LAB_CAT_CD" dflt)
            (fun cat =>
               workforce_records proj_id proj_name rest
                 (records ++ [{| wf_empl_id := empl_id; proj_id := proj_id;
                                 proj_name := proj_name; bill_lab_cat_cd := cat |}]))
      | None => workforce_records proj_id proj_name rest records
      end
  end.

Definition get_workforce (config : DeltekConfig) (proj_id proj_name : string)
  : M (list WorkforceRecord) :=
  let payload :=
    {| filter_id := "pjmworkrrexp";
       where_rsId := "PJM_PROJEMPL_HDR";
       where_relations := [("PROJ_ID", proj_id)];
       where_children := ["PJM_PROJEMPL_CHILDTO"; "PJM_PROJEMPL_LABCAT_PLCWKFRCE"] |} in
  data ← _post config payload (Some 30%Z);
  lift (workforce_records proj_id proj_name (collect_empl_rows data) []).

Definition get_employee (config : DeltekConfig) (empl_id : string)
  : M (option EmployeeRecord) :=
  let payload :=
    {| filter_id := "ldmeinforrexpt";
       where_rsId := "LDMEINFO_EMPL";
       where_relations := [("EMPL_ID", empl_id)];
       where_children := [] |} in
  data ← try_except
           (data ← _post config payload (Some 30%Z); mret (Some data))
           (fun exc => match exc with
                       | HTTPStatusError _ => Some (mret None)
                       | _ => None
                       end);
  match data with
  | None => mret None
  | Some [] => mret None
  | Some (row :: _) =>
      let d := row_data row in
      mret (Some
        {| empl_id := empl_id;
           first_name := dict_get_default "FIRST_NAME" "" d;
           last_name := dict_get_default "LAST_NAME" "" d;
           home_email_id := dict_get_default "HOME_EMAIL_ID" "" d;
           orig_hire_dt := dict_get_default "ORIG_HIRE_DT" "" d;
           birth_dt := dict_get_default "BIRTH_DT" "" d;
           is_active := bool_decide (dict_get "S_EMPL_STATUS_CD" d = Some "ACT") |})
  end.

(** ** The Connecteam client ([app/clients/connecteam.py]) *)

Definition _get_users_page (config : ConnecteamConfig) (user_status : string)
    (offset limit : Z) : M Page :=
  stamina_retry (monotonic be) 3
    (response ← request (EUsersGet (users_base_url config) limit offset user_status)
                  (fun tr => users_http_get be tr (users_base_url config)
                               limit offset user_status);
     _ ← lift (raise_for_status response);
     lift (response_json response)).

(** [str(v)] and the truth value of [cf.get("value")] *)
Definition py_str (v : Scalar) : string :=
  match v with SStr s => s | SInt z => pretty z end.

Definition truthy (v : option Scalar) : bool :=
  match v with
  | Some (SStr s) => nonempty s
  | Some (SInt z) => negb (z =? 0)%Z
  | None => false
  end.

(** The two [for] loops over the users of a page and their custom fields. *)
Definition add_cp_ids (users : list User) (cp_ids : gset string) : gset string :=
  fold_left
    (fun cp_ids user =>
       fold_left
         (fun cp_ids cf =>
            match ucf_value cf with
            | Some v =>
                if bool_decide (ucf_customFieldId cf = Some CF_CP_ID)
                   && truthy (ucf_value cf)
                then {[py_str v]} ∪ cp_ids
                else cp_ids
            | None => cp_ids
            end)
         (user_customFields user) cp_ids)
    users cp_ids.

(** The [while True] loop of [_collect_cp_ids_by_status]; [fuel] bounds the
    number of pages the model requests. *)
Fixpoint collect_loop (fuel : nat) (config : ConnecteamConfig) (user_status : string)
    (cp_ids : gset string) (offset : Z) : M (gset string) :=
  match fuel with
  | O => fun tr => (Unfinished, tr)
  | S fuel' =>
      data ← _get_users_page config user_status offset 500%Z;
      let users := page_users data in
      if is_nil users then mret cp_ids
      else
        let cp_ids := add_cp_ids users cp_ids in
        match page_paging_offset data with
        | None => mret cp_ids
        | Some next_offset =>
            if (next_offset <=? offset)%Z then mret cp_ids
            else collect_loop fuel' config user_status cp_ids next_offset
        end
  end.

Definition _collect_cp_ids_by_status (fuel : nat) (config : ConnecteamConfig)
    (user_status : string) : M (gset string) :=
  collect_loop fuel config user_status ∅ 0%Z.

Definition get_existing_cp_ids (fuel : nat) (config : ConnecteamConfig)
  : M (gset string) :=
  active_ids ← _collect_cp_ids_by_status fuel config "active";
  archived_ids ← _collect_cp_ids_by_status fuel config "archived";
  mret (active_ids ∪ archived_ids).

Definition full_name (employee : EmployeeRecord) : string :=
  first_name employee +:+ " " +:+ last_name employee.

Definition post_user (config : ConnecteamConfig) (workforce : WorkforceRecord)
    (employee : EmployeeRecord) : M CreationResult :=
  stamina_retry (monotonic be) 3
    (payload ← lift (build_payload workforce employee);
     response ← request (EUsersPost (users_base_url config) [payload])
                  (fun tr => users_http_post be tr (users_base_url config) [payload]);
     if is_success (status_code response)
     then
       body ← lift (response_json response);
       mret (Created (empl_id employee) (full_name employee) body)
     else
       let error_detail :=
         match json response with
         | Some j => DetailJson j
         | None => DetailText (text response)
         end in
       mret (Failed (empl_id employee) (full_name employee)
               (status_code response) error_detail)).

(** ** The six phases ([app/services/sync.py]) *)

Definition run_phase_1 (deltek_config : DeltekConfig) : M (dict string) :=
  log_event LInfo "phase_1_starting";;
  ct_projects ← get_ct_projects deltek_config;
  save_json (SProjects ct_projects) "ne_ct_projects.json";;
  log_event LInfo "phase_1_complete";;
  mret ct_projects.

(** The inner loop of Phase 2: [if rec.empl_id not in workforce:
    workforce[rec.empl_id] = rec]. *)
Definition merge_records (records : list WorkforceRecord)
    (workforce : dict WorkforceRecord) : dict WorkforceRecord :=
  fold_left
    (fun workforce rec =>
       if negb (dict_mem (wf_empl_id rec) workforce)
       then dict_setitem (wf_empl_id rec) rec workforce
       else workforce)
    records workforce.

Definition run_phase_2 (deltek_config : DeltekConfig) (ct_projects : dict string)
  : M (dict WorkforceRecord) :=
  log_event LInfo "phase_2_starting";;
  workforce ←
    for_each ct_projects
      (fun workforce '(proj_id, proj_name) =>
         records ← get_workforce deltek_config proj_id proj_name;
         let workforce := merge_records records workforce in
         sleep 500;;
         mret workforce)
      [];
  save_json (SWorkforce (dict_values workforce)) "ne_workforce.json";;
  log_event LInfo "phase_2_complete";;
  mret workforce.

Definition run_phase_3 (deltek_config : DeltekConfig)
    (workforce : dict WorkforceRecord) : M (dict EmployeeRecord) :=
  log_event LInfo "phase_3_starting";;
  employees ←
    for_each (dict_keys workforce)
      (fun employees empl_id =>
         log_event LInfo "fetching_employee";;
         emp ← get_employee deltek_config empl_id;
         employees ←
           match emp with
           | None =>
               log_event LError "employee_not_found";;
               mret employees
           | Some emp =>
               if negb (is_active emp)
               then log_event LInfo "skipping_inactive_employee";;
                    mret employees
               else mret (dict_setitem empl_id emp employees)
           end;
         sleep 300;;
         mret employees)
      [];
  save_json (SEmployees (dict_values employees)) "ne_employees.json";;
  log_event LInfo "phase_3_complete";;
  mret employees.

(** [sorted(..)] of a set of strings *)
Definition sorted (ids : gset string) : list string :=
  merge_sort String.le (elements ids).

Definition run_phase_4 (fuel : nat) (ct_config : ConnecteamConfig) : M (gset string) :=
  log_event LInfo "phase_4_starting";;
  existing_cp_ids ← get_existing_cp_ids fuel ct_config;
  save_json (SIds (sorted existing_cp_ids)) "ne_existing_cp_ids.json";;
  log_event LInfo "phase_4_complete";;
  mret existing_cp_ids.

Definition run_phase_5 (employees : dict EmployeeRecord)
    (existing_cp_ids : gset string) : M (list string) :=
  log_event LInfo "phase_5_starting";;
  let missing_ids :=
    List.filter (fun eid => negb (bool_decide (eid ∈ existing_cp_ids)))
      (dict_keys employees) in
  save_json (SIds missing_ids) "ne_employees_to_add.json";;
  log_event LInfo "phase_5_complete";;
  mret missing_ids.

(** A list comprehension whose element expression can raise. *)
Fixpoint comprehension {A B} (f : A -> Res B) (l : list A) : Res (list B) :=
  match l with
  | [] => Ok []
  | x :: l' =>
      res_bind (f x) (fun y =>
      res_bind (comprehension f l') (fun ys => Ok (y :: ys)))
  end.

Definition preview_entry (workforce : dict WorkforceRecord)
    (employees : dict EmployeeRecord) (eid : string) : Res PreviewEntry :=
  res_bind (dict_getitem eid employees) (fun emp =>
  res_bind (dict_getitem eid workforce) (fun wf =>
  res_bind (build_payload wf emp) (fun payload =>
  Ok {| pv_empl_id := eid; pv_name := full_name emp; pv_payload := payload |}))).

Definition run_phase_6 (ct_config : ConnecteamConfig)
    (workforce : dict WorkforceRecord) (employees : dict EmployeeRecord)
    (missing_ids : list string) (dry_run : bool) : M (list CreationResult) :=
  log_event LInfo "phase_6_starting";;
  if dry_run then
    preview ← lift (comprehension (preview_entry workforce employees) missing_ids);
    save_json (SPreview preview) "ne_dry_run_preview.json";;
    log_event LInfo "phase_6_dry_run_complete";;
    mret []
  else
    results ←
      for_each missing_ids
        (fun results empl_id =>
           log_event LInfo "creating_user";;
           wf ← lift (dict_getitem empl_id workforce);
           emp ← lift (dict_getitem empl_id employees);
           result ← post_user ct_config wf emp;
           sleep 300;;
           mret (results ++ [result]))
        [];
    save_json (SResults results) "ne_import_results.json";;
    log_event LInfo "phase_6_complete";;
    mret results.

(** ** Report building and delivery ([app/services/email_service.py]) *)

Definition em_dash : string :=
  String (Ascii.ascii_of_N 226) (String (Ascii.ascii_of_N 128)
    (String (Ascii.ascii_of_N 148) EmptyString)).

(** [{workforce[eid].proj_id for eid in missing_ids}] *)
Definition project_set (workforce : dict WorkforceRecord) (missing_ids : list string)
  : Res (gset string) :=
  res_bind
    (comprehension
       (fun eid => res_bind (dict_getitem eid workforce) (fun wf => Ok (proj_id wf)))
       missing_ids)
    (fun ids => Ok (list_to_set ids)).

(** [sum(1 for r in results if r["success"])] *)
Definition count_success (results : list CreationResult) : Z :=
  Z.of_nat (length (List.filter success results)).

(** [{r["empl_id"]: r["success"] for r in results}] *)
Definition result_map (results : list CreationResult) : dict bool :=
  fold_left (fun m r => dict_setitem (result_empl_id r) (success r) m) results [].

Definition hire_date_cell (emp : EmployeeRecord) : Res string :=
  if nonempty (orig_hire_dt emp) then format_date (orig_hire_dt emp) else Ok em_dash.

Definition status_cell (dry_run : bool) (results : dict bool) (empl_id : string)
  : option bool :=
  if dry_run then None else Some (dict_get_default empl_id false results).

Definition build_html_email (workforce : dict WorkforceRecord)
    (employees : dict EmployeeRecord) (missing_ids : list string)
    (results : option (list CreationResult)) (dry_run : bool) : Res Report :=
  let total := Z.of_nat (length missing_ids) in
  res_bind (project_set workforce missing_ids) (fun projects =>
  let counts :=
    if dry_run then None
    else let success_count := count_success (default [] results) in
         Some (success_count, total - success_count)%Z in
  let result_map := result_map (default [] results) in
  res_bind
    (comprehension
       (fun eid =>
          res_bind (dict_getitem eid employees) (fun emp =>
          res_bind (dict_getitem eid workforce) (fun wf =>
          res_bind (hire_date_cell emp) (fun hire_date =>
          Ok {| row_empl_id := empl_id emp;
                row_name := full_name emp;
                row_email := if nonempty (home_email_id emp)
                             then home_email_id emp else em_dash;
                row_proj_id := proj_id wf;
                row_proj_name := proj_name wf;
                row_team := get_team (proj_id wf);
                row_labor_cat := bill_lab_cat_cd wf;
                row_hire_date := hire_date;
                row_status := status_cell dry_run result_map eid |}))))
       missing_ids)
    (fun rows =>
  Ok {| rep_dry_run := dry_run; rep_counts := counts; rep_total := total;
        rep_projects := sorted projects; rep_rows := rows |})).

(** The plain-text body prints the number of projects, not their ids, and
    neither the e-mail nor the project name of a row. *)
Definition build_plain_text_email (workforce : dict WorkforceRecord)
    (employees : dict EmployeeRecord) (missing_ids : list string)
    (results : option (list CreationResult)) (dry_run : bool) : Res Report :=
  let result_map := result_map (default [] results) in
  res_bind (project_set workforce missing_ids) (fun projects =>
  res_bind
    (comprehension
       (fun eid =>
          res_bind (dict_getitem eid employees) (fun emp =>
          res_bind (dict_getitem eid workforce) (fun wf =>
          res_bind (hire_date_cell emp) (fun hire =>
          Ok {| row_empl_id := empl_id emp;
                row_name := full_name emp;
                row_email := "";
                row_proj_id := proj_id wf;
                row_proj_name := "";
                row_team := get_team (proj_id wf);
                row_labor_cat := bill_lab_cat_cd wf;
                row_hire_date := hire;
                row_status := status_cell dry_run result_map eid |}))))
       missing_ids)
    (fun rows =>
  Ok {| rep_dry_run := dry_run; rep_counts := None;
        rep_total := Z.of_nat (length missing_ids);
        rep_projects := sorted projects; rep_rows := rows |})).

(** [s.split(",")] and [s.strip()] *)
Fixpoint split_commas (s : string) : list string :=
  match s with
  | EmptyString => [EmptyString]
  | String c s' =>
      if Ascii.eqb c ","%char then EmptyString :: split_commas s'
      else match split_commas s' with
           | x :: xs => String c x :: xs
           | [] => [String c EmptyString]
           end
  end.

(** White space is what [str.isspace] holds: the bytes 9-13 and 28-32,
    and, in their UTF-8 encoding, U+0085, U+00A0, U+1680, U+2000-U+200A,
    U+2028, U+2029, U+202F, U+205F and U+3000. *)
Definition is_whitespace (c : Ascii.ascii) : bool :=
  let n := Ascii.N_of_ascii c in
  ((9 <=? n) && (n <=? 13) || (28 <=? n) && (n <=? 32))%N.

Definition is_space_2 (b1 b2 : N) : bool :=
  ((b1 =? 194) && ((b2 =? 133) || (b2 =? 160)))%N.

Definition is_space_3 (b1 b2 b3 : N) : bool :=
  ((b1 =? 225) && (b2 =? 154) && (b3 =? 128)
   || (b1 =? 226) && (b2 =? 128)
      && ((128 <=? b3) && (b3 <=? 138) || (b3 =? 168) || (b3 =? 169) || (b3 =? 175))
   || (b1 =? 226) && (b2 =? 129) && (b3 =? 159)
   || (b1 =? 227) && (b2 =? 128) && (b3 =? 128))%N.

(** The text after its first character when that is white space;
    [backwards] tells that the text is read from its last byte. *)
Definition after_space (backwards : bool) (s : string) : option string :=
  match s with
  | String c1 s1 =>
      if is_whitespace c1 then Some s1
      else
        match s1 with
        | String c2 s2 =>
            if (if backwards
                then is_space_2 (Ascii.N_of_ascii c2) (Ascii.N_of_ascii c1)
                else is_space_2 (Ascii.N_of_ascii c1) (Ascii.N_of_ascii c2))
            then Some s2
            else
              match s2 with
              | String c3 s3 =>
                  if (if backwards
                      then is_space_3 (Ascii.N_of_ascii c3) (Ascii.N_of_ascii c2)
                             (Ascii.N_of_ascii c1)
                      else is_space_3 (Ascii.N_of_ascii c1) (Ascii.N_of_ascii c2)
                             (Ascii.N_of_ascii c3))
                  then Some s3
                  else None
              | EmptyString => None
              end
        | EmptyString => None
        end
  | EmptyString => None
  end.

Fixpoint strip_spaces (fuel : nat) (backwards : bool) (s : string) : string :=
  match fuel with
  | O => s
  | S fuel' =>
      match after_space backwards s with
      | Some s' => strip_spaces fuel' backwards s'
      | None => s
      end
  end.

Definition lstrip (s : string) : string := strip_spaces (String.length s) false s.

Definition strip (s : string) : string :=
  String.rev (strip_spaces (String.length s) true (String.rev (lstrip s))).

Definition SES_FROM_EMAIL : string :=
  default "noreply@pci-federal.com" (getenv be "SES_FROM_EMAIL").

Definition SES_TO_EMAILS : string := default "" (getenv be "SES_TO_EMAILS").

(** The [try: ses_client.send_email(..)  except Exception: ..] of
    [send_import_email] *)
Definition deliver (mail : Email) : M bool :=
  fun tr =>
    match ses_send_email be tr mail with
    | Some _ => (Done (Ok true), tr ++ [ESendEmail mail])
    | None => (Done (Ok false), tr ++ [ESendEmail mail])
    end.

Definition send_import_email (workforce : dict WorkforceRecord)
    (employees : dict EmployeeRecord) (missing_ids : list string)
    (results : option (list CreationResult)) (dry_run : bool) : M bool :=
  html_body ← lift (build_html_email workforce employees missing_ids results dry_run);
  text_body ← lift (build_plain_text_email workforce employees missing_ids results dry_run);
  if dry_run then
    save_html html_body "dry_run_email_preview.html";;
    mret true
  else
    let recipients :=
      List.filter nonempty (map strip (split_commas SES_TO_EMAILS)) in
    if is_nil recipients then mret false
    else
      projects ← lift (project_set workforce missing_ids);
      let mail :=
        {| mail_source := SES_FROM_EMAIL;
           mail_to := recipients;
           mail_subject := (Z.of_nat (length missing_ids),
                            String.concat ", " (sorted projects));
           mail_text := text_body;
           mail_html := html_body |} in
      deliver mail.

(** ** The pipeline ([sync] of [app/services/sync.py]) *)

Definition function_name : string :=
  default "connectteam-to-costpoint-new-employees" (getenv be "AWS_LAMBDA_FUNCTION_NAME").

(** The body of the [try] block of [sync]. *)
Definition sync_phases (fuel : nat) (deltek_config : DeltekConfig)
    (ct_config : ConnecteamConfig) (dry_run : bool) : M Z :=
  ct_projects ← run_phase_1 deltek_config;
  if is_nil ct_projects then
    log_event LError "no_ct_projects_found";;
    mret 1%Z
  else
  workforce ← run_phase_2 deltek_config ct_projects;
  if is_nil workforce then
    log_event LError "no_workforce_records";;
    mret 1%Z
  else
  employees ← run_phase_3 deltek_config workforce;
  if is_nil employees then
    log_event LInfo "no_active_employees_in_workforce";;
    mret 0%Z
  else
  existing_cp_ids ← run_phase_4 fuel ct_config;
  missing_ids ← run_phase_5 employees existing_cp_ids;
  if is_nil missing_ids then
    log_event LInfo "all_ct_employees_already_in_connecteam";;
    mret 0%Z
  else
  results ← run_phase_6 ct_config workforce employees missing_ids dry_run;
  _ ← send_import_email workforce employees missing_ids
        (if is_nil results then None else Some results) dry_run;
  let failed := length (List.filter (fun r => negb (success r)) results) in
  if negb dry_run && negb (failed =? 0)%nat then
    log_event LError "pipeline_complete_with_failures";;
    mret 1%Z
  else
    log_event LSuccess "pipeline_complete";;
    mret 0%Z.

(** The [try] block of [sync] that reads the two secrets; [None] stands for
    the [return 1] of its [except ValueError] handler. *)
Definition load_configs (client_name : string)
  : M (option (DeltekConfig * ConnecteamConfig)) :=
  try_except
    (deltek_secrets ← get_secret ("costpoint/" +:+ client_name);
     ct_secrets ← get_secret ("connectteam/" +:+ client_name);
     deltek_config ← lift (DeltekConfig_from_env deltek_secrets);
     ct_config ← lift (ConnecteamConfig_from_env ct_secrets);
     mret (Some (deltek_config, ct_config)))
    (fun e => match e with
              | ValueError => Some (log_event LError "configuration_error";; mret None)
              | _ => None
              end).

Definition sync (fuel : nat) (client_name : string) (dry_run : bool) : M Z :=
  emit (EInitEventService client_name function_name);;
  log_event LInfo "pipeline_starting";;
  configs ← load_configs client_name;
  match configs with
  | None => mret 1%Z
  | Some (deltek_config, ct_config) =>
      log_event LInfo "configurations_loaded";;
      try_finally
        (try_except (sync_phases fuel deltek_config ct_config dry_run)
           (fun _ => Some (log_event LError "pipeline_fatal_error";; mret 1%Z)))
        (emit ECloseDeltek;; emit ECloseConnecteam)
  end.

End Pipeline.

(** ** A concrete run

    Two qualifying projects, three active employees of whom one is on both
    projects and already has a Connecteam account: two employees are
    missing.  The answer of Connecteam to a creation request is left
    open. *)

Module Scenario.

Definition labcat_row (empl_id cat : string) : Row :=
  MkRow (Some "PJM_PROJEMPLLABCAT_PLCWK")
    [("PJM_PROJEMPLLABCAT_PLCWK_EMPL_ID", empl_id); ("DFLT_FL", "Y");
     ("PJM_PROJEMPLLABCAT_PLCWK_BILL_LAB_CAT_CD", cat)] [].

Definition roster (rows : list Row) : Document :=
  [MkRow (Some "PJM_PROJEMPL_HDR") []
     [MkRow (Some "PJM_PROJEMPL_LABCAT_PLCWKFRCE") [] rows]].

Definition project_row (proj_id proj_name : string) : Row :=
  MkRow (Some "PJMBASIC_PROJ") [("PROJ_ID", proj_id); ("PROJ_NAME", proj_name)]
    [MkRow (Some "PJMBASIC_PROJ_NOTES") [("NOTES", "CT")] []].

Definition employee_row (first last mail hired born : string) : Document :=
  [MkRow (Some "LDMEINFO_EMPL")
     [("FIRST_NAME", first); ("LAST_NAME", last); ("HOME_EMAIL_ID", mail);
      ("ORIG_HIRE_DT", hired); ("BIRTH_DT", born); ("S_EMPL_STATUS_CD", "ACT")] []].

Definition ok {B} (body : B) : Exchange B :=
  Responded {| status_code := 200; json := Some body; text := "" |}.

Definition costpoint (projects : Document) (payload : DeltekPayload) : Exchange Document :=
  if String.eqb (filter_id payload) "pjmbasicrrexpt" then ok projects
  else if String.eqb (filter_id payload) "pjmworkrrexp" then
    match where_relations payload with
    | [(_, "2392100")] => ok (roster [labcat_row "E001" "GUARD1"; labcat_row "E002" "GUARD2"])
    | [(_, "1000001")] => ok (roster [labcat_row "E001" "CLERK"; labcat_row "E003" "CLERK"])
    | _ => ok []
    end
  else
    match where_relations payload with
    | [(_, "E001")] => ok (employee_row "Ada" "Archer" "ada@example.com"
                             "2011-07-11T00:00:00" "1980-02-29T00:00:00")
    | [(_, "E002")] => ok (employee_row "Ben" "Baker" "" "2020-01-15T00:00:00" "")
    | [(_, "E003")] => ok (employee_row "Cy" "Clark" "cy@example.com" "" "1975-12-01T08:30:00")
    | _ => ok []
    end.

Definition two_projects : Document :=
  [project_row "2392100" "Security North"; project_row "1000001" "Baker East"].

Definition connecteam_users (user_status : string) (offset : Z) : Exchange Page :=
  if String.eqb user_status "active" && (offset =? 0)%Z then
    ok {| page_users :=
            [{| user_customFields :=
                  [{| ucf_customFieldId := Some CF_CP_ID;
                      ucf_value := Some (SStr "E001") |}] |}];
          page_paging_offset := None |}
  else ok {| page_users := []; page_paging_offset := None |}.

Definition secrets (secret_name : string) : SecretReply :=
  if String.eqb secret_name "costpoint/acme" then
    SecretString (Some (SecretObject [("base_url", "https://costpoint.example/api");
                                      ("system", "PROD"); ("cp_company", "1");
                                      ("username", "svc"); ("password", "pw")]))
  else SecretString (Some (SecretObject [("key", "k-123")])).

(** The clock of the concrete runs: a request to Costpoint or to
    Connecteam lasts as long as its timeout allows (the 30 or 300 seconds
    of a Costpoint request, the 30 seconds of a Connecteam request), and
    nothing else takes time. *)
Definition clock (tr : Trace) : Z :=
  fold_left
    (fun now e =>
       match e with
       | EDeltekPost _ _ timeout => now + 1000 * timeout
       | EUsersGet _ _ _ _ | EUsersPost _ _ => now + 30000
       | _ => now
       end)%Z
    tr 0%Z.

Definition backend (projects : Document)
    (post : Trace -> list Payload -> Exchange Json) : Backend :=
  {| getenv := fun name =>
       if String.eqb name "SES_TO_EMAILS" then Some "hr@example.com, ops@example.com"
       else None;
     secrets_get_secret_value := fun _ name => secrets name;
     deltek_http_post := fun _ _ payload _ => costpoint projects payload;
     users_http_get := fun _ _ _ offset user_status => connecteam_users user_status offset;
     users_http_post := fun tr _ body => post tr body;
     ses_send_email := fun _ _ => Some "message-1";
     monotonic := clock |}.

Definition deltek_config : DeltekConfig :=
  {| base_url := "https://costpoint.example/api"; system := "PROD"; company := "1";
     username := "svc"; password := "pw"; filter_notes_value := "CT" |}.

Definition ct_config : ConnecteamConfig :=
  {| api_key := "k-123"; users_base_url := "https://api.connecteam.com/users/v1/users" |}.

Definition ct_projects : dict string :=
  [("2392100", "Security North"); ("1000001", "Baker East")].

Definition e001_wf : WorkforceRecord :=
  {| wf_empl_id := "E001"; proj_id := "2392100"; proj_name := "Security North";
     bill_lab_cat_cd := "GUARD1" |}.
Definition e002_wf : WorkforceRecord :=
  {| wf_empl_id := "E002"; proj_id := "2392100"; proj_name := "Security North";
     bill_lab_cat_cd := "GUARD2" |}.
Definition e003_wf : WorkforceRecord :=
  {| wf_empl_id := "E003"; proj_id := "1000001"; proj_name := "Baker East";
     bill_lab_cat_cd := "CLERK" |}.

Definition e001 : EmployeeRecord :=
  {| empl_id := "E001"; first_name := "Ada"; last_name := "Archer";
     home_email_id := "ada@example.com"; orig_hire_dt := "2011-07-11T00:00:00";
     birth_dt := "1980-02-29T00:00:00"; is_active := true |}.
Definition e002 : EmployeeRecord :=
  {| empl_id := "E002"; first_name := "Ben"; last_name := "Baker";
     home_email_id := ""; orig_hire_dt := "2020-01-15T00:00:00";
     birth_dt := ""; is_active := true |}.
Definition e003 : EmployeeRecord :=
  {| empl_id := "E003"; first_name := "Cy"; last_name := "Clark";
     home_email_id := "cy@example.com"; orig_hire_dt := "";
     birth_dt := "1975-12-01T08:30:00"; is_active := true |}.

(** What Phases 2, 3 and 5 yield in this run. *)
Definition workforce : dict WorkforceRecord :=
  [("E001", e001_wf); ("E002", e002_wf); ("E003", e003_wf)].

Definition employees : dict EmployeeRecord :=
  [("E001", e001); ("E002", e002); ("E003", e003)].

Definition missing_ids : list string := ["E002"; "E003"].

(** Connecteam accepts every creation request. *)
Definition accepts : Trace -> list Payload -> Exchange Json :=
  fun _ _ => ok (JObj [("requestId", JStr "r-1")]).

(** Connecteam rejects the creation of Ben Baker with status 400. *)
Definition rejects_ben : Trace -> list Payload -> Exchange Json :=
  fun _ body =>
    match body with
    | [p] => if String.eqb (firstName p) "Ben"
             then Responded {| status_code := 400; json := None; text := "bad request" |}
             else ok JNull
    | _ => ok JNull
    end.

(** Every creation request times out. *)
Definition times_out : Trace -> list Payload -> Exchange Json :=
  fun _ _ => TimedOut.

(** Costpoint answers every request with status 503. *)
Definition costpoint_down : Backend :=
  {| getenv := fun _ => None;
     secrets_get_secret_value := fun _ name => secrets name;
     deltek_http_post := fun _ _ _ _ =>
       Responded {| status_code := 503; json := None; text := "unavailable" |};
     users_http_get := fun _ _ _ offset user_status => connecteam_users user_status offset;
     users_http_post := fun tr _ body => accepts tr body;
     ses_send_email := fun _ _ => Some "message-1";
     monotonic := clock |}.

(** A listing that never ends: every page holds one user and points 500
    further. *)
Definition endless_page (offset : Z) : Page :=
  {| page_users := [{| user_customFields := [] |}];
     page_paging_offset := Some (offset + 500)%Z |}.

Definition endless_listing : Backend :=
  {| getenv := fun _ => None;
     secrets_get_secret_value := fun _ name => secrets name;
     deltek_http_post := fun _ _ payload _ => costpoint two_projects payload;
     users_http_get := fun _ _ _ offset _ => ok (endless_page offset);
     users_http_post := fun tr _ body => accepts tr body;
     ses_send_email := fun _ _ => Some "message-1";
     monotonic := clock |}.

(** A listing of two pages: the first points to offset 500, the second has
    no next offset. *)
Definition two_pages : Backend :=
  {| getenv := fun _ => None;
     secrets_get_secret_value := fun _ name => secrets name;
     deltek_http_post := fun _ _ payload _ => costpoint two_projects payload;
     users_http_get := fun _ _ _ offset _ =>
       ok {| page_users :=
               [{| user_customFields :=
                     [{| ucf_customFieldId := Some CF_CP_ID;
                         ucf_value := Some (if (offset =? 0)%Z then SStr "E001"
                                            else SInt 7) |}] |}];
             page_paging_offset := if (offset =? 0)%Z then Some 500%Z else None |};
     users_http_post := fun tr _ body => accepts tr body;
     ses_send_email := fun _ _ => Some "message-1";
     monotonic := clock |}.

End Scenario.

(** ** The specification's reading of a payload

    The values a payload carries for a custom field, in order; the
    [MM/DD/YYYY] text read off the date fields of an ISO date-time
    [YYYY-MM-DD..]: characters 5-6, 8-9 and 0-3; and the text the code
    makes of the date a string denotes. *)



Definition formatted (iso : string) : string :=
  match fromisoformat iso with
  | Some dt =>
      zero_pad 2 (month dt) +:+ "/" +:+ zero_pad 2 (day dt) +:+ "/"
      +:+ strftime_Y (year dt)
  | None => EmptyString
  end.


(** A date string of a member detail: empty, or one that
    [datetime.fromisoformat] reads. *)
Definition iso_or_empty (s : string) : Prop :=
  s = EmptyString \/ is_Some (fromisoformat s).

(** ** Observations on traces and runs *)

(** The bodies of the creation requests sent to Connecteam, in order. *)
Definition posted (tr : Trace) : list (list Payload) :=
  omap (fun e => match e with EUsersPost _ body => Some body | _ => None end) tr.

(** The inputs of Phase 6 as the data model has them: every missing id has a
    membership record and a member detail, whose dates are empty or read
    by [datetime.fromisoformat]. *)
Definition phase_6_inputs (workforce : dict WorkforceRecord)
    (employees : dict EmployeeRecord) (missing_ids : list string) : Prop :=
  forall eid, eid ∈ missing_ids ->
    exists wf emp,
      dict_get eid workforce = Some wf /\ dict_get eid employees = Some emp
      /\ iso_or_empty (orig_hire_dt emp) /\ iso_or_empty (birth_dt emp).

(** The request body sent for a missing id, and the result recorded for
    it. *)
Definition sent_for (workforce : dict WorkforceRecord)
    (employees : dict EmployeeRecord) (eid : string) (body : list Payload) : Prop :=
  exists wf emp p,
    dict_get eid workforce = Some wf /\ dict_get eid employees = Some emp
    /\ build_payload wf emp = Ok p /\ body = [p].

Definition recorded_for (employees : dict EmployeeRecord) (eid : string)
    (result : CreationResult) : Prop :=
  exists emp, dict_get eid employees = Some emp /\ result_empl_id result = empl_id emp.

(** The preview entry of a missing id: tagged with the id and the display
    name, and carrying the payload [build_payload] gives for its records. *)
Definition previewed_for (workforce : dict WorkforceRecord)
    (employees : dict EmployeeRecord) (eid : string) (entry : PreviewEntry) : Prop :=
  pv_empl_id entry = eid
  /\ exists wf emp,
       dict_get eid workforce = Some wf /\ dict_get eid employees = Some emp
       /\ pv_name entry = first_name emp +:+ " " +:+ last_name emp
       /\ build_payload wf emp = Ok (pv_payload entry).

(** A missing id whose records are found and give a payload. *)
Definition attempted (workforce : dict WorkforceRecord)
    (employees : dict EmployeeRecord) (eid : string) : Prop :=
  exists wf emp p,
    dict_get eid workforce = Some wf /\ dict_get eid employees = Some emp
    /\ build_payload wf emp = Ok p.

(** Connecteam answers every creation request with an HTTP response: a 2xx
    response with a JSON body, or a response of another status. *)
Definition creation_answered (be : Backend) : Prop :=
  forall tr url body,
    exists r, users_http_post be tr url body = Responded r
              /\ (is_success (status_code r) = true -> is_Some (json r)).

(** The result recorded for an employee whose creation request Connecteam
    answered with the response [r]: a success that carries the decoded body
    when the status is 2xx, and otherwise a failure that carries the status
    and the body, decoded when it is JSON and as text when it is not. *)
Definition result_of (emp : EmployeeRecord) (r : Response Json)
    (result : CreationResult) : Prop :=
  if is_success (status_code r)
  then exists body, json r = Some body
                    /\ result = Created (empl_id emp) (full_name emp) body
  else result = Failed (empl_id emp) (full_name emp) (status_code r)
                  (match json r with
                   | Some j => DetailJson j
                   | None => DetailText (text r)
                   end).

(** [creations be config workforce employees ids tr results tr']: from
    trace [tr], for each id of [ids] in turn, the event [creating_user] is
    logged, one creation request with the payload of the id's records is
    sent, Connecteam answers it, the answer gives the id's result, and the
    loop sleeps 300 milliseconds; [tr'] is the trace after the last id. *)
Inductive creations (be : Backend) (config : ConnecteamConfig)
    (workforce : dict WorkforceRecord) (employees : dict EmployeeRecord)
  : list string -> Trace -> list CreationResult -> Trace -> Prop :=
| creations_done tr : creations be config workforce employees [] tr [] tr
| creations_next eid ids wf emp p r result results tr tr' :
    dict_get eid workforce = Some wf -> dict_get eid employees = Some emp ->
    build_payload wf emp = Ok p ->
    users_http_post be (tr ++ [EEvent LInfo "creating_user"])
      (users_base_url config) [p] = Responded r ->
    result_of emp r result ->
    creations be config workforce employees ids
      (tr ++ [EEvent LInfo "creating_user";
              EUsersPost (users_base_url config) [p]; ESleep 300])
      results tr' ->
    creations be config workforce employees (eid :: ids) tr (result :: results) tr'.

(** The trace of [sync] at the point where it reads the secrets, and a run
    of [sync] from trace [tr] in which the configurations load, Phases 1 to
    5 succeed without an early exit, and Phase 6 is entered at trace [t6]
    with the given mappings and missing list. *)
Definition sync_started (be : Backend) (client_name : string) (tr : Trace) : Trace :=
  tr ++ [EInitEventService client_name (function_name be);
         EEvent LInfo "pipeline_starting"].

Definition reaches_phase_6 (be : Backend) (fuel : nat) (client_name : string)
    (tr : Trace) (ct_config : ConnecteamConfig) (workforce : dict WorkforceRecord)
    (employees : dict EmployeeRecord) (missing_ids : list string) (t6 : Trace) : Prop :=
  exists deltek_config t1 ct_projects t2 t3 t4 existing_cp_ids t5,
    load_configs be client_name (sync_started be client_name tr)
      = (Done (Ok (Some (deltek_config, ct_config))), t1)
    /\ run_phase_1 be deltek_config (t1 ++ [EEvent LInfo "configurations_loaded"])
        = (Done (Ok ct_projects), t2)
    /\ ct_projects <> []
    /\ run_phase_2 be deltek_config ct_projects t2 = (Done (Ok workforce), t3)
    /\ workforce <> []
    /\ run_phase_3 be deltek_config workforce t3 = (Done (Ok employees), t4)
    /\ employees <> []
    /\ run_phase_4 be fuel ct_config t4 = (Done (Ok existing_cp_ids), t5)
    /\ run_phase_5 employees existing_cp_ids t5 = (Done (Ok missing_ids), t6)
    /\ missing_ids <> [].

(** The traces of the concrete run of client [acme] from the empty trace,
    after the configurations are loaded and after each of Phases 1 to 5. *)
Module ScenarioRun.

Definition existing_cp_ids : gset string := {["E001"]}.

Definition t1 (be : Backend) : Trace :=
  snd (load_configs be "acme" (sync_started be "acme" [])).
Definition t2 (be : Backend) : Trace :=
  snd (run_phase_1 be Scenario.deltek_config
         (t1 be ++ [EEvent LInfo "configurations_loaded"])).
Definition t3 (be : Backend) : Trace :=
  snd (run_phase_2 be Scenario.deltek_config Scenario.ct_projects (t2 be)).
Definition t4 (be : Backend) : Trace :=
  snd (run_phase_3 be Scenario.deltek_config Scenario.workforce (t3 be)).
Definition t5 (be : Backend) : Trace :=
  snd (run_phase_4 be 2 Scenario.ct_config (t4 be)).
Definition t6 (be : Backend) : Trace :=
  snd (run_phase_5 Scenario.employees existing_cp_ids (t5 be)).

End ScenarioRun.

(** A computation that raises no [KeyError], from whatever trace it starts. *)
Definition key_safe {A} (m : M A) : Prop :=
  forall tr tr' k, m tr <> (Done (Raise (KeyError k)), tr').

(** A run of the model that is cut whatever fuel it is given, having made
    one more request for each unit of fuel. *)
Definition runs_forever {A} (loop : nat -> M A) (tr : Trace) : Prop :=
  forall fuel, exists tr',
    loop fuel tr = (Unfinished, tr') /\ length tr' = (length tr + fuel)%nat.

(** ** The specification's stop rule for the page loop

    A page ends the listing when it has no users, or when its next offset
    is missing or not past the current offset; any other page leads on to
    its next offset. *)

Definition stops_here (offset : Z) (page : Page) : Prop :=
  page_users page = []
  \/ page_paging_offset page = None
  \/ exists next, page_paging_offset page = Some next /\ (next <= offset)%Z.

Definition leads_to (offset : Z) (page : Page) (next : Z) : Prop :=
  page_users page <> [] /\ page_paging_offset page = Some next /\ (offset < next)%Z.

(** [listing be config status offset tr pages tr']: from [offset] and trace
    [tr], Connecteam serves the pages [pages], of which the last one, and no
    earlier one, ends the listing; [tr'] is the trace after them. *)
Inductive listing (be : Backend) (config : ConnecteamConfig) (user_status : string)
  : Z -> Trace -> list Page -> Trace -> Prop :=
| listing_last offset tr page tr' :
    _get_users_page be config user_status offset 500%Z tr = (Done (Ok page), tr') ->
    stops_here offset page ->
    listing be config user_status offset tr [page] tr'
| listing_more offset tr page tr' next pages tr'' :
    _get_users_page be config user_status offset 500%Z tr = (Done (Ok page), tr') ->
    leads_to offset page next ->
    listing be config user_status next tr' pages tr'' ->
    listing be config user_status offset tr (page :: pages) tr''.

(** The dedup keys of a sequence of pages. *)
Definition cp_ids_of_pages (pages : list Page) : gset string :=
  fold_left (fun cp_ids page => add_cp_ids (page_users page) cp_ids) pages ∅.

(** ** The specification's first-seen rule

    Stated on the rosters in the order the groups are processed: the record
    of an employee is the one of the first roster that has a record for
    that employee. *)

Definition record_for (e : string) (roster : list WorkforceRecord)
  : option WorkforceRecord :=
  List.find (fun rec => String.eqb (wf_empl_id rec) e) roster.

Fixpoint first_seen (e : string) (rosters : list (list WorkforceRecord))
  : option WorkforceRecord :=
  match rosters with
  | [] => None
  | roster :: later =>
      match record_for e roster with
      | Some rec => Some rec
      | None => first_seen e later
      end
  end.

(** ** Further observations on traces and on the outside world *)

(** The Costpoint requests, the e-mails and the uploads of a trace, in
    order. *)
Definition costpoint_requests (tr : Trace) : list DeltekPayload :=
  omap (fun e => match e with EDeltekPost _ payload _ => Some payload | _ => None end) tr.

Definition emails (tr : Trace) : list Email :=
  omap (fun e => match e with ESendEmail mail => Some mail | _ => None end) tr.

Definition uploads (tr : Trace) : list (string * Stored) :=
  omap (fun e => match e with EPutObject key body => Some (key, body) | _ => None end) tr.

(** A computation that only extends the trace, and only by effects that
    [allowed] admits, whatever its outcome. *)
Definition emits_only {A} (allowed : Effect -> bool) (m : M A) : Prop :=
  forall tr, exists new,
    snd (m tr) = tr ++ new /\ Forall (fun e => allowed e = true) new.

(** The effects that change something outside: a creation request to
    Connecteam and an e-mail; an upload. *)
Definition is_write (e : Effect) : bool :=
  match e with
  | EUsersPost _ _ | ESendEmail _ => true
  | _ => false
  end.

Definition is_upload (e : Effect) : bool :=
  match e with
  | EPutObject _ _ => true
  | _ => false
  end.

(** Every character of a string satisfies [p]. *)
Fixpoint string_forall (p : Ascii.ascii -> bool) (s : string) : bool :=
  match s with
  | EmptyString => true
  | String c s' => p c && string_forall p s'
  end.

(** [SES_TO_EMAILS] names nobody: it holds nothing but commas and white
    space of one byte. *)
Definition names_nobody (s : string) : bool :=
  string_forall (fun c => Ascii.eqb c ","%char || is_whitespace c) s.

(** A row of the project report that [get_ct_projects] takes for a CT
    project: a [PJMBASIC_PROJ] row with a [PJMBASIC_PROJ_NOTES] child whose
    [NOTES] is the configured value; the id and the name it is stored
    under. *)
Definition is_ct_project (filter_notes : string) (row : Row) : bool :=
  rsId_is row "PJMBASIC_PROJ"
  && existsb
       (fun child_row =>
          rsId_is child_row "PJMBASIC_PROJ_NOTES"
          && bool_decide (dict_get "NOTES" (row_data child_row) = Some filter_notes))
       (row_children row).

Definition project_id_of (row : Row) : string :=
  dict_get_default "PROJ_ID" "" (row_data row).

Definition project_name_of (row : Row) : string :=
  dict_get_default "PROJ_NAME" "" (row_data row).

(** The statuses of [sync] and the audit event that each [return] of
    [sync] is preceded by. *)
Definition final_events : list (Z * Level * string) :=
  [ (1%Z, LError, "configuration_error");
    (1%Z, LError, "no_ct_projects_found");
    (1%Z, LError, "no_workforce_records");
    (0%Z, LInfo, "no_active_employees_in_workforce");
    (0%Z, LInfo, "all_ct_employees_already_in_connecteam");
    (1%Z, LError, "pipeline_complete_with_failures");
    (0%Z, LSuccess, "pipeline_complete");
    (1%Z, LError, "pipeline_fatal_error") ].

(** Costpoint answers every employee lookup (report [ldmeinforrexpt]) with
    a status outside 2xx; Costpoint lets every employee lookup time out. *)
Definition lookups_rejected (be : Backend) (config : DeltekConfig) : Prop :=
  forall tr payload timeout, filter_id payload = "ldmeinforrexpt" ->
    exists r,
      deltek_http_post be tr (full_url config) payload timeout = Responded r
      /\ is_success (status_code r) = false.

Definition lookups_time_out (be : Backend) (config : DeltekConfig) : Prop :=
  forall tr payload timeout, filter_id payload = "ldmeinforrexpt" ->
    deltek_http_post be tr (full_url config) payload timeout = TimedOut.

(** A Costpoint request that times out has lasted at least its timeout
    (the timeout is in seconds, the clock in milliseconds). *)
Definition timeouts_run_out (be : Backend) (config : DeltekConfig) : Prop :=
  forall tr payload timeout,
    deltek_http_post be tr (full_url config) payload timeout = TimedOut ->
    (1000 * timeout
     <= monotonic be (tr ++ [EDeltekPost (full_url config) payload timeout])
        - monotonic be tr)%Z.

(** A mapping whose keys are distinct and whose records are stored under
    their own employee id. *)
Definition keyed_by {V} (id : V -> string) (d : dict V) : Prop :=
  NoDup (dict_keys d) /\ forall k v, dict_get k d = Some v -> id v = k.

(** ** Further concrete backends *)

Module Edge.

(** Costpoint returns, for every roster, one default row that has no
    labor category. *)
Definition no_labor_category : Backend :=
  {| getenv := fun _ => None;
     secrets_get_secret_value := fun _ name => Scenario.secrets name;
     deltek_http_post := fun _ _ payload _ =>
       if String.eqb (filter_id payload) "pjmworkrrexp"
       then Scenario.ok
              (Scenario.roster
                 [MkRow (Some "PJM_PROJEMPLLABCAT_PLCWK")
                    [("PJM_PROJEMPLLABCAT_PLCWK_EMPL_ID", "E009"); ("DFLT_FL", "Y")] []])
       else Scenario.costpoint Scenario.two_projects payload;
     users_http_get := fun _ _ _ offset user_status =>
       Scenario.connecteam_users user_status offset;
     users_http_post := fun tr _ body => Scenario.accepts tr body;
     ses_send_email := fun _ _ => Some "message-1";
     monotonic := Scenario.clock |}.

(** Costpoint answers every employee lookup with status 500. *)
Definition lookups_down : Backend :=
  {| getenv := fun _ => None;
     secrets_get_secret_value := fun _ name => Scenario.secrets name;
     deltek_http_post := fun _ _ payload _ =>
       if String.eqb (filter_id payload) "ldmeinforrexpt"
       then Responded {| status_code := 500; json := None; text := "error" |}
       else Scenario.costpoint Scenario.two_projects payload;
     users_http_get := fun _ _ _ offset user_status =>
       Scenario.connecteam_users user_status offset;
     users_http_post := fun tr _ body => Scenario.accepts tr body;
     ses_send_email := fun _ _ => Some "message-1";
     monotonic := Scenario.clock |}.

(** Costpoint lets every request time out. *)
Definition costpoint_silent : Backend :=
  {| getenv := fun _ => None;
     secrets_get_secret_value := fun _ name => Scenario.secrets name;
     deltek_http_post := fun _ _ _ _ => TimedOut;
     users_http_get := fun _ _ _ offset user_status =>
       Scenario.connecteam_users user_status offset;
     users_http_post := fun tr _ body => Scenario.accepts tr body;
     ses_send_email := fun _ _ => Some "message-1";
     monotonic := Scenario.clock |}.

(** Costpoint lets the first request of a run time out and answers from
    the second request on. *)
Definition costpoint_slow_start : Backend :=
  {| getenv := fun _ => None;
     secrets_get_secret_value := fun _ name => Scenario.secrets name;
     deltek_http_post := fun tr _ payload _ =>
       if is_nil (costpoint_requests tr) then TimedOut
       else Scenario.costpoint Scenario.two_projects payload;
     users_http_get := fun _ _ _ offset user_status =>
       Scenario.connecteam_users user_status offset;
     users_http_post := fun tr _ body => Scenario.accepts tr body;
     ses_send_email := fun _ _ => Some "message-1";
     monotonic := Scenario.clock |}.

(** Connecteam lets the first creation request of a run time out and
    accepts from the second on. *)
Definition connecteam_slow_start : Backend :=
  {| getenv := fun _ => None;
     secrets_get_secret_value := fun _ name => Scenario.secrets name;
     deltek_http_post := fun _ _ payload _ =>
       Scenario.costpoint Scenario.two_projects payload;
     users_http_get := fun _ _ _ offset user_status =>
       Scenario.connecteam_users user_status offset;
     users_http_post := fun tr _ body =>
       if is_nil (posted tr) then TimedOut else Scenario.accepts tr body;
     ses_send_email := fun _ _ => Some "message-1";
     monotonic := Scenario.clock |}.

(** Connecteam accepts every creation request with status 201 and a body
    that is not JSON. *)
Definition connecteam_plain_text : Backend :=
  {| getenv := fun _ => None;
     secrets_get_secret_value := fun _ name => Scenario.secrets name;
     deltek_http_post := fun _ _ payload _ =>
       Scenario.costpoint Scenario.two_projects payload;
     users_http_get := fun _ _ _ offset user_status =>
       Scenario.connecteam_users user_status offset;
     users_http_post := fun _ _ _ =>
       Responded {| status_code := 201; json := None; text := "created" |};
     ses_send_email := fun _ _ => Some "message-1";
     monotonic := Scenario.clock |}.

(** Secrets Manager refuses the Connecteam secret with an error other than
    [ResourceNotFoundException]. *)
Definition secret_denied : Backend :=
  {| getenv := fun _ => None;
     secrets_get_secret_value := fun _ name =>
       if String.eqb name "connectteam/acme"
       then SecretClientError "AccessDeniedException"
       else Scenario.secrets name;
     deltek_http_post := fun _ _ payload _ =>
       Scenario.costpoint Scenario.two_projects payload;
     users_http_get := fun _ _ _ offset user_status =>
       Scenario.connecteam_users user_status offset;
     users_http_post := fun tr _ body => Scenario.accepts tr body;
     ses_send_email := fun _ _ => Some "message-1";
     monotonic := Scenario.clock |}.

(** The Connecteam secret is the JSON text of a list. *)
Definition secret_not_object : Backend :=
  {| getenv := fun _ => None;
     secrets_get_secret_value := fun _ name =>
       if String.eqb name "connectteam/acme"
       then SecretString (Some SecretValue)
       else Scenario.secrets name;
     deltek_http_post := fun _ _ payload _ =>
       Scenario.costpoint Scenario.two_projects payload;
     users_http_get := fun _ _ _ offset user_status =>
       Scenario.connecteam_users user_status offset;
     users_http_post := fun tr _ body => Scenario.accepts tr body;
     ses_send_email := fun _ _ => Some "message-1";
     monotonic := Scenario.clock |}.

(** The Connecteam secret holds no [key]. *)
Definition no_api_key : Backend :=
  {| getenv := fun _ => None;
     secrets_get_secret_value := fun _ name =>
       if String.eqb name "connectteam/acme"
       then SecretString (Some (SecretObject [("api_key", "k-123")]))
       else Scenario.secrets name;
     deltek_http_post := fun _ _ payload _ =>
       Scenario.costpoint Scenario.two_projects payload;
     users_http_get := fun _ _ _ offset user_status =>
       Scenario.connecteam_users user_status offset;
     users_http_post := fun tr _ body => Scenario.accepts tr body;
     ses_send_email := fun _ _ => Some "message-1";
     monotonic := Scenario.clock |}.

(** The member details of a run in which Costpoint holds a hire date of
    Cy Clark that is not an ISO date. *)
Definition e003_bad_date : EmployeeRecord :=
  {| empl_id := "E003"; first_name := "Cy"; last_name := "Clark";
     home_email_id := "cy@example.com"; orig_hire_dt := "01/15/2020";
     birth_dt := "1975-12-01T08:30:00"; is_active := true |}.

Definition employees_bad_date : dict EmployeeRecord :=
  [("E001", Scenario.e001); ("E002", Scenario.e002); ("E003", e003_bad_date)].

(** [SES_TO_EMAILS] is set to separators only, and SES refuses every
    e-mail. *)
Definition no_recipients : Backend :=
  {| getenv := fun name => if String.eqb name "SES_TO_EMAILS" then Some " , ," else None;
     secrets_get_secret_value := fun _ name => Scenario.secrets name;
     deltek_http_post := fun _ _ payload _ =>
       Scenario.costpoint Scenario.two_projects payload;
     users_http_get := fun _ _ _ offset user_status =>
       Scenario.connecteam_users user_status offset;
     users_http_post := fun tr _ body => Scenario.accepts tr body;
     ses_send_email := fun _ _ => Some "message-1";
     monotonic := Scenario.clock |}.

Definition ses_down : Backend :=
  {| getenv := fun name =>
       if String.eqb name "SES_TO_EMAILS" then Some "hr@example.com" else None;
     secrets_get_secret_value := fun _ name => Scenario.secrets name;
     deltek_http_post := fun _ _ payload _ =>
       Scenario.costpoint Scenario.two_projects payload;
     users_http_get := fun _ _ _ offset user_status =>
       Scenario.connecteam_users user_status offset;
     users_http_post := fun tr _ body => Scenario.accepts tr body;
     ses_send_email := fun _ _ => None;
     monotonic := Scenario.clock |}.

End Edge.

(** A user of a page carries the dedup key [x]: one of its custom fields
    has the id of the Costpoint employee id and a value that counts as
    true, and [x] is that value as a string. *)
Definition carries_cp_id (users : list User) (x : string) : Prop :=
  exists user cf v,
    user ∈ users /\ cf ∈ user_customFields user
    /\ ucf_customFieldId cf = Some CF_CP_ID
    /\ ucf_value cf = Some v /\ truthy (Some v) = true /\ x = py_str v.

(** The records of a membership mapping sit under their own id, which is
    not empty, and belong to one of the qualifying projects. *)
Definition membership_sound (ct_projects : dict string)
    (workforce : dict WorkforceRecord) : Prop :=
  keyed_by wf_empl_id workforce
  /\ forall k rec, dict_get k workforce = Some rec ->
       (proj_id rec, proj_name rec) ∈ ct_projects /\ k <> "".

(** The member details of a mapping sit under their own id and are
    active. *)
Definition details_sound (employees : dict EmployeeRecord) : Prop :=
  keyed_by empl_id employees
  /\ forall k emp, dict_get k employees = Some emp -> is_active emp = true.

(** * Properties *)

(** ** Running computations *)

Lemma bind_unfold {A B} (m : M A) (k : A -> M B) tr :
  (m ≫= k) tr =
  match m tr with
  | (Done (Ok a), tr') => k a tr'
  | (Done (Raise e), tr') => (Done (Raise e), tr')
  | (Unfinished, tr') => (Unfinished, tr')
  end.
Proof. reflexivity. Qed.

Lemma bind_ok {A B} (m : M A) (k : A -> M B) tr a tr1 :
  m tr = (Done (Ok a), tr1) -> (m ≫= k) tr = k a tr1.
Proof. intros H. rewrite bind_unfold, H. reflexivity. Qed.

Lemma bind_raise {A B} (m : M A) (k : A -> M B) tr e tr1 :
  m tr = (Done (Raise e), tr1) -> (m ≫= k) tr = (Done (Raise e), tr1).
Proof. intros H. rewrite bind_unfold, H. reflexivity. Qed.

Lemma bind_ok_inv {A B} (m : M A) (k : A -> M B) tr b tr' :
  (m ≫= k) tr = (Done (Ok b), tr') ->
  exists a tr1, m tr = (Done (Ok a), tr1) /\ k a tr1 = (Done (Ok b), tr').
Proof.
  rewrite bind_unfold. destruct (m tr) as [[[a|e]|] tr1]; intros H.
  - eauto.
  - discriminate.
  - discriminate.
Qed.

Lemma lift_ok_bind {A B} (a : A) (k : A -> M B) tr : (lift (Ok a) ≫= k) tr = k a tr.
Proof. reflexivity. Qed.

Lemma lift_raise_bind {A B} e (k : A -> M B) tr :
  (lift (Raise e) ≫= k) tr = (Done (Raise e), tr).
Proof. reflexivity. Qed.

Lemma emit_run e tr : emit e tr = (Done (Ok tt), tr ++ [e]).
Proof. reflexivity. Qed.

Lemma emit_then {B} e (k : unit -> M B) tr : (emit e ≫= k) tr = k tt (tr ++ [e]).
Proof. reflexivity. Qed.

Lemma log_event_then {B} level log_type (k : unit -> M B) tr :
  (log_event level log_type ≫= k) tr = k tt (tr ++ [EEvent level log_type]).
Proof. reflexivity. Qed.

Lemma sleep_then {B} ms (k : unit -> M B) tr :
  (sleep ms ≫= k) tr = k tt (tr ++ [ESleep ms]).
Proof. reflexivity. Qed.

Lemma save_json_then {B} data filename (k : unit -> M B) tr :
  (save_json data filename ≫= k) tr =
  k tt (tr ++ [EPutObject (S3_KEY_PREFIX +:+ "/" +:+ filename) data]).
Proof. reflexivity. Qed.

Lemma mret_run {A} (a : A) tr : (mret a : M A) tr = (Done (Ok a), tr).
Proof. reflexivity. Qed.

Lemma for_each_cons {A S} (x : A) l (body : S -> A -> M S) acc :
  for_each (x :: l) body acc = (body acc x ≫= for_each l body).
Proof. reflexivity. Qed.

(** ** Dictionaries *)

Lemma dict_get_setitem {V} k k' (v : V) d :
  dict_get k (dict_setitem k' v d) =
  if String.eqb k k' then Some v else dict_get k d.
Proof.
  induction d as [|[k0 v0] d IH]; simpl.
  - reflexivity.
  - destruct (String.eqb k' k0) eqn:E0; simpl.
    + apply String.eqb_eq in E0. subst k0.
      destruct (String.eqb k k'); reflexivity.
    + destruct (String.eqb k k0) eqn:E1.
      * apply String.eqb_eq in E1. subst k0.
        destruct (String.eqb k k') eqn:E2; [|reflexivity].
        apply String.eqb_eq in E2. subst k'. rewrite String.eqb_refl in E0.
        discriminate.
      * exact IH.
Qed.

Lemma dict_get_Some_keys {V} k (v : V) d : dict_get k d = Some v -> k ∈ dict_keys d.
Proof.
  induction d as [|[k0 v0] d IH]; simpl; [discriminate|].
  destruct (String.eqb k k0) eqn:E.
  - apply String.eqb_eq in E. subst. intros _. apply list_elem_of_here.
  - intros H. apply list_elem_of_further. auto.
Qed.

Lemma keys_dict_get {V} k (d : dict V) : k ∈ dict_keys d -> is_Some (dict_get k d).
Proof.
  induction d as [|[k0 v0] d IH]; simpl.
  - intros H. inversion H.
  - intros H. destruct (String.eqb k k0) eqn:E; [eauto|].
    apply IH. apply elem_of_cons in H as [->|H]; [|exact H].
    rewrite String.eqb_refl in E. discriminate.
Qed.

Lemma keys_setitem {V} k (v : V) d x :
  x ∈ dict_keys (dict_setitem k v d) -> x = k \/ x ∈ dict_keys d.
Proof.
  intros H. apply keys_dict_get in H as [w Hw].
  rewrite dict_get_setitem in Hw. destruct (String.eqb x k) eqn:E.
  - left. by apply String.eqb_eq.
  - right. by eapply dict_get_Some_keys.
Qed.

(** ** Phase 5 *)

Lemma filter_not_in (E : gset string) (l : list string) :
  List.filter (fun eid => negb (bool_decide (eid ∈ E))) l = filter (λ k, k ∉ E) l.
Proof.
  induction l as [|x l IH]; simpl; [reflexivity|].
  rewrite filter_cons. destruct (decide (x ∉ E)) as [Hx|Hx].
  - rewrite bool_decide_eq_false_2 by exact Hx. simpl. by rewrite IH.
  - rewrite bool_decide_eq_true_2; [simpl; exact IH|].
    destruct (decide (x ∈ E)); [assumption|contradiction].
Qed.

(** C1.  For every mapping [D] of member details and every set [E] of
    existing identities, Phase 5 returns exactly the keys of [D] that are
    not in [E], in the insertion order of [D]: the result is the filtered
    key list, a sublist of the keys, with exactly the keys outside [E] as
    members; besides its two audit events the phase only stores that
    list. *)
Theorem run_phase_5_missing_set (D : dict EmployeeRecord) (E : gset string) (tr : Trace) :
  exists missing,
    run_phase_5 D E tr =
      (Done (Ok missing),
       tr ++ [EEvent LInfo "phase_5_starting";
              EPutObject "new-employees/ne_employees_to_add.json" (SIds missing);
              EEvent LInfo "phase_5_complete"])
    /\ missing = filter (λ k, k ∉ E) (dict_keys D)
    /\ sublist missing (dict_keys D)
    /\ (forall k, k ∈ missing <-> k ∈ dict_keys D /\ k ∉ E).
Proof.
  exists (filter (λ k, k ∉ E) (dict_keys D)). split; [|split; [reflexivity|split]].
  - unfold run_phase_5, log_event, save_json.
    rewrite filter_not_in, !emit_then. unfold mret, M_ret, ret.
    rewrite <- !app_assoc. reflexivity.
  - apply sublist_filter.
  - intros k. rewrite list_elem_of_filter. tauto.
Qed.

(** ** Phase 2 *)

Lemma dict_mem_false {V} k (d : dict V) : dict_mem k d = false <-> dict_get k d = None.
Proof. unfold dict_mem. destruct (dict_get k d); split; congruence. Qed.

Lemma record_for_cons e rec roster :
  record_for e (rec :: roster) =
  if String.eqb (wf_empl_id rec) e then Some rec else record_for e roster.
Proof. reflexivity. Qed.

Lemma merge_records_get e records workforce :
  dict_get e (merge_records records workforce) =
  match dict_get e workforce with
  | Some rec => Some rec
  | None => record_for e records
  end.
Proof.
  revert workforce. induction records as [|rec records IH]; intros workforce.
  - simpl. destruct (dict_get e workforce); reflexivity.
  - unfold merge_records in *. simpl fold_left. rewrite IH, record_for_cons.
    destruct (dict_mem (wf_empl_id rec) workforce) eqn:Hmem; simpl negb; cbv iota.
    + destruct (dict_get e workforce) eqn:He; [reflexivity|].
      destruct (String.eqb (wf_empl_id rec) e) eqn:Heq; [|reflexivity].
      apply String.eqb_eq in Heq. subst e.
      apply dict_mem_false in He. congruence.
    + rewrite dict_get_setitem, (String.eqb_sym e).
      destruct (String.eqb (wf_empl_id rec) e) eqn:Heq; [|reflexivity].
      apply String.eqb_eq in Heq. subst e.
      apply dict_mem_false in Hmem. rewrite Hmem. reflexivity.
Qed.

Lemma merge_rosters_get e rosters workforce :
  dict_get e (fold_left (fun w roster => merge_records roster w) rosters workforce) =
  match dict_get e workforce with
  | Some rec => Some rec
  | None => first_seen e rosters
  end.
Proof.
  revert workforce. induction rosters as [|roster rosters IH]; intros workforce; simpl.
  - destruct (dict_get e workforce); reflexivity.
  - rewrite IH, merge_records_get.
    destruct (dict_get e workforce); [reflexivity|].
    destruct (record_for e roster); reflexivity.
Qed.

Lemma first_seen_app e earlier later :
  Forall (fun roster => record_for e roster = None) earlier ->
  first_seen e (earlier ++ later) = first_seen e later.
Proof.
  induction 1 as [|roster earlier Hr _ IH]; simpl; [reflexivity|].
  rewrite Hr. exact IH.
Qed.

Section Phase2.

Context (be : Backend) (config : DeltekConfig).

(** The loop of Phase 2 merges, in order, the rosters that the successive
    calls of [get_workforce] return. *)
Lemma phase_2_loop ct_projects acc tr workforce tr' :
  for_each ct_projects
    (fun workforce '(proj_id, proj_name) =>
       records ← get_workforce be config proj_id proj_name;
       let workforce := merge_records records workforce in
       sleep 500;; mret workforce) acc tr = (Done (Ok workforce), tr') ->
  exists rosters,
    Forall2 (fun group roster => exists t t',
               get_workforce be config group.1 group.2 t = (Done (Ok roster), t'))
            ct_projects rosters
    /\ workforce = fold_left (fun w roster => merge_records roster w) rosters acc.
Proof.
  revert acc tr. induction ct_projects as [|[proj_id proj_name] rest IH]; intros acc tr.
  - simpl. unfold ret. intros [= <- <-]. exists []. split; [constructor|reflexivity].
  - rewrite for_each_cons. intros H.
    apply bind_ok_inv in H as (w1 & t1 & Hbody & Hrest).
    apply bind_ok_inv in Hbody as (records & t2 & Hget & Hbody).
    cbv zeta in Hbody. unfold sleep in Hbody. rewrite emit_then in Hbody.
    injection Hbody as <- <-.
    apply IH in Hrest as (rosters & Hall & ->).
    exists (records :: rosters). split; [|reflexivity].
    constructor; [|exact Hall]. simpl. eauto.
Qed.

(** C2.  Phase 2 keeps the first record seen: when Phase 2 returns a
    mapping, there are the rosters returned for the groups, one per group in
    the iteration order of the Phase-1 mapping, and the record the mapping
    holds for an employee is the one of the first roster that has a record
    for that employee; a record of a later roster never replaces it. *)
Theorem run_phase_2_first_seen_wins (ct_projects : dict string) tr workforce tr' :
  run_phase_2 be config ct_projects tr = (Done (Ok workforce), tr') ->
  exists rosters,
    Forall2 (fun group roster => exists t t',
               get_workforce be config group.1 group.2 t = (Done (Ok roster), t'))
            ct_projects rosters
    /\ (forall e, dict_get e workforce = first_seen e rosters)
    /\ (forall e earlier roster later rec,
          rosters = earlier ++ roster :: later ->
          Forall (fun r => record_for e r = None) earlier ->
          record_for e roster = Some rec ->
          dict_get e workforce = Some rec).
Proof.
  unfold run_phase_2, log_event. rewrite emit_then. intros H.
  apply bind_ok_inv in H as (w & t1 & Hloop & Hrest).
  unfold save_json in Hrest. rewrite !emit_then in Hrest.
  injection Hrest as <- <-.
  apply phase_2_loop in Hloop as (rosters & Hall & ->).
  assert (Hget : forall e,
    dict_get e (fold_left (fun w roster => merge_records roster w) rosters [])
    = first_seen e rosters).
  { intros e. rewrite merge_rosters_get. reflexivity. }
  exists rosters. split; [exact Hall|]. split; [exact Hget|].
  intros e earlier roster later rec -> Hearlier Hrec.
  rewrite Hget, first_seen_app by exact Hearlier. simpl. rewrite Hrec. reflexivity.
Qed.

End Phase2.

Lemma run_phase_2_first_seen_wins_witness :
  let be := Scenario.backend Scenario.two_projects Scenario.accepts in
  let run := run_phase_2 be Scenario.deltek_config Scenario.ct_projects [] in
  run = (Done (Ok Scenario.workforce), snd run)
  /\ exists rosters,
       Forall2 (fun group roster => exists t t',
                  get_workforce be Scenario.deltek_config group.1 group.2 t
                  = (Done (Ok roster), t'))
               Scenario.ct_projects rosters
       /\ (forall e, dict_get e Scenario.workforce = first_seen e rosters)
       /\ (forall e earlier roster later rec,
             rosters = earlier ++ roster :: later ->
             Forall (fun r => record_for e r = None) earlier ->
             record_for e roster = Some rec ->
             dict_get e Scenario.workforce = Some rec).
Proof.
  cbv zeta.
  assert (H : run_phase_2 (Scenario.backend Scenario.two_projects Scenario.accepts)
                Scenario.deltek_config Scenario.ct_projects []
              = (Done (Ok Scenario.workforce),
                 snd (run_phase_2 (Scenario.backend Scenario.two_projects Scenario.accepts)
                        Scenario.deltek_config Scenario.ct_projects [])))
    by (vm_compute; reflexivity).
  split; [exact H|].
  exact (run_phase_2_first_seen_wins _ _ _ _ _ _ H).
Defined.

(** ** Dates and payloads *)

Example format_date_doc : format_date "2011-07-11T00:00:00" = Ok "07/11/2011".
Proof. reflexivity. Qed.

Example format_date_reads_no_time :
  format_date "2011-07-11T23:59:59.123456+05:30" = Ok "07/11/2011".
Proof. reflexivity. Qed.

Example format_date_rejects_day_31 : format_date "2011-02-31T00:00:00" = Raise ValueError.
Proof. reflexivity. Qed.

(** The other forms that [datetime.fromisoformat] reads since Python 3.11:
    a trailing [Z], the basic format, a week date, a fraction of any
    length; and a year below 1000, which [%Y] prints without padding. *)
Example format_date_utc_suffix : format_date "2011-07-11T00:00:00Z" = Ok "07/11/2011".
Proof. vm_compute. reflexivity. Qed.

Example format_date_basic_format : format_date "20110711T000000" = Ok "07/11/2011".
Proof. vm_compute. reflexivity. Qed.

Example format_date_week_date : format_date "2011-W28-1" = Ok "07/11/2011".
Proof. vm_compute. reflexivity. Qed.

Example format_date_short_fraction :
  format_date "2011-07-11T00:00:00.5" = Ok "07/11/2011".
Proof. vm_compute. reflexivity. Qed.

Example format_date_year_999 : format_date "0999-01-01T00:00:00" = Ok "01/01/999".
Proof. vm_compute. reflexivity. Qed.

Example format_date_rejects_us_date : format_date "07/11/2011" = Raise ValueError.
Proof. vm_compute. reflexivity. Qed.

Example get_team_2392100 : get_team "2392100" = "FL Security 2025".
Proof. reflexivity. Qed.

Example get_team_1000001 : get_team "1000001" = "FL Baker 2025".
Proof. reflexivity. Qed.






Lemma drop_bytes_app pre rest : drop_bytes (String.length pre) (pre +:+ rest) = rest.
Proof. induction pre as [|c pre IH]; simpl; [reflexivity|exact IH]. Qed.






Lemma format_date_iso s :
  is_Some (fromisoformat s) -> format_date s = Ok (formatted s).
Proof. intros [dt H]. unfold format_date, formatted, strftime_mdY. rewrite H. reflexivity. Qed.

Lemma append_date_ok cf_id iso fields :
  iso_or_empty iso ->
  append_date cf_id iso fields =
  Ok (fields ++ if nonempty iso
                then [{| customFieldId := cf_id; value := formatted iso |}]
                else []).
Proof.
  unfold append_date. intros [->|H]; simpl.
  - by rewrite app_nil_r.
  - destruct (nonempty iso).
    + rewrite format_date_iso by exact H. reflexivity.
    + by rewrite app_nil_r.
Qed.


Lemma build_payload_value workforce employee :
  iso_or_empty (orig_hire_dt employee) ->
  iso_or_empty (birth_dt employee) ->
  build_payload workforce employee =
  Ok {| userType := "user";
        isArchived := false;
        firstName := first_name employee;
        lastName := last_name employee;
        customFields :=
          ([ {| customFieldId := CF_CP_ID; value := empl_id employee |};
             {| customFieldId := CF_TITLE; value := bill_lab_cat_cd workforce |};
             {| customFieldId := CF_BRANCH; value := proj_id workforce |};
             {| customFieldId := CF_TEAM; value := get_team (proj_id workforce) |};
             {| customFieldId := CF_ORG; value := proj_name workforce |} ]
           ++ (if nonempty (orig_hire_dt employee)
               then [{| customFieldId := CF_HIRE_DATE;
                        value := formatted (orig_hire_dt employee) |}]
               else []))
          ++ (if nonempty (birth_dt employee)
              then [{| customFieldId := CF_BIRTH_DATE;
                       value := formatted (birth_dt employee) |}]
              else []);
        email := if nonempty (home_email_id employee)
                 then Some (home_email_id employee) else None |}.
Proof.
  intros Hhire Hbirth. unfold build_payload.
  rewrite (append_date_ok _ _ _ Hhire). cbn [res_bind].
  rewrite (append_date_ok _ _ _ Hbirth). reflexivity.
Qed.




(** ** Requests and retries *)

Lemma retrying_final {A} clock start attempts (m : M A) tr r tr' :
  m tr = (r, tr') -> r <> Done (Raise TimeoutException) ->
  retrying clock start attempts m tr = (r, tr').
Proof.
  intros H Hr. destruct attempts; simpl; rewrite H;
    destruct r as [[a|[]]|]; try reflexivity; contradiction.
Qed.

Lemma stamina_retry_final {A} clock attempts (m : M A) tr r tr' :
  m tr = (r, tr') -> r <> Done (Raise TimeoutException) ->
  stamina_retry clock attempts m tr = (r, tr').
Proof. apply retrying_final. Qed.

Lemma request_responded {B} e (x : Trace -> Exchange B) tr r :
  x tr = Responded r -> request e x tr = (Done (Ok r), tr ++ [e]).
Proof. unfold request. intros ->. reflexivity. Qed.

Section CostpointErrors.

Context (be : Backend) (config : DeltekConfig).

Lemma post_status_error payload timeout tr r :
  let t := match timeout with
           | Some t => if (t =? 0)%Z then HTTP_TIMEOUT else t
           | None => HTTP_TIMEOUT
           end in
  deltek_http_post be tr (full_url config) payload t = Responded r ->
  is_success (status_code r) = false ->
  _post be config payload timeout tr =
  (Done (Raise (HTTPStatusError (status_code r))),
   tr ++ [EDeltekPost (full_url config) payload t]).
Proof.
  intros t Hr Hcode. unfold _post. apply stamina_retry_final; [|discriminate].
  fold t. erewrite bind_ok; [|apply request_responded; exact Hr].
  unfold lift, raise_for_status. rewrite bind_unfold, Hcode. reflexivity.
Qed.

(** C9, amended.  When Costpoint answers with a status outside 2xx, the
    request is made once and not again; [get_ct_projects] and
    [get_workforce] surface the answer to their caller as the
    [HTTPStatusError] of that status, and [get_employee] catches it and
    returns the absent value [None]. *)
Theorem costpoint_status_error_outcomes tr :
  (forall payload timeout, exists r,
     deltek_http_post be tr (full_url config) payload timeout = Responded r
     /\ is_success (status_code r) = false) ->
  (exists code payload timeout,
     get_ct_projects be config tr =
       (Done (Raise (HTTPStatusError code)),
        tr ++ [EDeltekPost (full_url config) payload timeout])
     /\ is_success code = false)
  /\ (forall proj_id proj_name, exists code payload timeout,
        get_workforce be config proj_id proj_name tr =
          (Done (Raise (HTTPStatusError code)),
           tr ++ [EDeltekPost (full_url config) payload timeout])
        /\ is_success code = false)
  /\ (forall empl_id, exists payload timeout,
        get_employee be config empl_id tr =
          (Done (Ok None), tr ++ [EDeltekPost (full_url config) payload timeout])).
Proof.
  intros Hdown. split; [|split].
  - unfold get_ct_projects.
    match goal with |- context [_post be config ?p None] =>
      destruct (Hdown p HTTP_TIMEOUT) as (r & Hr & Hcode);
      exists (status_code r), p, HTTP_TIMEOUT
    end.
    split; [|exact Hcode].
    erewrite bind_raise; [reflexivity|].
    apply (post_status_error _ None); assumption.
  - intros proj_id proj_name. unfold get_workforce.
    match goal with |- context [_post be config ?p (Some 30%Z)] =>
      destruct (Hdown p 30%Z) as (r & Hr & Hcode);
      exists (status_code r), p, 30%Z
    end.
    split; [|exact Hcode].
    erewrite bind_raise; [reflexivity|].
    apply (post_status_error _ (Some 30%Z)); assumption.
  - intros empl_id. unfold get_employee.
    match goal with |- context [_post be config ?p (Some 30%Z)] =>
      destruct (Hdown p 30%Z) as (r & Hr & Hcode); exists p, 30%Z;
      pose proof (post_status_error p (Some 30%Z) tr r Hr Hcode) as Hpost
    end.
    cbv zeta in Hpost. rewrite bind_unfold. unfold try_except at 1.
    erewrite bind_raise by exact Hpost. reflexivity.
Qed.

End CostpointErrors.

Lemma costpoint_status_error_outcomes_witness :
  (forall payload timeout, exists r,
     deltek_http_post Scenario.costpoint_down []
       (full_url Scenario.deltek_config) payload timeout = Responded r
     /\ is_success (status_code r) = false)
  /\ (exists payload timeout,
        get_employee Scenario.costpoint_down Scenario.deltek_config "E001" [] =
          (Done (Ok None),
           [EDeltekPost (full_url Scenario.deltek_config) payload timeout])).
Proof.
  assert (H : forall payload timeout, exists r,
     deltek_http_post Scenario.costpoint_down []
       (full_url Scenario.deltek_config) payload timeout = Responded r
     /\ is_success (status_code r) = false).
  { intros payload timeout. eexists. split; reflexivity. }
  split; [exact H|].
  exact (proj2 (proj2 (costpoint_status_error_outcomes
                         Scenario.costpoint_down Scenario.deltek_config [] H)) "E001").
Defined.

(** C9 as stated fails for [get_employee]: Costpoint answers the lookup of
    E001 with status 503, one request is made, and the caller receives the
    absent value, not a failure. *)
Lemma get_employee_hides_status_error :
  get_employee Scenario.costpoint_down Scenario.deltek_config "E001" [] =
  (Done (Ok None),
   [EDeltekPost "https://costpoint.example/api?system=PROD&company=1"
      {| filter_id := "ldmeinforrexpt"; where_rsId := "LDMEINFO_EMPL";
         where_relations := [("EMPL_ID", "E001")]; where_children := [] |} 30%Z]).
Proof. vm_compute. reflexivity. Qed.

(** ** The page loop of Phase 4 *)

Lemma collect_loop_step be fuel config user_status cp_ids offset tr page tr' :
  _get_users_page be config user_status offset 500%Z tr = (Done (Ok page), tr') ->
  collect_loop be (S fuel) config user_status cp_ids offset tr =
  if is_nil (page_users page) then (Done (Ok cp_ids), tr')
  else match page_paging_offset page with
       | None => (Done (Ok (add_cp_ids (page_users page) cp_ids)), tr')
       | Some next_offset =>
           if (next_offset <=? offset)%Z
           then (Done (Ok (add_cp_ids (page_users page) cp_ids)), tr')
           else collect_loop be fuel config user_status
                  (add_cp_ids (page_users page) cp_ids) next_offset tr'
       end.
Proof.
  intros H. simpl collect_loop. erewrite bind_ok by exact H.
  destruct (is_nil (page_users page)); [reflexivity|].
  destruct (page_paging_offset page) as [next|]; [|reflexivity].
  destruct (next <=? offset)%Z; reflexivity.
Qed.

Lemma collect_loop_listing be config user_status offset tr pages tr' :
  listing be config user_status offset tr pages tr' ->
  forall fuel cp_ids, length pages <= fuel ->
    collect_loop be fuel config user_status cp_ids offset tr =
    (Done (Ok (fold_left (fun cp_ids page => add_cp_ids (page_users page) cp_ids)
                 pages cp_ids)), tr').
Proof.
  induction 1 as [offset tr page tr' Hget Hstop
                 |offset tr page tr' next pages tr'' Hget Hnext _ IH];
    intros fuel cp_ids Hfuel; simpl in Hfuel.
  - destruct fuel as [|fuel]; [lia|].
    rewrite (collect_loop_step _ _ _ _ _ _ _ _ _ Hget). simpl fold_left.
    destruct (page_users page) as [|u users] eqn:Hu; [reflexivity|].
    simpl is_nil. cbv iota.
    destruct Hstop as [Hnil|[Hnone|(next & Hsome & Hle)]].
    + congruence.
    + rewrite Hnone. reflexivity.
    + rewrite Hsome. apply Z.leb_le in Hle. rewrite Hle. reflexivity.
  - destruct fuel as [|fuel]; [lia|].
    rewrite (collect_loop_step _ _ _ _ _ _ _ _ _ Hget).
    destruct Hnext as (Hu & Hsome & Hlt).
    destruct (page_users page) as [|u users] eqn:Hpage; [congruence|].
    simpl is_nil. cbv iota. rewrite Hsome.
    apply Z.leb_gt in Hlt. rewrite Hlt. simpl fold_left. rewrite Hpage.
    apply IH. lia.
Qed.

(** C5, amended.  The page loop of Phase 4 stops at the first page that has
    no items, or whose next offset is missing or not past the current
    offset, and then returns the dedup keys of the pages served so far:
    when Connecteam serves finitely many pages up to such a page, the loop
    ends after exactly these requests, however much further it was allowed
    to run. *)
Theorem collect_cp_ids_stops be config user_status tr pages tr' :
  listing be config user_status 0 tr pages tr' ->
  forall fuel, length pages <= fuel ->
    _collect_cp_ids_by_status be fuel config user_status tr =
    (Done (Ok (cp_ids_of_pages pages)), tr').
Proof.
  intros H fuel Hfuel. unfold _collect_cp_ids_by_status, cp_ids_of_pages.
  by apply collect_loop_listing.
Qed.

Lemma get_users_page_responded be config user_status offset tr page :
  users_http_get be tr (users_base_url config) 500%Z offset user_status =
    Responded {| status_code := 200; json := Some page; text := "" |} ->
  _get_users_page be config user_status offset 500%Z tr =
  (Done (Ok page), tr ++ [EUsersGet (users_base_url config) 500%Z offset user_status]).
Proof.
  intros H. unfold _get_users_page. apply stamina_retry_final; [|discriminate].
  erewrite bind_ok; [|apply request_responded; exact H]. reflexivity.
Qed.

Lemma collect_cp_ids_stops_witness :
  let first := {| page_users :=
                    [{| user_customFields :=
                          [{| ucf_customFieldId := Some CF_CP_ID;
                              ucf_value := Some (SStr "E001") |}] |}];
                  page_paging_offset := Some 500%Z |} in
  let second := {| page_users :=
                     [{| user_customFields :=
                           [{| ucf_customFieldId := Some CF_CP_ID;
                               ucf_value := Some (SInt 7) |}] |}];
                   page_paging_offset := None |} in
  let url := users_base_url Scenario.ct_config in
  let tr' := [EUsersGet url 500%Z 0%Z "active"; EUsersGet url 500%Z 500%Z "active"] in
  listing Scenario.two_pages Scenario.ct_config "active" 0 [] [first; second] tr'
  /\ cp_ids_of_pages [first; second] = {["E001"; "7"]}
  /\ forall fuel, 2 <= fuel ->
       _collect_cp_ids_by_status Scenario.two_pages fuel Scenario.ct_config "active" [] =
       (Done (Ok (cp_ids_of_pages [first; second])), tr').
Proof.
  cbv zeta.
  match goal with |- ?L /\ _ => assert (H : L) end.
  { eapply listing_more.
    - apply get_users_page_responded. reflexivity.
    - split; [discriminate|]. split; [reflexivity|lia].
    - eapply listing_last.
      + apply get_users_page_responded. reflexivity.
      + right. left. reflexivity. }
  split; [exact H|]. split; [vm_compute; reflexivity|].
  exact (collect_cp_ids_stops _ _ _ _ _ _ H).
Defined.

(** C5 as stated fails for a listing that never ends: every page holds a
    user and points further, and the loop asks for page after page. *)
Lemma collect_cp_ids_endless :
  runs_forever
    (fun fuel => _collect_cp_ids_by_status Scenario.endless_listing fuel
                   Scenario.ct_config "active") [].
Proof.
  assert (H : forall fuel cp_ids offset tr, exists tr',
    collect_loop Scenario.endless_listing fuel Scenario.ct_config "active"
      cp_ids offset tr = (Unfinished, tr')
    /\ length tr' = (length tr + fuel)%nat).
  { induction fuel as [|fuel IH]; intros cp_ids offset tr.
    - exists tr. split; [reflexivity|lia].
    - rewrite (collect_loop_step _ _ _ _ _ _ _ (Scenario.endless_page offset)
                 (tr ++ [EUsersGet (users_base_url Scenario.ct_config) 500%Z offset
                           "active"]))
        by (apply get_users_page_responded; reflexivity).
      simpl is_nil. cbv iota. simpl page_paging_offset. cbv iota.
      replace (offset + 500 <=? offset)%Z with false by (symmetry; apply Z.leb_gt; lia).
      destruct (IH (add_cp_ids (page_users (Scenario.endless_page offset)) cp_ids)
                  (offset + 500)%Z
                  (tr ++ [EUsersGet (users_base_url Scenario.ct_config) 500%Z offset
                            "active"])) as (tr' & Hrun & Hlen).
      exists tr'. split; [exact Hrun|].
      rewrite Hlen, length_app. simpl. lia. }
  intros fuel. apply H.
Qed.

(** ** Phase 6 *)

Lemma posted_app tr1 tr2 : posted (tr1 ++ tr2) = posted tr1 ++ posted tr2.
Proof. apply omap_app. Qed.

Lemma phase_6_inputs_payload workforce employees missing_ids eid :
  phase_6_inputs workforce employees missing_ids -> eid ∈ missing_ids ->
  exists wf emp p,
    dict_get eid workforce = Some wf /\ dict_get eid employees = Some emp
    /\ build_payload wf emp = Ok p.
Proof.
  intros Hin Heid. destruct (Hin eid Heid) as (wf & emp & Hwf & Hemp & Hh & Hb).
  pose proof (build_payload_value wf emp Hh Hb) as Hp.
  eauto 10.
Qed.

Lemma phase_6_inputs_tail workforce employees eid missing_ids :
  phase_6_inputs workforce employees (eid :: missing_ids) ->
  phase_6_inputs workforce employees missing_ids.
Proof. intros H e He. apply H. by apply list_elem_of_further. Qed.

Section Phase6.

Context (be : Backend) (ct_config : ConnecteamConfig).

(** One creation request that Connecteam answers yields one result,
    whatever the status of the answer. *)
Lemma post_user_answered wf emp p tr :
  creation_answered be -> build_payload wf emp = Ok p ->
  exists r result,
    users_http_post be tr (users_base_url ct_config) [p] = Responded r
    /\ result_of emp r result
    /\ post_user be ct_config wf emp tr =
         (Done (Ok result), tr ++ [EUsersPost (users_base_url ct_config) [p]])
    /\ result_empl_id result = empl_id emp.
Proof.
  intros Hans Hp. destruct (Hans tr (users_base_url ct_config) [p]) as (r & Hr & Hjson).
  exists r. unfold post_user, result_of.
  destruct (is_success (status_code r)) eqn:Hcode.
  - destruct (Hjson eq_refl) as [body Hbody].
    exists (Created (empl_id emp) (full_name emp) body).
    split; [exact Hr|]. split; [eauto|]. split; [|reflexivity].
    apply stamina_retry_final; [|discriminate].
    rewrite Hp, lift_ok_bind.
    erewrite bind_ok; [|apply request_responded; exact Hr].
    rewrite Hcode. unfold response_json. rewrite Hbody. reflexivity.
  - eexists. split; [exact Hr|]. split; [reflexivity|]. split; [|reflexivity].
    apply stamina_retry_final; [|discriminate].
    rewrite Hp, lift_ok_bind.
    erewrite bind_ok; [|apply request_responded; exact Hr].
    rewrite Hcode. reflexivity.
Qed.

(** A result is a success exactly when the answer it is made of has a 2xx
    status. *)
Lemma result_of_success emp r result :
  result_of emp r result -> success result = is_success (status_code r).
Proof.
  unfold result_of. destruct (is_success (status_code r)).
  - intros (body & _ & ->). reflexivity.
  - intros ->. reflexivity.
Qed.

Context (workforce : dict WorkforceRecord) (employees : dict EmployeeRecord).

Lemma phase_6_live_loop missing_ids acc tr :
  creation_answered be -> phase_6_inputs workforce employees missing_ids ->
  exists results bodies tr',
    for_each missing_ids
      (fun results empl_id =>
         log_event LInfo "creating_user";;
         wf ← lift (dict_getitem empl_id workforce);
         emp ← lift (dict_getitem empl_id employees);
         result ← post_user be ct_config wf emp;
         sleep 300;;
         mret (results ++ [result])) acc tr
    = (Done (Ok (acc ++ results)), tr')
    /\ posted tr' = posted tr ++ bodies
    /\ Forall2 (sent_for workforce employees) missing_ids bodies
    /\ Forall2 (recorded_for employees) missing_ids results
    /\ creations be ct_config workforce employees missing_ids tr results tr'.
Proof.
  intros Hans. revert acc tr.
  induction missing_ids as [|eid missing_ids IH]; intros acc tr Hin.
  - exists [], [], tr. simpl. unfold ret. rewrite !app_nil_r.
    repeat split; auto. constructor.
  - destruct (phase_6_inputs_payload _ _ _ eid Hin) as (wf & emp & p & Hwf & Hemp & Hp);
      [apply list_elem_of_here|].
    set (tr1 := tr ++ [EEvent LInfo "creating_user"]).
    destruct (post_user_answered wf emp p tr1 Hans Hp)
      as (r & result & Hr & Hres & Hpost & Hid).
    destruct (IH (acc ++ [result])
                (tr1 ++ [EUsersPost (users_base_url ct_config) [p]] ++ [ESleep 300])
                (phase_6_inputs_tail _ _ _ _ Hin))
      as (results & bodies & tr' & Hrun & Hposted & Hsent & Hrec & Hloop).
    exists (result :: results), ([p] :: bodies), tr'.
    rewrite <- app_assoc in Hrun. simpl in Hrun.
    split; [|split; [|split; [|split]]].
    + rewrite for_each_cons. erewrite bind_ok; [exact Hrun|].
      unfold log_event, sleep. rewrite emit_then. fold tr1.
      unfold dict_getitem. rewrite Hwf, Hemp, !lift_ok_bind.
      erewrite bind_ok by exact Hpost. rewrite emit_then.
      rewrite <- app_assoc. reflexivity.
    + rewrite Hposted. unfold tr1. rewrite !posted_app. simpl.
      rewrite !app_nil_r, <- app_assoc. reflexivity.
    + constructor; [|exact Hsent]. exists wf, emp, p. auto.
    + constructor; [|exact Hrec]. exists emp. auto.
    + apply (creations_next _ _ _ _ eid missing_ids wf emp p r); try assumption.
      unfold tr1 in Hloop. rewrite <- app_assoc in Hloop. exact Hloop.
Qed.

(** C3, amended.  In a live run whose missing ids have their records, with
    dates that are empty or that [datetime.fromisoformat] reads, and in
    which Connecteam answers every creation request with an HTTP response
    (a 2xx one with a JSON body), Phase 6 sends exactly one creation
    request per missing id, in the order of the list, and returns one
    result per missing id, in that order.  Each result is the one that the
    answer to its request gives: a success for a 2xx status, and for any
    other status a failure that carries the status and the body, after
    which the remaining employees are still attempted.  The results are
    then stored and [phase_6_complete] is logged. *)
Theorem run_phase_6_live_attempts missing_ids tr :
  creation_answered be -> phase_6_inputs workforce employees missing_ids ->
  exists results bodies tr',
    run_phase_6 be ct_config workforce employees missing_ids false tr
    = (Done (Ok results), tr')
    /\ posted tr' = posted tr ++ bodies
    /\ Forall2 (sent_for workforce employees) missing_ids bodies
    /\ Forall2 (recorded_for employees) missing_ids results
    /\ exists t6,
         creations be ct_config workforce employees missing_ids
           (tr ++ [EEvent LInfo "phase_6_starting"]) results t6
         /\ tr' = t6 ++ [EPutObject "new-employees/ne_import_results.json"
                           (SResults results);
                         EEvent LInfo "phase_6_complete"].
Proof.
  intros Hans Hin. unfold run_phase_6. rewrite log_event_then. cbv iota.
  destruct (phase_6_live_loop missing_ids [] (tr ++ [EEvent LInfo "phase_6_starting"])
              Hans Hin)
    as (results & bodies & t6 & Hrun & Hposted & Hsent & Hrec & Hloop).
  exists results, bodies. eexists. split; [|split; [|split; [|split]]].
  - erewrite bind_ok by exact Hrun.
    rewrite save_json_then, log_event_then, mret_run. reflexivity.
  - rewrite !posted_app, Hposted, posted_app. simpl. rewrite !app_nil_r. reflexivity.
  - exact Hsent.
  - exact Hrec.
  - exists t6. split; [exact Hloop|]. rewrite <- app_assoc. reflexivity.
Qed.

End Phase6.

Lemma scenario_phase_6_inputs :
  phase_6_inputs Scenario.workforce Scenario.employees Scenario.missing_ids.
Proof.
  intros eid Hin. unfold Scenario.missing_ids in Hin.
  apply elem_of_cons in Hin as [->|Hin];
    [|apply elem_of_cons in Hin as [->|Hin]; [|by apply elem_of_nil in Hin]].
  - exists Scenario.e002_wf, Scenario.e002.
    split; [reflexivity|]. split; [reflexivity|]. split.
    + right. eexists. vm_compute. reflexivity.
    + left. reflexivity.
  - exists Scenario.e003_wf, Scenario.e003.
    split; [reflexivity|]. split; [reflexivity|]. split.
    + left. reflexivity.
    + right. eexists. vm_compute. reflexivity.
Qed.

Lemma scenario_rejects_ben_answered :
  creation_answered (Scenario.backend Scenario.two_projects Scenario.rejects_ben).
Proof.
  intros tr url body. simpl. unfold Scenario.rejects_ben.
  destruct body as [|p [|q body]]; [| |].
  - eexists. split; [reflexivity|]. intros _. simpl. eauto.
  - destruct (String.eqb (firstName p) "Ben").
    + eexists. split; [reflexivity|]. simpl. discriminate.
    + eexists. split; [reflexivity|]. intros _. simpl. eauto.
  - eexists. split; [reflexivity|]. intros _. simpl. eauto.
Qed.

Lemma run_phase_6_live_attempts_witness :
  creation_answered (Scenario.backend Scenario.two_projects Scenario.rejects_ben)
  /\ phase_6_inputs Scenario.workforce Scenario.employees Scenario.missing_ids
  /\ fst (run_phase_6 (Scenario.backend Scenario.two_projects Scenario.rejects_ben)
            Scenario.ct_config Scenario.workforce Scenario.employees
            Scenario.missing_ids false [])
     = Done (Ok [Failed "E002" "Ben Baker" 400 (DetailText "bad request");
                 Created "E003" "Cy Clark" JNull])
  /\ exists results bodies tr',
       run_phase_6 (Scenario.backend Scenario.two_projects Scenario.rejects_ben)
         Scenario.ct_config Scenario.workforce Scenario.employees
         Scenario.missing_ids false []
       = (Done (Ok results), tr')
       /\ posted tr' = posted [] ++ bodies
       /\ Forall2 (sent_for Scenario.workforce Scenario.employees)
            Scenario.missing_ids bodies
       /\ Forall2 (recorded_for Scenario.employees) Scenario.missing_ids results
       /\ exists t6,
            creations (Scenario.backend Scenario.two_projects Scenario.rejects_ben)
              Scenario.ct_config Scenario.workforce Scenario.employees
              Scenario.missing_ids ([] ++ [EEvent LInfo "phase_6_starting"]) results t6
            /\ tr' = t6 ++ [EPutObject "new-employees/ne_import_results.json"
                              (SResults results);
                            EEvent LInfo "phase_6_complete"].
Proof.
  split; [exact scenario_rejects_ben_answered|].
  split; [exact scenario_phase_6_inputs|].
  split; [vm_compute; reflexivity|].
  exact (run_phase_6_live_attempts _ Scenario.ct_config _ _ _ []
           scenario_rejects_ben_answered scenario_phase_6_inputs).
Defined.

(** C3 as stated fails when a creation request times out: the request for
    the first missing employee is sent twice (each attempt lasts its 30
    seconds, so the second timeout falls outside the 45 seconds that
    [stamina] allows), the timeout then leaves Phase 6, no result is recorded
    and the second missing employee is never attempted. *)
Lemma run_phase_6_timeout_aborts :
  fst (run_phase_6 (Scenario.backend Scenario.two_projects Scenario.times_out)
         Scenario.ct_config Scenario.workforce Scenario.employees
         Scenario.missing_ids false [])
  = Done (Raise TimeoutException)
  /\ map (map firstName)
       (posted (snd (run_phase_6
                       (Scenario.backend Scenario.two_projects Scenario.times_out)
                       Scenario.ct_config Scenario.workforce Scenario.employees
                       Scenario.missing_ids false [])))
     = [["Ben"]; ["Ben"]].
Proof. split; vm_compute; reflexivity. Qed.

Section DryRun.

Context (workforce : dict WorkforceRecord) (employees : dict EmployeeRecord).

Lemma preview_comprehension missing_ids :
  phase_6_inputs workforce employees missing_ids ->
  exists preview,
    comprehension (preview_entry workforce employees) missing_ids = Ok preview
    /\ Forall2 (previewed_for workforce employees) missing_ids preview.
Proof.
  induction missing_ids as [|eid missing_ids IH]; intros Hin.
  - exists []. split; [reflexivity|constructor].
  - destruct (phase_6_inputs_payload _ _ _ eid Hin) as (wf & emp & p & Hwf & Hemp & Hp);
      [apply list_elem_of_here|].
    destruct (IH (phase_6_inputs_tail _ _ _ _ Hin)) as (preview & Hprev & Hall).
    exists ({| pv_empl_id := eid; pv_name := full_name emp; pv_payload := p |} :: preview).
    split.
    + simpl. unfold preview_entry at 1, dict_getitem.
      rewrite Hemp, Hwf. simpl. rewrite Hp. simpl. rewrite Hprev. reflexivity.
    + constructor; [|exact Hall]. split; [reflexivity|].
      exists wf, emp. auto.
Qed.


End DryRun.


(** ** Key lookups *)

Lemma key_safe_ret {A} (a : A) : key_safe (mret a : M A).
Proof. intros tr tr' k. rewrite mret_run. discriminate. Qed.

Lemma key_safe_emit e : key_safe (emit e).
Proof. intros tr tr' k. rewrite emit_run. discriminate. Qed.

Lemma key_safe_lift {A} (r : Res A) :
  (forall k, r <> Raise (KeyError k)) -> key_safe (lift r).
Proof. intros H tr tr' k. unfold lift. intros [= Hr _]. by apply (H k). Qed.

Lemma key_safe_bind {A B} (m : M A) (f : A -> M B) :
  key_safe m -> (forall a, key_safe (f a)) -> key_safe (m ≫= f).
Proof.
  intros Hm Hf tr tr' k. rewrite bind_unfold.
  destruct (m tr) as [[[a|e]|] t] eqn:E.
  - apply Hf.
  - intros [= -> ->]. by apply (Hm tr tr' k).
  - discriminate.
Qed.

Lemma key_safe_for_each {A S} (l : list A) (body : S -> A -> M S) :
  (forall x acc, x ∈ l -> key_safe (body acc x)) ->
  forall acc, key_safe (for_each l body acc).
Proof.
  induction l as [|x l IH]; intros Hbody acc.
  - apply key_safe_ret.
  - rewrite for_each_cons. apply key_safe_bind.
    + apply Hbody, list_elem_of_here.
    + intros a. apply IH. intros y acc' Hy. apply Hbody. by apply list_elem_of_further.
Qed.

Lemma key_safe_stamina_retry {A} clock attempts (m : M A) :
  key_safe m -> key_safe (stamina_retry clock attempts m).
Proof.
  intros Hm tr. unfold stamina_retry. generalize (clock tr) as start. intros start.
  revert tr. induction attempts as [|n IH]; intros tr tr' k.
  - simpl. destruct (m tr) as [[[a|e]|] t] eqn:E; try discriminate.
    destruct e; try discriminate. intros [= -> ->]. by apply (Hm tr tr' k).
  - simpl. destruct (m tr) as [[[a|e]|] t] eqn:E; try discriminate.
    destruct e; try discriminate.
    + destruct n; [discriminate|]. destruct (_ <=? _)%Z; [discriminate|]. apply IH.
    + intros [= -> ->]. by apply (Hm tr tr' k).
Qed.

Lemma key_safe_request {B} e (x : Trace -> Exchange B) : key_safe (request e x).
Proof. intros tr tr' k. unfold request. destruct (x tr); discriminate. Qed.

Lemma format_date_raises s e : format_date s = Raise e -> e = ValueError.
Proof. unfold format_date. destruct (fromisoformat s); [discriminate|congruence]. Qed.

Lemma append_date_raises cf_id iso fields e :
  append_date cf_id iso fields = Raise e -> e = ValueError.
Proof.
  unfold append_date. destruct (nonempty iso); [|discriminate].
  destruct (format_date iso) eqn:E; [discriminate|].
  simpl. intros [= <-]. by eapply format_date_raises.
Qed.

Lemma build_payload_raises workforce employee e :
  build_payload workforce employee = Raise e -> e = ValueError.
Proof.
  unfold build_payload.
  match goal with |- res_bind ?a _ = _ -> _ => destruct a as [f1|e1] eqn:E1 end.
  - cbn [res_bind].
    match goal with |- res_bind ?a _ = _ -> _ => destruct a as [f2|e2] eqn:E2 end.
    + discriminate.
    + simpl. intros [= <-]. by eapply append_date_raises.
  - simpl. intros [= <-]. by eapply append_date_raises.
Qed.

Lemma key_safe_post_user be ct_config wf emp : key_safe (post_user be ct_config wf emp).
Proof.
  unfold post_user. apply key_safe_stamina_retry. apply key_safe_bind.
  - apply key_safe_lift. intros k H. apply build_payload_raises in H. discriminate.
  - intros p. apply key_safe_bind; [apply key_safe_request|]. intros r.
    destruct (is_success (status_code r)); [|apply key_safe_ret].
    apply key_safe_bind; [|intros; apply key_safe_ret].
    apply key_safe_lift. unfold response_json. destruct (json r); discriminate.
Qed.

Lemma comprehension_raises {A B} (f : A -> Res B) (l : list A) (P : Exn -> Prop) e :
  (forall x e, x ∈ l -> f x = Raise e -> P e) ->
  comprehension f l = Raise e -> P e.
Proof.
  induction l as [|x l IH]; intros Hf; simpl; [discriminate|].
  destruct (f x) as [y|e'] eqn:Ex; simpl.
  - destruct (comprehension f l) as [ys|e''] eqn:El; simpl; [discriminate|].
    intros [= <-]. apply IH; [|reflexivity].
    intros z e0 Hz. apply Hf. by apply list_elem_of_further.
  - intros [= <-]. eapply Hf; [apply list_elem_of_here|exact Ex].
Qed.

Lemma comprehension_ok {A B} (f : A -> Res B) (l : list A) :
  (forall x, x ∈ l -> exists y, f x = Ok y) -> exists ys, comprehension f l = Ok ys.
Proof.
  induction l as [|x l IH]; intros Hf; simpl; [eauto|].
  destruct (Hf x) as [y Hy]; [apply list_elem_of_here|]. rewrite Hy. simpl.
  destruct IH as [ys Hys]; [intros z Hz; apply Hf; by apply list_elem_of_further|].
  rewrite Hys. simpl. eauto.
Qed.

Section Lookups.

Context (workforce : dict WorkforceRecord) (employees : dict EmployeeRecord)
        (missing_ids : list string).

Hypothesis found :
  forall eid, eid ∈ missing_ids ->
    is_Some (dict_get eid workforce) /\ is_Some (dict_get eid employees).

Lemma preview_entry_raises eid e :
  eid ∈ missing_ids -> preview_entry workforce employees eid = Raise e -> e = ValueError.
Proof.
  intros Hin. destruct (found eid Hin) as [[wf Hwf] [emp Hemp]].
  unfold preview_entry, dict_getitem. rewrite Hwf, Hemp. simpl.
  destruct (build_payload wf emp) eqn:E; [discriminate|].
  simpl. intros [= <-]. by eapply build_payload_raises.
Qed.

Lemma key_safe_run_phase_6 be ct_config dry_run :
  key_safe (run_phase_6 be ct_config workforce employees missing_ids dry_run).
Proof.
  unfold run_phase_6. apply key_safe_bind; [apply key_safe_emit|]. intros _.
  destruct dry_run.
  - apply key_safe_bind.
    + apply key_safe_lift. intros k H.
      apply (comprehension_raises _ _ (fun e => e = ValueError)) in H; [discriminate|].
      intros x e Hx. by apply preview_entry_raises.
    + intros preview. apply key_safe_bind; [apply key_safe_emit|]. intros _.
      apply key_safe_bind; [apply key_safe_emit|]. intros _. apply key_safe_ret.
  - apply key_safe_bind.
    + apply key_safe_for_each. intros eid acc Hin.
      destruct (found eid Hin) as [[wf Hwf] [emp Hemp]].
      apply key_safe_bind; [apply key_safe_emit|]. intros _.
      apply key_safe_bind.
      { apply key_safe_lift. unfold dict_getitem. rewrite Hwf. discriminate. }
      intros wf'. apply key_safe_bind.
      { apply key_safe_lift. unfold dict_getitem. rewrite Hemp. discriminate. }
      intros emp'. apply key_safe_bind; [apply key_safe_post_user|]. intros result.
      apply key_safe_bind; [apply key_safe_emit|]. intros _. apply key_safe_ret.
    + intros results. apply key_safe_bind; [apply key_safe_emit|]. intros _.
      apply key_safe_bind; [apply key_safe_emit|]. intros _. apply key_safe_ret.
Qed.

Lemma project_set_ok : exists projects, project_set workforce missing_ids = Ok projects.
Proof.
  unfold project_set.
  destruct (comprehension_ok
              (fun eid => res_bind (dict_getitem eid workforce) (fun wf => Ok (proj_id wf)))
              missing_ids) as [ids Hids].
  - intros eid Hin. destruct (found eid Hin) as [[wf Hwf] _].
    unfold dict_getitem. rewrite Hwf. simpl. eauto.
  - rewrite Hids. simpl. eauto.
Qed.

Lemma report_row_raises (row : EmployeeRecord -> WorkforceRecord -> string -> ReportRow)
    eid e :
  eid ∈ missing_ids ->
  res_bind (dict_getitem eid employees) (fun emp =>
  res_bind (dict_getitem eid workforce) (fun wf =>
  res_bind (hire_date_cell emp) (fun hire_date => Ok (row emp wf hire_date))))
  = Raise e -> e = ValueError.
Proof.
  intros Hin. destruct (found eid Hin) as [[wf Hwf] [emp Hemp]].
  unfold dict_getitem. rewrite Hwf, Hemp. simpl.
  unfold hire_date_cell. destruct (nonempty (orig_hire_dt emp)); [|discriminate].
  destruct (format_date (orig_hire_dt emp)) eqn:E; [discriminate|].
  simpl. intros [= <-]. by eapply format_date_raises.
Qed.

Lemma build_html_email_raises results dry_run e :
  build_html_email workforce employees missing_ids results dry_run = Raise e ->
  e = ValueError.
Proof.
  unfold build_html_email. destruct project_set_ok as [projects ->]. cbn [res_bind].
  match goal with |- res_bind ?c _ = _ -> _ => destruct c as [rows|e'] eqn:E end;
    [discriminate|].
  simpl. intros [= <-].
  apply (comprehension_raises _ _ (fun e => e = ValueError)) in E; [exact E|].
  intros x e0 Hx. by apply report_row_raises.
Qed.

Lemma build_plain_text_email_raises results dry_run e :
  build_plain_text_email workforce employees missing_ids results dry_run = Raise e ->
  e = ValueError.
Proof.
  unfold build_plain_text_email. destruct project_set_ok as [projects ->]. cbn [res_bind].
  match goal with |- res_bind ?c _ = _ -> _ => destruct c as [rows|e'] eqn:E end;
    [discriminate|].
  simpl. intros [= <-].
  apply (comprehension_raises _ _ (fun e => e = ValueError)) in E; [exact E|].
  intros x e0 Hx. by apply report_row_raises.
Qed.

End Lookups.

(** ** The key invariant of Phases 3 and 5 *)

Lemma phase_3_loop be deltek_config keys acc tr employees tr' :
  for_each keys
    (fun employees empl_id =>
       log_event LInfo "fetching_employee";;
       emp ← get_employee be deltek_config empl_id;
       employees ←
         match emp with
         | None => log_event LError "employee_not_found";; mret employees
         | Some emp =>
             if negb (is_active emp)
             then log_event LInfo "skipping_inactive_employee";; mret employees
             else mret (dict_setitem empl_id emp employees)
         end;
       sleep 300;;
       mret employees) acc tr = (Done (Ok employees), tr') ->
  forall k, k ∈ dict_keys employees -> k ∈ dict_keys acc \/ k ∈ keys.
Proof.
  revert acc tr. induction keys as [|key keys IH]; intros acc tr.
  - simpl. unfold ret. intros [= <- <-] k Hk. by left.
  - rewrite for_each_cons. intros H.
    apply bind_ok_inv in H as (acc1 & t1 & Hbody & Hrest).
    rewrite log_event_then in Hbody.
    apply bind_ok_inv in Hbody as (emp & t2 & _ & Hbody).
    apply bind_ok_inv in Hbody as (acc2 & t3 & Hkeep & Hbody).
    rewrite sleep_then, mret_run in Hbody. injection Hbody as <- <-.
    intros k Hk. destruct (IH _ _ Hrest k Hk) as [Hacc|Hkeys].
    + assert (Hsub : k = key \/ k ∈ dict_keys acc).
      { destruct emp as [emp|].
        - destruct (negb (is_active emp)).
          + rewrite log_event_then, mret_run in Hkeep. injection Hkeep as <- _. by right.
          + rewrite mret_run in Hkeep. injection Hkeep as <- _.
            by apply keys_setitem in Hacc.
        - rewrite log_event_then, mret_run in Hkeep. injection Hkeep as <- _. by right. }
      destruct Hsub as [->|Hsub]; [right; apply list_elem_of_here|by left].
    + right. by apply list_elem_of_further.
Qed.

Lemma run_phase_3_keys be deltek_config workforce tr employees tr' :
  run_phase_3 be deltek_config workforce tr = (Done (Ok employees), tr') ->
  forall k, k ∈ dict_keys employees -> k ∈ dict_keys workforce.
Proof.
  unfold run_phase_3. rewrite log_event_then. intros H.
  apply bind_ok_inv in H as (emps & t1 & Hloop & Hrest).
  rewrite save_json_then, log_event_then, mret_run in Hrest. injection Hrest as <- _.
  intros k Hk. destruct (phase_3_loop _ _ _ _ _ _ _ Hloop k Hk) as [Hnil|Hin].
  - by apply elem_of_nil in Hnil.
  - exact Hin.
Qed.

Lemma run_phase_5_keys employees existing tr missing_ids tr' :
  run_phase_5 employees existing tr = (Done (Ok missing_ids), tr') ->
  forall k, k ∈ missing_ids -> k ∈ dict_keys employees.
Proof.
  unfold run_phase_5. rewrite log_event_then, save_json_then, log_event_then, mret_run.
  intros [= <- _] k Hk. rewrite filter_not_in in Hk.
  apply list_elem_of_filter in Hk. tauto.
Qed.

Lemma keys_found (workforce : dict WorkforceRecord) (employees : dict EmployeeRecord)
    (missing_ids : list string) :
  (forall k, k ∈ missing_ids -> k ∈ dict_keys employees) ->
  (forall k, k ∈ dict_keys employees -> k ∈ dict_keys workforce) ->
  forall eid, eid ∈ missing_ids ->
    is_Some (dict_get eid workforce) /\ is_Some (dict_get eid employees).
Proof.
  intros H5 H3 eid Hin. split; apply keys_dict_get; auto.
Qed.

(** C10.  In a run, the mapping of member details that Phase 3 returns has
    its keys among the keys of the membership mapping it was given, and the
    missing list that Phase 5 returns has its ids among the keys of the
    member details.  So for every id of the missing list both lookups
    [workforce[id]] and [employees[id]] succeed, and neither Phase 6, in
    either mode, nor the two report builders can raise a [KeyError]. *)
Theorem missing_ids_lookups_succeed be deltek_config workforce tr employees tr1
    existing tr2 missing_ids tr3 :
  run_phase_3 be deltek_config workforce tr = (Done (Ok employees), tr1) ->
  run_phase_5 employees existing tr2 = (Done (Ok missing_ids), tr3) ->
  (forall eid, eid ∈ missing_ids -> eid ∈ dict_keys employees)
  /\ (forall eid, eid ∈ dict_keys employees -> eid ∈ dict_keys workforce)
  /\ (forall eid, eid ∈ missing_ids ->
        (exists wf, dict_getitem eid workforce = Ok wf)
        /\ (exists emp, dict_getitem eid employees = Ok emp))
  /\ (forall ct_config dry_run,
        key_safe (run_phase_6 be ct_config workforce employees missing_ids dry_run))
  /\ (forall results dry_run k,
        build_html_email workforce employees missing_ids results dry_run
          <> Raise (KeyError k)
        /\ build_plain_text_email workforce employees missing_ids results dry_run
          <> Raise (KeyError k)).
Proof.
  intros H3 H5.
  pose proof (run_phase_5_keys _ _ _ _ _ H5) as Hmissing.
  pose proof (run_phase_3_keys _ _ _ _ _ _ H3) as Hemployees.
  pose proof (keys_found _ _ _ Hmissing Hemployees) as Hfound.
  split; [exact Hmissing|]. split; [exact Hemployees|]. split; [|split].
  - intros eid Hin. destruct (Hfound eid Hin) as [[wf Hwf] [emp Hemp]].
    unfold dict_getitem. rewrite Hwf, Hemp. eauto.
  - intros ct_config dry_run. by apply key_safe_run_phase_6.
  - intros results dry_run k. split; intros H.
    + apply (build_html_email_raises _ _ _ Hfound) in H. discriminate.
    + apply (build_plain_text_email_raises _ _ _ Hfound) in H. discriminate.
Qed.

Lemma missing_ids_lookups_succeed_witness :
  let be := Scenario.backend Scenario.two_projects Scenario.accepts in
  let run3 := run_phase_3 be Scenario.deltek_config Scenario.workforce [] in
  let existing : gset string := {["E001"]} in
  let run5 := run_phase_5 Scenario.employees existing [] in
  run3 = (Done (Ok Scenario.employees), snd run3)
  /\ run5 = (Done (Ok Scenario.missing_ids), snd run5)
  /\ (forall eid, eid ∈ Scenario.missing_ids ->
        (exists wf, dict_getitem eid Scenario.workforce = Ok wf)
        /\ (exists emp, dict_getitem eid Scenario.employees = Ok emp))
  /\ (forall ct_config dry_run,
        key_safe (run_phase_6 be ct_config Scenario.workforce Scenario.employees
                    Scenario.missing_ids dry_run)).
Proof.
  cbv zeta.
  assert (H3 : run_phase_3 (Scenario.backend Scenario.two_projects Scenario.accepts)
                 Scenario.deltek_config Scenario.workforce []
               = (Done (Ok Scenario.employees),
                  snd (run_phase_3 (Scenario.backend Scenario.two_projects Scenario.accepts)
                         Scenario.deltek_config Scenario.workforce [])))
    by (vm_compute; reflexivity).
  assert (H5 : run_phase_5 Scenario.employees {["E001"]} []
               = (Done (Ok Scenario.missing_ids),
                  snd (run_phase_5 Scenario.employees {["E001"]} [])))
    by (vm_compute; reflexivity).
  split; [exact H3|]. split; [exact H5|].
  destruct (missing_ids_lookups_succeed _ _ _ _ _ _ _ _ _ _ H3 H5)
    as (_ & _ & Hlook & Hsafe & _).
  split; [exact Hlook|exact Hsafe].
Defined.

(** ** The status of the pipeline *)

Lemma is_nil_false {A} (l : list A) : l <> [] -> is_nil l = false.
Proof. destruct l; [contradiction|reflexivity]. Qed.

Lemma post_user_ok_payload be ct_config wf emp tr result tr' :
  post_user be ct_config wf emp tr = (Done (Ok result), tr') ->
  exists p, build_payload wf emp = Ok p.
Proof.
  destruct (build_payload wf emp) as [p|e] eqn:Hp; [eauto|].
  pose proof (build_payload_raises _ _ _ Hp) as ->.
  unfold post_user. rewrite Hp.
  erewrite stamina_retry_final; [|apply lift_raise_bind|discriminate].
  discriminate.
Qed.

Lemma build_payload_ok_hire_date wf emp p :
  build_payload wf emp = Ok p -> exists hire_date, hire_date_cell emp = Ok hire_date.
Proof.
  unfold build_payload, append_date, hire_date_cell.
  destruct (nonempty (orig_hire_dt emp)); [|eauto].
  destruct (format_date (orig_hire_dt emp)); [eauto|discriminate].
Qed.

Section Status.

Context (be : Backend) (ct_config : ConnecteamConfig)
        (workforce : dict WorkforceRecord) (employees : dict EmployeeRecord).

Lemma phase_6_loop_attempted missing_ids acc tr results tr' :
  for_each missing_ids
    (fun results empl_id =>
       log_event LInfo "creating_user";;
       wf ← lift (dict_getitem empl_id workforce);
       emp ← lift (dict_getitem empl_id employees);
       result ← post_user be ct_config wf emp;
       sleep 300;;
       mret (results ++ [result])) acc tr = (Done (Ok results), tr') ->
  forall eid, eid ∈ missing_ids -> attempted workforce employees eid.
Proof.
  revert acc tr. induction missing_ids as [|e missing_ids IH]; intros acc tr H eid Hin.
  - by apply elem_of_nil in Hin.
  - rewrite for_each_cons in H.
    apply bind_ok_inv in H as (acc1 & t1 & Hbody & Hrest).
    apply elem_of_cons in Hin as [->|Hin]; [|by eapply IH].
    rewrite log_event_then in Hbody.
    apply bind_ok_inv in Hbody as (wf & t2 & Hwf & Hbody).
    apply bind_ok_inv in Hbody as (emp & t3 & Hemp & Hbody).
    apply bind_ok_inv in Hbody as (result & t4 & Hpost & _).
    apply post_user_ok_payload in Hpost as [p Hp].
    unfold lift, dict_getitem in Hwf, Hemp.
    destruct (dict_get e workforce) as [wf'|] eqn:Ew; [|discriminate].
    destruct (dict_get e employees) as [emp'|] eqn:Ee; [|discriminate].
    injection Hwf as -> _. injection Hemp as -> _.
    exists wf, emp, p. auto.
Qed.

Lemma run_phase_6_live_attempted missing_ids tr results tr' :
  run_phase_6 be ct_config workforce employees missing_ids false tr
  = (Done (Ok results), tr') ->
  forall eid, eid ∈ missing_ids -> attempted workforce employees eid.
Proof.
  unfold run_phase_6. rewrite log_event_then. cbv iota. intros H.
  apply bind_ok_inv in H as (rs & t1 & Hloop & _).
  by eapply phase_6_loop_attempted.
Qed.

Lemma attempted_found (missing_ids : list string) :
  (forall eid, eid ∈ missing_ids -> attempted workforce employees eid) ->
  forall eid, eid ∈ missing_ids ->
    is_Some (dict_get eid workforce) /\ is_Some (dict_get eid employees).
Proof. intros H eid Hin. destruct (H eid Hin) as (wf & emp & p & -> & -> & _). eauto. Qed.

Lemma report_rows_ok (missing_ids : list string)
    (row : string -> EmployeeRecord -> WorkforceRecord -> string -> ReportRow) :
  (forall eid, eid ∈ missing_ids -> attempted workforce employees eid) ->
  exists rows,
    comprehension
      (fun eid =>
         res_bind (dict_getitem eid employees) (fun emp =>
         res_bind (dict_getitem eid workforce) (fun wf =>
         res_bind (hire_date_cell emp) (fun hire_date => Ok (row eid emp wf hire_date)))))
      missing_ids = Ok rows.
Proof.
  intros H. apply comprehension_ok. intros eid Hin.
  destruct (H eid Hin) as (wf & emp & p & Hwf & Hemp & Hp).
  destruct (build_payload_ok_hire_date _ _ _ Hp) as [h Hh].
  unfold dict_getitem. rewrite Hwf, Hemp. simpl. rewrite Hh. simpl. eauto.
Qed.

Lemma build_html_email_ok (missing_ids : list string) results dry_run :
  (forall eid, eid ∈ missing_ids -> attempted workforce employees eid) ->
  exists html, build_html_email workforce employees missing_ids results dry_run = Ok html.
Proof.
  intros H. unfold build_html_email.
  destruct (project_set_ok _ _ _ (attempted_found _ H)) as [projects ->]. cbn [res_bind].
  match goal with |- context [comprehension ?f missing_ids] =>
    destruct (report_rows_ok missing_ids
                (fun eid emp wf hire_date =>
                   {| row_empl_id := empl_id emp;
                      row_name := full_name emp;
                      row_email := if nonempty (home_email_id emp)
                                   then home_email_id emp else em_dash;
                      row_proj_id := proj_id wf;
                      row_proj_name := proj_name wf;
                      row_team := get_team (proj_id wf);
                      row_labor_cat := bill_lab_cat_cd wf;
                      row_hire_date := hire_date;
                      row_status := status_cell dry_run
                                      (result_map (default [] results)) eid |}) H)
      as [rows Hrows]
  end.
  rewrite Hrows. simpl. eauto.
Qed.

Lemma build_plain_text_email_ok (missing_ids : list string) results dry_run :
  (forall eid, eid ∈ missing_ids -> attempted workforce employees eid) ->
  exists text_body,
    build_plain_text_email workforce employees missing_ids results dry_run = Ok text_body.
Proof.
  intros H. unfold build_plain_text_email.
  destruct (project_set_ok _ _ _ (attempted_found _ H)) as [projects ->]. cbn [res_bind].
  match goal with |- context [comprehension ?f missing_ids] =>
    destruct (report_rows_ok missing_ids
                (fun eid emp wf hire =>
                   {| row_empl_id := empl_id emp;
                      row_name := full_name emp;
                      row_email := "";
                      row_proj_id := proj_id wf;
                      row_proj_name := "";
                      row_team := get_team (proj_id wf);
                      row_labor_cat := bill_lab_cat_cd wf;
                      row_hire_date := hire;
                      row_status := status_cell dry_run
                                      (result_map (default [] results)) eid |}) H)
      as [rows Hrows]
  end.
  rewrite Hrows. simpl. eauto.
Qed.

(** In live mode the report step returns, delivered or not. *)
Lemma send_import_email_live_returns (missing_ids : list string) results tr :
  (forall eid, eid ∈ missing_ids -> attempted workforce employees eid) ->
  exists sent tr',
    send_import_email be workforce employees missing_ids results false tr
    = (Done (Ok sent), tr').
Proof.
  intros H. unfold send_import_email.
  destruct (build_html_email_ok missing_ids results false H) as [html ->].
  destruct (build_plain_text_email_ok missing_ids results false H) as [text_body ->].
  rewrite !lift_ok_bind. cbv iota.
  destruct (is_nil _); [rewrite mret_run; eauto|].
  destruct (project_set_ok _ _ _ (attempted_found _ H)) as [projects ->].
  rewrite lift_ok_bind. unfold deliver.
  destruct (ses_send_email be tr _); eauto.
Qed.

End Status.

Lemma count_failed_zero (results : list CreationResult) :
  length (List.filter (fun r => negb (success r)) results) = 0
  <-> forall r, r ∈ results -> success r = true.
Proof.
  induction results as [|r results IH]; simpl.
  - split; [|reflexivity]. intros _ r Hr. by apply elem_of_nil in Hr.
  - destruct (success r) eqn:E; simpl.
    + rewrite IH. split.
      * intros H x Hx. apply elem_of_cons in Hx as [->|Hx]; auto.
      * intros H x Hx. apply H. by apply list_elem_of_further.
    + split; [discriminate|]. intros H.
      specialize (H r (list_elem_of_here _ _)). congruence.
Qed.

(** What [sync] returns once the configurations are loaded and the phases
    have returned a status: that status, after both clients are closed. *)
Lemma sync_returns_phases be fuel client_name dry_run tr deltek_config ct_config
    t1 status t' :
  load_configs be client_name (sync_started be client_name tr)
    = (Done (Ok (Some (deltek_config, ct_config))), t1) ->
  sync_phases be fuel deltek_config ct_config dry_run
    (t1 ++ [EEvent LInfo "configurations_loaded"]) = (Done (Ok status), t') ->
  sync be fuel client_name dry_run tr
  = (Done (Ok status), t' ++ [ECloseDeltek; ECloseConnecteam]).
Proof.
  intros Hload Hphases. unfold sync. rewrite emit_then, log_event_then.
  unfold sync_started in Hload. rewrite <- app_assoc. simpl app.
  erewrite bind_ok by exact Hload. cbv beta iota. rewrite log_event_then.
  unfold try_finally, try_except. rewrite Hphases.
  rewrite emit_then, emit_run, <- app_assoc. reflexivity.
Qed.

(** C4.  In a live run of [sync] that reaches Phase 6 and in which Phase 6
    returns its results, [sync] returns a status that is 1 exactly when
    some result has [success = false], and 0 exactly when every result has
    [success = true]. *)
Theorem sync_live_status be fuel client_name tr ct_config workforce employees
    missing_ids t6 results t7 :
  reaches_phase_6 be fuel client_name tr ct_config workforce employees missing_ids t6 ->
  run_phase_6 be ct_config workforce employees missing_ids false t6
    = (Done (Ok results), t7) ->
  exists status t8,
    sync be fuel client_name false tr = (Done (Ok status), t8)
    /\ (status = 1%Z <-> exists r, r ∈ results /\ success r = false)
    /\ (status = 0%Z <-> forall r, r ∈ results -> success r = true).
Proof.
  intros (deltek_config & t1 & ct_projects & t2 & t3 & t4 & existing & t5
          & Hload & H1 & N1 & H2 & N2 & H3 & N3 & H4 & H5 & N5) H6.
  pose proof (run_phase_6_live_attempted _ _ _ _ _ _ _ _ H6) as Hatt.
  destruct (send_import_email_live_returns be workforce employees missing_ids
              (if is_nil results then None else Some results) t7 Hatt)
    as (sent & t8 & Hmail).
  set (failed := length (List.filter (fun r => negb (success r)) results)).
  assert (Hphases : exists status t9,
    sync_phases be fuel deltek_config ct_config false
      (t1 ++ [EEvent LInfo "configurations_loaded"]) = (Done (Ok status), t9)
    /\ status = if (failed =? 0)%nat then 0%Z else 1%Z).
  { unfold sync_phases.
    erewrite bind_ok by exact H1. rewrite (is_nil_false _ N1).
    erewrite bind_ok by exact H2. rewrite (is_nil_false _ N2).
    erewrite bind_ok by exact H3. rewrite (is_nil_false _ N3).
    erewrite bind_ok by exact H4.
    erewrite bind_ok by exact H5. rewrite (is_nil_false _ N5).
    erewrite bind_ok by exact H6.
    erewrite bind_ok by exact Hmail.
    cbv zeta. fold failed. simpl negb. cbv iota. simpl andb.
    destruct (failed =? 0)%nat; cbn [negb andb]; do 2 eexists;
      (split; [rewrite log_event_then, mret_run; reflexivity|reflexivity]). }
  destruct Hphases as (status & t9 & Hphases & Hstatus).
  exists status. eexists. split; [exact (sync_returns_phases _ _ _ _ _ _ _ _ _ _ Hload Hphases)|].
  destruct (count_failed_zero results) as [Hzero1 Hzero2].
  fold failed in Hzero1, Hzero2.
  destruct (failed =? 0)%nat eqn:E; subst status.
  - apply Nat.eqb_eq in E. split; split; try discriminate; try reflexivity.
    + intros (r & Hr & Hfail). rewrite (Hzero1 E r Hr) in Hfail. discriminate.
    + intros _. exact (Hzero1 E).
  - apply Nat.eqb_neq in E. split; split; try discriminate; try reflexivity.
    + intros _.
      destruct (decide (Forall (fun r => success r = true) results)) as [Hall|Hnot].
      * exfalso. apply E, Hzero2. intros r Hr. rewrite Forall_forall in Hall. auto.
      * apply not_Forall_Exists in Hnot; [|intros r; apply _].
        apply Exists_exists in Hnot as (r & Hr & Hs).
        exists r. split; [exact Hr|].
        unfold compose in Hs.
        destruct (success r); [exfalso; apply Hs; reflexivity|reflexivity].
    + intros Hall. exfalso. exact (E (Hzero2 Hall)).
Qed.

Lemma scenario_reaches_phase_6 post :
  let be := Scenario.backend Scenario.two_projects post in
  reaches_phase_6 be 2 "acme" [] Scenario.ct_config Scenario.workforce
    Scenario.employees Scenario.missing_ids (ScenarioRun.t6 be).
Proof.
  cbv zeta. set (be := Scenario.backend Scenario.two_projects post).
  exists Scenario.deltek_config, (ScenarioRun.t1 be), Scenario.ct_projects,
    (ScenarioRun.t2 be), (ScenarioRun.t3 be), (ScenarioRun.t4 be),
    ScenarioRun.existing_cp_ids, (ScenarioRun.t5 be).
  repeat split; try discriminate; vm_compute; reflexivity.
Qed.

Lemma sync_live_status_witness :
  let be := Scenario.backend Scenario.two_projects Scenario.rejects_ben in
  let results := [Failed "E002" "Ben Baker" 400 (DetailText "bad request");
                  Created "E003" "Cy Clark" JNull] in
  let run6 := run_phase_6 be Scenario.ct_config Scenario.workforce Scenario.employees
                Scenario.missing_ids false (ScenarioRun.t6 be) in
  reaches_phase_6 be 2 "acme" [] Scenario.ct_config Scenario.workforce
    Scenario.employees Scenario.missing_ids (ScenarioRun.t6 be)
  /\ run6 = (Done (Ok results), snd run6)
  /\ fst (sync be 2 "acme" false []) = Done (Ok 1%Z)
  /\ exists status t8,
       sync be 2 "acme" false [] = (Done (Ok status), t8)
       /\ (status = 1%Z <-> exists r, r ∈ results /\ success r = false)
       /\ (status = 0%Z <-> forall r, r ∈ results -> success r = true).
Proof.
  cbv zeta.
  pose proof (scenario_reaches_phase_6 Scenario.rejects_ben) as Hreach. cbv zeta in Hreach.
  match goal with |- _ /\ ?E /\ _ => assert (H6 : E) by (vm_compute; reflexivity) end.
  split; [exact Hreach|]. split; [exact H6|]. split; [vm_compute; reflexivity|].
  exact (sync_live_status _ _ _ _ _ _ _ _ _ _ _ Hreach H6).
Defined.

(** C7, amended.  When the configurations are loaded and Phase 1 returns
    an empty mapping of qualifying groups, [sync] takes its early exit: it
    records the error event [no_ct_projects_found], runs no further phase,
    closes both clients and returns status 1. *)
Theorem sync_no_projects_status be fuel client_name dry_run tr deltek_config
    ct_config t1 t2 :
  load_configs be client_name (sync_started be client_name tr)
    = (Done (Ok (Some (deltek_config, ct_config))), t1) ->
  run_phase_1 be deltek_config (t1 ++ [EEvent LInfo "configurations_loaded"])
    = (Done (Ok []), t2) ->
  sync be fuel client_name dry_run tr
  = (Done (Ok 1%Z),
     t2 ++ [EEvent LError "no_ct_projects_found"; ECloseDeltek; ECloseConnecteam]).
Proof.
  intros Hload H1.
  rewrite (sync_returns_phases _ _ _ _ _ _ _ _ 1%Z
             (t2 ++ [EEvent LError "no_ct_projects_found"]) Hload).
  - rewrite <- app_assoc. reflexivity.
  - unfold sync_phases. erewrite bind_ok by exact H1. reflexivity.
Qed.

Lemma sync_no_projects_status_witness :
  let be := Scenario.backend [] Scenario.accepts in
  let loaded := load_configs be "acme" (sync_started be "acme" []) in
  let run1 := run_phase_1 be Scenario.deltek_config
                (snd loaded ++ [EEvent LInfo "configurations_loaded"]) in
  loaded = (Done (Ok (Some (Scenario.deltek_config, Scenario.ct_config))), snd loaded)
  /\ run1 = (Done (Ok []), snd run1)
  /\ sync be 2 "acme" true []
     = (Done (Ok 1%Z),
        snd run1 ++ [EEvent LError "no_ct_projects_found"; ECloseDeltek;
                     ECloseConnecteam]).
Proof.
  cbv zeta.
  match goal with |- ?L /\ ?R /\ _ =>
    assert (Hload : L) by (vm_compute; reflexivity);
    assert (H1 : R) by (vm_compute; reflexivity)
  end.
  split; [exact Hload|]. split; [exact H1|].
  exact (sync_no_projects_status _ 2 _ true _ _ _ _ _ Hload H1).
Defined.

(** C7 as stated fails: Costpoint returns no qualifying project, Phase 1
    stores the empty mapping, and [sync] logs an error and returns 1, not
    0. *)
Lemma sync_empty_projects_returns_1 :
  sync (Scenario.backend [] Scenario.accepts) 2 "acme" false []
  = (Done (Ok 1%Z),
     [EInitEventService "acme" "connectteam-to-costpoint-new-employees";
      EEvent LInfo "pipeline_starting"; EGetSecretValue "costpoint/acme";
      EGetSecretValue "connectteam/acme"; EEvent LInfo "configurations_loaded";
      EEvent LInfo "phase_1_starting";
      EDeltekPost "https://costpoint.example/api?system=PROD&company=1"
        {| filter_id := "pjmbasicrrexpt"; where_rsId := "PJMBASIC_PROJ";
           where_relations := [("ACTIVE_FL", "Y"); ("ALLOW_CHARGES_FL", "Y")];
           where_children := [] |} 300%Z;
      EPutObject "new-employees/ne_ct_projects.json" (SProjects []);
      EEvent LInfo "phase_1_complete"; EEvent LError "no_ct_projects_found";
      ECloseDeltek; ECloseConnecteam]).
Proof. vm_compute. reflexivity. Qed.

(** * Further properties of the clients and of the pipeline *)

(** ** Dictionaries, continued *)

Lemma dict_mem_keys {V} k (d : dict V) : dict_mem k d = true <-> k ∈ dict_keys d.
Proof.
  unfold dict_mem. split.
  - destruct (dict_get k d) eqn:E; [|discriminate]. intros _. by eapply dict_get_Some_keys.
  - intros H. apply keys_dict_get in H as [v ->]. reflexivity.
Qed.

Lemma dict_keys_setitem {V} k (v : V) d :
  dict_keys (dict_setitem k v d) =
  if dict_mem k d then dict_keys d else dict_keys d ++ [k].
Proof.
  induction d as [|[k0 v0] d IH]; [reflexivity|].
  unfold dict_mem in *. simpl. destruct (String.eqb k k0) eqn:E; [reflexivity|].
  simpl. rewrite IH. destruct (dict_get k d); reflexivity.
Qed.

Lemma NoDup_setitem {V} k (v : V) d :
  NoDup (dict_keys d) -> NoDup (dict_keys (dict_setitem k v d)).
Proof.
  intros H. rewrite dict_keys_setitem. destruct (dict_mem k d) eqn:E; [exact H|].
  apply NoDup_app. split; [exact H|]. split; [|apply NoDup_singleton].
  intros x Hx Hk. apply list_elem_of_singleton in Hk as ->.
  apply dict_mem_keys in Hx. congruence.
Qed.

Lemma keyed_by_nil {V} (id : V -> string) : keyed_by id [].
Proof. split; [constructor|]. intros k v. discriminate. Qed.

Lemma keyed_by_setitem {V} (id : V -> string) k v d :
  keyed_by id d -> id v = k -> keyed_by id (dict_setitem k v d).
Proof.
  intros [Hnd Hid] Hv. split; [by apply NoDup_setitem|].
  intros k' v'. rewrite dict_get_setitem.
  destruct (String.eqb k' k) eqn:E.
  - apply String.eqb_eq in E. subst k'. intros [= <-]. exact Hv.
  - apply Hid.
Qed.

Lemma fold_left_invariant {A B} (P : A -> Prop) (f : A -> B -> A) l a :
  P a -> (forall a x, x ∈ l -> P a -> P (f a x)) -> P (fold_left f l a).
Proof.
  revert a. induction l as [|x l IH]; intros a Ha Hf; [exact Ha|].
  simpl. apply IH.
  - apply Hf; [apply list_elem_of_here|exact Ha].
  - intros a' y Hy. apply Hf. by apply list_elem_of_further.
Qed.

(** ** The rosters of [get_workforce] *)

Lemma collect_empl_rows_keys rows :
  NoDup (dict_keys (collect_empl_rows rows))
  /\ forall k, k ∈ dict_keys (collect_empl_rows rows) -> k <> "".
Proof.
  unfold collect_empl_rows.
  apply (fold_left_invariant
           (fun er : dict (list (dict string)) =>
              NoDup (dict_keys er) /\ forall k, k ∈ dict_keys er -> k <> "")).
  { split; [constructor|]. intros k Hk. by apply elem_of_nil in Hk. }
  intros er row _ Her.
  destruct (rsId_is row "PJM_PROJEMPL_HDR"); simpl negb; cbv iota; [|exact Her].
  apply fold_left_invariant; [exact Her|]. clear er Her. intros er child _ Her.
  destruct (rsId_is child "PJM_PROJEMPL_LABCAT_PLCWKFRCE"); simpl negb; cbv iota;
    [|exact Her].
  apply fold_left_invariant; [exact Her|]. clear er Her. intros er gc _ [Hnd Hne].
  destruct (rsId_is gc "PJM_PROJEMPLLABCAT_PLCWK"); simpl negb; cbv iota; [|by split].
  cbv zeta.
  set (eid := dict_get_default "PJM_PROJEMPLLABCAT_PLCWK_EMPL_ID" "" (row_data gc)).
  destruct (nonempty eid) eqn:E; simpl negb; cbv iota; [|by split].
  split; [by apply NoDup_setitem|].
  intros k Hk. apply keys_setitem in Hk as [->|Hk]; [|by apply Hne].
  intros ->. discriminate.
Qed.

Lemma workforce_records_shape pid pname empl_rows acc records :
  workforce_records pid pname empl_rows acc = Ok records ->
  exists new,
    records = acc ++ new
    /\ sublist (map wf_empl_id new) (dict_keys empl_rows)
    /\ Forall (fun r => proj_id r = pid /\ proj_name r = pname) new.
Proof.
  revert acc. induction empl_rows as [|[eid rows] rest IH]; intros acc; simpl.
  - intros [= <-]. exists []. rewrite app_nil_r. auto using sublist_nil_l.
  - destruct (default_row rows) as [dflt|].
    + destruct (dict_getitem _ dflt) as [cat|e]; simpl; [|discriminate].
      intros H. apply IH in H as (new & -> & Hsub & Hall).
      eexists (_ :: new). rewrite <- app_assoc. split; [reflexivity|]. split.
      * simpl. by apply sublist_skip.
      * constructor; [split; reflexivity|exact Hall].
    + intros H. apply IH in H as (new & -> & Hsub & Hall).
      exists new. split; [reflexivity|]. split; [by apply sublist_cons|exact Hall].
Qed.

Lemma get_workforce_shape be config pid pname tr records tr' :
  get_workforce be config pid pname tr = (Done (Ok records), tr') ->
  NoDup (map wf_empl_id records)
  /\ Forall (fun r => proj_id r = pid /\ proj_name r = pname /\ wf_empl_id r <> "")
       records.
Proof.
  unfold get_workforce. intros H.
  apply bind_ok_inv in H as (data & t & _ & H).
  unfold lift in H. injection H as H _.
  apply workforce_records_shape in H as (new & -> & Hsub & Hall). simpl.
  destruct (collect_empl_rows_keys data) as [Hnd Hne]. split.
  - by eapply sublist_NoDup.
  - apply Forall_forall. intros r Hr.
    rewrite Forall_forall in Hall. destruct (Hall r Hr) as [-> ->].
    split; [reflexivity|]. split; [reflexivity|].
    apply Hne. apply (sublist_subseteq _ _ Hsub).
    by apply list_elem_of_fmap_2.
Qed.

(** X1.  A roster returned by [get_workforce] holds at most one record
    per employee, no record with an empty employee id, and only records of
    the project that was asked for. *)
Theorem get_workforce_one_record_per_employee be config pid pname tr records tr' :
  get_workforce be config pid pname tr = (Done (Ok records), tr') ->
  NoDup (map wf_empl_id records)
  /\ (forall r, r ∈ records ->
        proj_id r = pid /\ proj_name r = pname /\ wf_empl_id r <> "").
Proof.
  intros H. apply get_workforce_shape in H as [Hnd Hall].
  split; [exact Hnd|]. by apply Forall_forall.
Qed.

Lemma get_workforce_one_record_per_employee_witness :
  let be := Scenario.backend Scenario.two_projects Scenario.accepts in
  let run := get_workforce be Scenario.deltek_config "2392100" "Security North" [] in
  run = (Done (Ok [Scenario.e001_wf; Scenario.e002_wf]), snd run)
  /\ NoDup (map wf_empl_id [Scenario.e001_wf; Scenario.e002_wf])
  /\ (forall r, r ∈ [Scenario.e001_wf; Scenario.e002_wf] ->
        proj_id r = "2392100" /\ proj_name r = "Security North" /\ wf_empl_id r <> "").
Proof.
  cbv zeta.
  match goal with |- ?L /\ _ => assert (H : L) by (vm_compute; reflexivity) end.
  split; [exact H|].
  exact (get_workforce_one_record_per_employee _ _ _ _ _ _ _ H).
Defined.

Lemma post_ok be config payload timeout tr r doc :
  let t := match timeout with
           | Some t => if (t =? 0)%Z then HTTP_TIMEOUT else t
           | None => HTTP_TIMEOUT
           end in
  deltek_http_post be tr (full_url config) payload t = Responded r ->
  is_success (status_code r) = true -> json r = Some doc ->
  _post be config payload timeout tr =
  (Done (Ok doc), tr ++ [EDeltekPost (full_url config) payload t]).
Proof.
  intros t Hr Hcode Hdoc. unfold _post. apply stamina_retry_final; [|discriminate].
  fold t. erewrite bind_ok; [|apply request_responded; exact Hr].
  unfold raise_for_status. rewrite Hcode, lift_ok_bind.
  unfold lift, response_json. rewrite Hdoc. reflexivity.
Qed.

Lemma workforce_records_key_error pid pname empl_rows acc :
  (exists eid rows dflt,
     (eid, rows) ∈ empl_rows /\ default_row rows = Some dflt
     /\ dict_get "PJM_PROJEMPLLABCAT_PLCWK_BILL_LAB_CAT_CD" dflt = None) ->
  workforce_records pid pname empl_rows acc
  = Raise (KeyError "PJM_PROJEMPLLABCAT_PLCWK_BILL_LAB_CAT_CD").
Proof.
  revert acc. induction empl_rows as [|[eid0 rows0] rest IH];
    intros acc (eid & rows & dflt & Hin & Hdflt & Hcat).
  - by apply elem_of_nil in Hin.
  - simpl. apply elem_of_cons in Hin as [[= <- <-]|Hin].
    + rewrite Hdflt. unfold dict_getitem. rewrite Hcat. reflexivity.
    + destruct (default_row rows0) as [d0|]; [|apply IH; eauto 10].
      unfold dict_getitem.
      destruct (dict_get _ d0); [|reflexivity].
      simpl. apply IH. eauto 10.
Qed.

(** X2.  When the roster that Costpoint returns holds an employee whose
    default row has no labor category, [get_workforce] raises the
    [KeyError] of that column after its single request: it returns no
    partial roster. *)
Theorem get_workforce_missing_labor_category be config pid pname tr r doc :
  (forall payload, filter_id payload = "pjmworkrrexp" ->
     deltek_http_post be tr (full_url config) payload 30%Z = Responded r) ->
  is_success (status_code r) = true -> json r = Some doc ->
  (exists eid rows dflt,
     (eid, rows) ∈ collect_empl_rows doc /\ default_row rows = Some dflt
     /\ dict_get "PJM_PROJEMPLLABCAT_PLCWK_BILL_LAB_CAT_CD" dflt = None) ->
  exists payload,
    get_workforce be config pid pname tr
    = (Done (Raise (KeyError "PJM_PROJEMPLLABCAT_PLCWK_BILL_LAB_CAT_CD")),
       tr ++ [EDeltekPost (full_url config) payload 30%Z]).
Proof.
  intros Hr Hcode Hdoc Hbad. unfold get_workforce.
  eexists. erewrite bind_ok;
    [|apply (post_ok _ _ _ (Some 30%Z) _ r doc);
      [apply Hr; reflexivity|exact Hcode|exact Hdoc]].
  unfold lift. rewrite (workforce_records_key_error _ _ _ _ Hbad). reflexivity.
Qed.

Lemma get_workforce_missing_labor_category_witness :
  let row := [("PJM_PROJEMPLLABCAT_PLCWK_EMPL_ID", "E009"); ("DFLT_FL", "Y")] in
  let doc := Scenario.roster [MkRow (Some "PJM_PROJEMPLLABCAT_PLCWK") row []] in
  let r := {| status_code := 200%Z; json := Some doc; text := "" |} in
  (forall payload, filter_id payload = "pjmworkrrexp" ->
     deltek_http_post Edge.no_labor_category []
       (full_url Scenario.deltek_config) payload 30%Z = Responded r)
  /\ (exists eid rows dflt,
        (eid, rows) ∈ collect_empl_rows doc /\ default_row rows = Some dflt
        /\ dict_get "PJM_PROJEMPLLABCAT_PLCWK_BILL_LAB_CAT_CD" dflt = None)
  /\ exists payload,
       get_workforce Edge.no_labor_category Scenario.deltek_config
         "2392100" "Security North" []
       = (Done (Raise (KeyError "PJM_PROJEMPLLABCAT_PLCWK_BILL_LAB_CAT_CD")),
          [] ++ [EDeltekPost (full_url Scenario.deltek_config) payload 30%Z]).
Proof.
  cbv zeta.
  match goal with |- ?A /\ ?B /\ _ => assert (Hr : A); [|assert (Hbad : B)] end.
  { intros payload Hid. simpl. rewrite Hid. reflexivity. }
  { exists "E009". do 2 eexists. split; [apply list_elem_of_here|].
    split; reflexivity. }
  split; [exact Hr|]. split; [exact Hbad|].
  exact (get_workforce_missing_labor_category _ _ _ _ _ _ _ Hr eq_refl eq_refl Hbad).
Defined.

(** ** Invariants of the mappings of Phases 2 and 3 *)

Lemma record_for_Some e roster rec :
  record_for e roster = Some rec -> rec ∈ roster /\ wf_empl_id rec = e.
Proof.
  unfold record_for. intros H. apply List.find_some in H as [Hin Heq].
  split; [by apply list_elem_of_In|by apply String.eqb_eq].
Qed.

Lemma merge_records_keys records workforce :
  NoDup (dict_keys workforce) -> NoDup (dict_keys (merge_records records workforce)).
Proof.
  intros H. unfold merge_records. apply fold_left_invariant; [exact H|].
  intros w rec _ Hw. destruct (negb (dict_mem (wf_empl_id rec) w)); [|exact Hw].
  by apply NoDup_setitem.
Qed.

Section Phase2Invariant.

Context (be : Backend) (config : DeltekConfig) (ct_projects : dict string).

Lemma phase_2_loop_sound projects acc tr workforce tr' :
  (forall p, p ∈ projects -> p ∈ ct_projects) -> membership_sound ct_projects acc ->
  for_each projects
    (fun workforce '(proj_id, proj_name) =>
       records ← get_workforce be config proj_id proj_name;
       let workforce := merge_records records workforce in
       sleep 500;; mret workforce) acc tr = (Done (Ok workforce), tr') ->
  membership_sound ct_projects workforce.
Proof.
  revert acc tr. induction projects as [|[pid pname] rest IH]; intros acc tr Hsub Hacc.
  - simpl. unfold ret. by intros [= <- _].
  - rewrite for_each_cons. intros H.
    apply bind_ok_inv in H as (w1 & t1 & Hbody & Hrest).
    apply bind_ok_inv in Hbody as (records & t2 & Hget & Hbody).
    cbv zeta in Hbody. rewrite sleep_then, mret_run in Hbody. injection Hbody as <- _.
    apply (IH _ _ (fun p Hp => Hsub p (list_elem_of_further _ _ _ Hp))) in Hrest;
      [exact Hrest|].
    apply get_workforce_shape in Hget as [_ Hall]. rewrite Forall_forall in Hall.
    destruct Hacc as [[Hnd Hid] Hproj].
    assert (Hfrom : forall k rec,
      dict_get k (merge_records records acc) = Some rec ->
      dict_get k acc = Some rec \/ (rec ∈ records /\ wf_empl_id rec = k)).
    { intros k rec. rewrite merge_records_get.
      destruct (dict_get k acc); [by left|]. intros Hrec. right.
      by apply record_for_Some. }
    split; [split|].
    + by apply merge_records_keys.
    + intros k rec Hk. destruct (Hfrom k rec Hk) as [Hold|[_ Hnew]]; [by apply Hid|exact Hnew].
    + intros k rec Hk. destruct (Hfrom k rec Hk) as [Hold|[Hin Hnew]]; [by apply Hproj|].
      destruct (Hall rec Hin) as (-> & -> & Hne). split.
      * apply Hsub, list_elem_of_here.
      * by rewrite <- Hnew.
Qed.

(** X3.  The mapping that Phase 2 returns has distinct keys, holds every
    record under the record's own employee id, which is not empty, and
    holds only records of qualifying projects of the Phase-1 mapping. *)
Theorem run_phase_2_mapping_invariant tr workforce tr' :
  run_phase_2 be config ct_projects tr = (Done (Ok workforce), tr') ->
  NoDup (dict_keys workforce)
  /\ (forall k rec, dict_get k workforce = Some rec ->
        wf_empl_id rec = k /\ k <> ""
        /\ (proj_id rec, proj_name rec) ∈ ct_projects).
Proof.
  unfold run_phase_2. rewrite log_event_then. intros H.
  apply bind_ok_inv in H as (w & t1 & Hloop & Hrest).
  rewrite save_json_then, log_event_then, mret_run in Hrest. injection Hrest as <- _.
  apply phase_2_loop_sound in Hloop as [[Hnd Hid] Hproj].
  - split; [exact Hnd|]. intros k rec Hk. destruct (Hproj k rec Hk). auto.
  - auto.
  - split; [apply keyed_by_nil|]. intros k rec. discriminate.
Qed.

End Phase2Invariant.

Lemma run_phase_2_mapping_invariant_witness :
  let be := Scenario.backend Scenario.two_projects Scenario.accepts in
  let run := run_phase_2 be Scenario.deltek_config Scenario.ct_projects [] in
  run = (Done (Ok Scenario.workforce), snd run)
  /\ NoDup (dict_keys Scenario.workforce)
  /\ (forall k rec, dict_get k Scenario.workforce = Some rec ->
        wf_empl_id rec = k /\ k <> ""
        /\ (proj_id rec, proj_name rec) ∈ Scenario.ct_projects).
Proof.
  cbv zeta.
  match goal with |- ?L /\ _ => assert (H : L) by (vm_compute; reflexivity) end.
  split; [exact H|].
  exact (run_phase_2_mapping_invariant _ _ _ _ _ _ H).
Defined.

Lemma get_employee_some be config eid tr emp tr' :
  get_employee be config eid tr = (Done (Ok (Some emp)), tr') -> empl_id emp = eid.
Proof.
  unfold get_employee. intros H.
  apply bind_ok_inv in H as (data & t & _ & H).
  destruct data as [[|row rows]|]; rewrite mret_run in H; try discriminate.
  injection H as <- _. reflexivity.
Qed.

(** One turn of the loop of Phase 3 leaves the mapping as it is, or stores
    an active employee under the id that was looked up. *)
Lemma phase_3_step be config employees key tr employees1 tr1 :
  (log_event LInfo "fetching_employee";;
   emp ← get_employee be config key;
   employees ←
     match emp with
     | None => log_event LError "employee_not_found";; mret employees
     | Some emp =>
         if negb (is_active emp)
         then log_event LInfo "skipping_inactive_employee";; mret employees
         else mret (dict_setitem key emp employees)
     end;
   sleep 300;;
   mret employees) tr = (Done (Ok employees1), tr1) ->
  employees1 = employees
  \/ exists emp, empl_id emp = key /\ is_active emp = true
                 /\ employees1 = dict_setitem key emp employees.
Proof.
  rewrite log_event_then. intros H.
  apply bind_ok_inv in H as (emp & t2 & Hget & H).
  apply bind_ok_inv in H as (acc2 & t3 & Hkeep & H).
  rewrite sleep_then, mret_run in H. injection H as <- _.
  destruct emp as [emp|].
  - destruct (negb (is_active emp)) eqn:Hact.
    + rewrite log_event_then, mret_run in Hkeep. injection Hkeep as <- _. by left.
    + rewrite mret_run in Hkeep. injection Hkeep as <- _. right.
      apply negb_false_iff in Hact.
      exists emp. split; [by eapply get_employee_some|]. auto.
  - rewrite log_event_then, mret_run in Hkeep. injection Hkeep as <- _. by left.
Qed.

Lemma details_sound_setitem employees key emp :
  details_sound employees -> empl_id emp = key -> is_active emp = true ->
  details_sound (dict_setitem key emp employees).
Proof.
  intros [Hkeyed Hact] Hid Hactive. split; [by apply keyed_by_setitem|].
  intros k e. rewrite dict_get_setitem.
  destruct (String.eqb k key); [intros [= <-]; exact Hactive|apply Hact].
Qed.

Section Phase3Invariant.

Context (be : Backend) (config : DeltekConfig).

Lemma phase_3_loop_sound keys acc tr employees tr' :
  details_sound acc ->
  NoDup (dict_keys acc ++ keys) ->
  for_each keys
    (fun employees empl_id =>
       log_event LInfo "fetching_employee";;
       emp ← get_employee be config empl_id;
       employees ←
         match emp with
         | None => log_event LError "employee_not_found";; mret employees
         | Some emp =>
             if negb (is_active emp)
             then log_event LInfo "skipping_inactive_employee";; mret employees
             else mret (dict_setitem empl_id emp employees)
         end;
       sleep 300;;
       mret employees) acc tr = (Done (Ok employees), tr') ->
  details_sound employees
  /\ exists kept, dict_keys employees = dict_keys acc ++ kept /\ sublist kept keys.
Proof.
  revert acc tr. induction keys as [|key keys IH]; intros acc tr Hacc Hnd.
  - simpl. unfold ret. intros [= <- _]. split; [exact Hacc|].
    exists []. by rewrite app_nil_r.
  - rewrite for_each_cons. intros H.
    apply bind_ok_inv in H as (acc1 & t1 & Hbody & Hrest). cbv beta in Hbody.
    apply phase_3_step in Hbody as [->|(emp & Hid & Hact & ->)].
    + apply IH in Hrest as [Hsound (kept & Hkeys & Hsub)]; [|exact Hacc|].
      * split; [exact Hsound|]. exists kept. split; [exact Hkeys|by apply sublist_cons].
      * apply NoDup_app in Hnd as (H1 & H2 & H3). apply NoDup_cons in H3 as [_ H3].
        apply NoDup_app. split; [exact H1|]. split; [|exact H3].
        intros x Hx Hk. apply (H2 x Hx). by apply list_elem_of_further.
    + assert (Hfresh : dict_mem key acc = false).
      { destruct (dict_mem key acc) eqn:E; [|reflexivity].
        apply dict_mem_keys in E. apply NoDup_app in Hnd as (_ & H2 & _).
        exfalso. apply (H2 key E). apply list_elem_of_here. }
      assert (Hkeys1 : dict_keys (dict_setitem key emp acc) = dict_keys acc ++ [key]).
      { by rewrite dict_keys_setitem, Hfresh. }
      apply IH in Hrest as [Hsound (kept & Hkeys & Hsub)].
      * split; [exact Hsound|]. exists (key :: kept). split.
        -- rewrite Hkeys, Hkeys1, <- app_assoc. reflexivity.
        -- by apply sublist_skip.
      * by apply details_sound_setitem.
      * rewrite Hkeys1, <- app_assoc. exact Hnd.
Qed.

(** X4.  The mapping that Phase 3 returns holds only active employees,
    each under the employee's own id and under distinct keys; when the keys
    of the membership mapping are distinct, the keys of the result are
    those of them that were kept, in the same order. *)
Theorem run_phase_3_mapping_invariant (workforce : dict WorkforceRecord) tr employees tr' :
  NoDup (dict_keys workforce) ->
  run_phase_3 be config workforce tr = (Done (Ok employees), tr') ->
  NoDup (dict_keys employees)
  /\ (forall k emp, dict_get k employees = Some emp ->
        empl_id emp = k /\ is_active emp = true)
  /\ sublist (dict_keys employees) (dict_keys workforce).
Proof.
  intros Hnd. unfold run_phase_3. rewrite log_event_then. intros H.
  apply bind_ok_inv in H as (emps & t1 & Hloop & Hrest).
  rewrite save_json_then, log_event_then, mret_run in Hrest. injection Hrest as <- _.
  apply phase_3_loop_sound in Hloop as [[[Hkeys Hid] Hact] (kept & Hk & Hsub)].
  - split; [exact Hkeys|]. split; [|by rewrite Hk].
    intros k emp Hget. split; [by apply Hid|by eapply Hact].
  - split; [apply keyed_by_nil|]. intros k emp. discriminate.
  - exact Hnd.
Qed.

End Phase3Invariant.

Lemma run_phase_3_mapping_invariant_witness :
  let be := Scenario.backend Scenario.two_projects Scenario.accepts in
  let run := run_phase_3 be Scenario.deltek_config Scenario.workforce [] in
  NoDup (dict_keys Scenario.workforce)
  /\ run = (Done (Ok Scenario.employees), snd run)
  /\ NoDup (dict_keys Scenario.employees)
  /\ (forall k emp, dict_get k Scenario.employees = Some emp ->
        empl_id emp = k /\ is_active emp = true)
  /\ sublist (dict_keys Scenario.employees) (dict_keys Scenario.workforce).
Proof.
  cbv zeta.
  assert (Hnd : NoDup (dict_keys Scenario.workforce)).
  { apply (bool_decide_unpack _). vm_compute. exact I. }
  match goal with |- _ /\ ?R /\ _ => assert (H : R) by (vm_compute; reflexivity) end.
  split; [exact Hnd|]. split; [exact H|].
  exact (run_phase_3_mapping_invariant _ _ _ _ _ _ Hnd H).
Defined.

(** ** Retries and failures of the Costpoint requests *)

(** A timeout that leaves attempts and time is followed by another
    attempt; one that leaves none of either is raised. *)
Lemma retrying_again {A} clock start n (m : M A) tr tr' :
  m tr = (Done (Raise TimeoutException), tr') ->
  (clock tr' - start < STAMINA_TIMEOUT)%Z ->
  retrying clock start (S (S n)) m tr = retrying clock start (S n) m tr'.
Proof.
  intros H Hbudget. cbn [retrying]. rewrite H.
  destruct (STAMINA_TIMEOUT <=? clock tr' - start)%Z eqn:E; [|reflexivity].
  apply Z.leb_le in E. lia.
Qed.

Lemma retrying_out_of_time {A} clock start attempts (m : M A) tr tr' :
  m tr = (Done (Raise TimeoutException), tr') ->
  (STAMINA_TIMEOUT <= clock tr' - start)%Z ->
  retrying clock start attempts m tr = (Done (Raise TimeoutException), tr').
Proof.
  intros H Hbudget. destruct attempts as [|[|n]]; cbn [retrying]; rewrite H;
    try reflexivity.
  destruct (STAMINA_TIMEOUT <=? clock tr' - start)%Z eqn:E; [reflexivity|].
  apply Z.leb_gt in E. lia.
Qed.

Lemma retrying_exhausted {A} clock start (m : M A) tr tr' :
  m tr = (Done (Raise TimeoutException), tr') ->
  retrying clock start 1 m tr = (Done (Raise TimeoutException), tr').
Proof. intros H. simpl. rewrite H. reflexivity. Qed.

Lemma stamina_retry_again {A} clock n (m : M A) tr tr' :
  m tr = (Done (Raise TimeoutException), tr') ->
  (clock tr' - clock tr < STAMINA_TIMEOUT)%Z ->
  stamina_retry clock (S (S n)) m tr = retrying clock (clock tr) (S n) m tr'.
Proof. apply retrying_again. Qed.

Lemma request_timed_out {B} e (x : Trace -> Exchange B) tr :
  x tr = TimedOut -> request e x tr = (Done (Raise TimeoutException), tr ++ [e]).
Proof. unfold request. intros ->. reflexivity. Qed.

Section CostpointRetries.

Context (be : Backend) (config : DeltekConfig).

(** One attempt of [_post], as [stamina] runs it. *)
Lemma post_attempt_timed_out payload t tr :
  deltek_http_post be tr (full_url config) payload t = TimedOut ->
  (response ← request (EDeltekPost (full_url config) payload t)
                (fun tr => deltek_http_post be tr (full_url config) payload t);
   _ ← lift (raise_for_status response);
   lift (response_json response)) tr
  = (Done (Raise TimeoutException), tr ++ [EDeltekPost (full_url config) payload t]).
Proof. intros H. erewrite bind_raise; [reflexivity|]. by apply request_timed_out. Qed.

Lemma post_attempt_ok payload t tr r doc :
  deltek_http_post be tr (full_url config) payload t = Responded r ->
  is_success (status_code r) = true -> json r = Some doc ->
  (response ← request (EDeltekPost (full_url config) payload t)
                (fun tr => deltek_http_post be tr (full_url config) payload t);
   _ ← lift (raise_for_status response);
   lift (response_json response)) tr
  = (Done (Ok doc), tr ++ [EDeltekPost (full_url config) payload t]).
Proof.
  intros Hr Hcode Hdoc. erewrite bind_ok; [|apply request_responded; exact Hr].
  unfold raise_for_status. rewrite Hcode, lift_ok_bind.
  unfold lift, response_json. rewrite Hdoc. reflexivity.
Qed.

Lemma post_all_timed_out payload timeout tr :
  let t := match timeout with
           | Some t => if (t =? 0)%Z then HTTP_TIMEOUT else t
           | None => HTTP_TIMEOUT
           end in
  let e := EDeltekPost (full_url config) payload t in
  (forall tr', deltek_http_post be tr' (full_url config) payload t = TimedOut) ->
  timeouts_run_out be config ->
  (STAMINA_TIMEOUT <= 2 * (1000 * t))%Z ->
  _post be config payload timeout tr
  = (Done (Raise TimeoutException),
     tr ++ (if (STAMINA_TIMEOUT <=? monotonic be (tr ++ [e]) - monotonic be tr)%Z
            then [e] else [e; e])).
Proof.
  intros t e H Hclock Ht. unfold _post. fold t. unfold stamina_retry.
  pose proof (Hclock tr payload t (H tr)) as H1.
  pose proof (Hclock (tr ++ [e]) payload t (H _)) as H2. fold e in H1, H2.
  destruct (STAMINA_TIMEOUT <=? monotonic be (tr ++ [e]) - monotonic be tr)%Z eqn:E.
  - apply Z.leb_le in E.
    apply retrying_out_of_time; [apply post_attempt_timed_out, H|exact E].
  - apply Z.leb_gt in E.
    erewrite retrying_again; [|apply post_attempt_timed_out, H|exact E].
    replace (tr ++ [e; e]) with ((tr ++ [e]) ++ [e])
      by (rewrite <- app_assoc; reflexivity).
    apply retrying_out_of_time; [apply post_attempt_timed_out, H|].
    fold e. lia.
Qed.

(** X5.  A Costpoint request that times out is made again only inside the
    45 seconds that [stamina] allows to the call.  When every attempt times
    out, having lasted at least its timeout, and two timeouts fill the 45
    seconds (as those of 30 and of 300 seconds do), [_post] raises the
    timeout after one request when the first attempt took 45 seconds or
    more, and after exactly two identical requests otherwise: the third
    attempt is never made. *)
Theorem post_gives_up_within_budget payload timeout tr :
  let t := match timeout with
           | Some t => if (t =? 0)%Z then HTTP_TIMEOUT else t
           | None => HTTP_TIMEOUT
           end in
  let e := EDeltekPost (full_url config) payload t in
  (forall tr', deltek_http_post be tr' (full_url config) payload t = TimedOut) ->
  timeouts_run_out be config ->
  (STAMINA_TIMEOUT <= 2 * (1000 * t))%Z ->
  _post be config payload timeout tr
  = (Done (Raise TimeoutException),
     tr ++ (if (STAMINA_TIMEOUT <=? monotonic be (tr ++ [e]) - monotonic be tr)%Z
            then [e] else [e; e])).
Proof. exact (post_all_timed_out payload timeout tr). Qed.

(** X6.  When the first attempt of a Costpoint request times out before
    the 45 seconds of [stamina] are over and the second is answered with a
    2xx response that carries a document, [_post] returns that document
    after two requests: the timeout is not seen by the caller. *)
Theorem post_recovers_from_one_timeout payload tr r doc :
  deltek_http_post be tr (full_url config) payload 30%Z = TimedOut ->
  (monotonic be (tr ++ [EDeltekPost (full_url config) payload 30%Z])
   - monotonic be tr < STAMINA_TIMEOUT)%Z ->
  deltek_http_post be (tr ++ [EDeltekPost (full_url config) payload 30%Z])
    (full_url config) payload 30%Z = Responded r ->
  is_success (status_code r) = true -> json r = Some doc ->
  _post be config payload (Some 30%Z) tr
  = (Done (Ok doc),
     tr ++ [EDeltekPost (full_url config) payload 30%Z;
            EDeltekPost (full_url config) payload 30%Z]).
Proof.
  intros H1 Hclock H2 Hcode Hdoc. unfold _post. simpl Z.eqb. cbv iota.
  erewrite stamina_retry_again; [|apply post_attempt_timed_out, H1|exact Hclock].
  erewrite retrying_final;
    [|apply (post_attempt_ok _ _ _ r doc); eassumption|discriminate].
  rewrite <- app_assoc. reflexivity.
Qed.

End CostpointRetries.

Lemma costpoint_silent_timeouts_run_out :
  timeouts_run_out Edge.costpoint_silent Scenario.deltek_config.
Proof.
  intros tr payload timeout _. cbn [monotonic Edge.costpoint_silent].
  unfold Scenario.clock. rewrite fold_left_app. cbn [fold_left]. lia.
Qed.

Lemma post_gives_up_within_budget_witness :
  let payload := {| filter_id := "pjmworkrrexp"; where_rsId := "PJM_PROJEMPL_HDR";
                    where_relations := [("PROJ_ID", "2392100")];
                    where_children := [] |} in
  let e := EDeltekPost (full_url Scenario.deltek_config) payload 30%Z in
  (forall tr', deltek_http_post Edge.costpoint_silent tr'
                 (full_url Scenario.deltek_config) payload 30%Z = TimedOut)
  /\ timeouts_run_out Edge.costpoint_silent Scenario.deltek_config
  /\ (STAMINA_TIMEOUT <= 2 * (1000 * 30))%Z
  /\ _post Edge.costpoint_silent Scenario.deltek_config payload (Some 30%Z) []
     = (Done (Raise TimeoutException), [] ++ [e; e]).
Proof.
  cbv zeta.
  match goal with |- ?L /\ _ => assert (H : L) by (intros tr'; reflexivity) end.
  assert (Ht : (STAMINA_TIMEOUT <= 2 * (1000 * 30))%Z) by (vm_compute; discriminate).
  split; [exact H|]. split; [exact costpoint_silent_timeouts_run_out|].
  split; [exact Ht|].
  exact (post_gives_up_within_budget _ _ _ (Some 30%Z) []
           H costpoint_silent_timeouts_run_out Ht).
Defined.

Lemma post_recovers_from_one_timeout_witness :
  let payload := {| filter_id := "pjmbasicrrexpt"; where_rsId := "PJMBASIC_PROJ";
                    where_relations := []; where_children := [] |} in
  let e := EDeltekPost (full_url Scenario.deltek_config) payload 30%Z in
  deltek_http_post Edge.costpoint_slow_start []
    (full_url Scenario.deltek_config) payload 30%Z = TimedOut
  /\ (monotonic Edge.costpoint_slow_start ([] ++ [e])
      - monotonic Edge.costpoint_slow_start [] < STAMINA_TIMEOUT)%Z
  /\ _post Edge.costpoint_slow_start Scenario.deltek_config payload (Some 30%Z) []
     = (Done (Ok Scenario.two_projects), [] ++ [e; e]).
Proof.
  cbv zeta. split; [reflexivity|]. split; [reflexivity|].
  eapply post_recovers_from_one_timeout; reflexivity.
Defined.

(** ** Phase 3 when the employee lookups fail *)

Lemma costpoint_requests_app tr1 tr2 :
  costpoint_requests (tr1 ++ tr2) = costpoint_requests tr1 ++ costpoint_requests tr2.
Proof. apply omap_app. Qed.

Section LookupFailures.

Context (be : Backend) (config : DeltekConfig).

Lemma get_employee_rejected eid tr :
  lookups_rejected be config ->
  exists payload,
    get_employee be config eid tr
    = (Done (Ok None), tr ++ [EDeltekPost (full_url config) payload 30%Z]).
Proof.
  intros Hdown. unfold get_employee.
  match goal with |- context [_post be config ?p (Some 30%Z)] =>
    destruct (Hdown tr p 30%Z eq_refl) as (r & Hr & Hcode); exists p;
    pose proof (post_status_error be config p (Some 30%Z) tr r Hr Hcode) as Hpost
  end.
  cbv zeta in Hpost. rewrite bind_unfold. unfold try_except at 1.
  erewrite bind_raise by exact Hpost. reflexivity.
Qed.

Lemma get_employee_timed_out eid tr :
  lookups_time_out be config -> timeouts_run_out be config ->
  exists payload,
    let e := EDeltekPost (full_url config) payload 30%Z in
    get_employee be config eid tr
    = (Done (Raise TimeoutException),
       tr ++ (if (STAMINA_TIMEOUT <=? monotonic be (tr ++ [e]) - monotonic be tr)%Z
              then [e] else [e; e])).
Proof.
  intros Hout Hclock. unfold get_employee.
  match goal with |- context [_post be config ?p (Some 30%Z)] =>
    exists p;
    pose proof (post_all_timed_out be config p (Some 30%Z) tr
                  (fun tr' => Hout tr' p 30%Z eq_refl) Hclock) as Hpost
  end.
  cbv zeta in Hpost. cbv iota in Hpost.
  change (30 =? 0)%Z with false in Hpost. cbv iota in Hpost.
  specialize (Hpost ltac:(vm_compute; discriminate)).
  cbv zeta. rewrite bind_unfold. unfold try_except at 1.
  erewrite bind_raise by exact Hpost. reflexivity.
Qed.

Lemma phase_3_loop_all_rejected keys acc tr :
  lookups_rejected be config ->
  exists tr',
    for_each keys
      (fun employees empl_id =>
         log_event LInfo "fetching_employee";;
         emp ← get_employee be config empl_id;
         employees ←
           match emp with
           | None => log_event LError "employee_not_found";; mret employees
           | Some emp =>
               if negb (is_active emp)
               then log_event LInfo "skipping_inactive_employee";; mret employees
               else mret (dict_setitem empl_id emp employees)
           end;
         sleep 300;;
         mret employees) acc tr = (Done (Ok acc), tr')
    /\ length (costpoint_requests tr')
       = (length (costpoint_requests tr) + length keys)%nat.
Proof.
  intros Hdown. revert tr. induction keys as [|key keys IH]; intros tr.
  - exists tr. split; [reflexivity|simpl; lia].
  - destruct (get_employee_rejected key (tr ++ [EEvent LInfo "fetching_employee"]) Hdown)
      as [payload Hget].
    match type of Hget with _ = (_, ?t) =>
      destruct (IH (t ++ [EEvent LError "employee_not_found"] ++ [ESleep 300]))
        as (tr' & Hrun & Hlen)
    end.
    exists tr'. split.
    + rewrite for_each_cons. erewrite bind_ok; [exact Hrun|].
      rewrite log_event_then. erewrite bind_ok by exact Hget.
      erewrite bind_ok; [|rewrite log_event_then, mret_run; reflexivity].
      rewrite sleep_then, mret_run, <- !app_assoc. reflexivity.
    + rewrite Hlen, !costpoint_requests_app, !length_app. simpl. lia.
Qed.

(** X7.  When Costpoint answers every employee lookup with a status
    outside 2xx, Phase 3 does not fail: it makes one lookup per key of the
    membership mapping, drops every employee and returns the empty
    mapping. *)
Theorem run_phase_3_all_lookups_rejected (workforce : dict WorkforceRecord) tr :
  lookups_rejected be config ->
  exists tr',
    run_phase_3 be config workforce tr = (Done (Ok []), tr')
    /\ length (costpoint_requests tr')
       = (length (costpoint_requests tr) + length workforce)%nat.
Proof.
  intros Hdown. unfold run_phase_3. rewrite log_event_then.
  destruct (phase_3_loop_all_rejected (dict_keys workforce) []
              (tr ++ [EEvent LInfo "phase_3_starting"]) Hdown) as (tr' & Hrun & Hlen).
  eexists. split.
  - erewrite bind_ok by exact Hrun.
    rewrite save_json_then, log_event_then, mret_run. reflexivity.
  - rewrite !costpoint_requests_app, !length_app, Hlen.
    rewrite costpoint_requests_app, length_app.
    unfold dict_keys. rewrite length_map. simpl. lia.
Qed.

(** X8.  When every employee lookup times out, having lasted at least its
    30 seconds, Phase 3 on a non-empty membership mapping is left by the
    timeout of the first lookup, after the one or two attempts that the 45
    seconds of [stamina] leave room for; no later employee is looked up. *)
Theorem run_phase_3_lookup_timeout_aborts (workforce : dict WorkforceRecord) tr :
  lookups_time_out be config -> timeouts_run_out be config -> workforce <> [] ->
  exists tr' payload,
    let before := tr ++ [EEvent LInfo "phase_3_starting";
                         EEvent LInfo "fetching_employee"] in
    let e := EDeltekPost (full_url config) payload 30%Z in
    run_phase_3 be config workforce tr = (Done (Raise TimeoutException), tr')
    /\ tr' = before
             ++ (if (STAMINA_TIMEOUT
                     <=? monotonic be (before ++ [e]) - monotonic be before)%Z
                 then [e] else [e; e])
    /\ (length (costpoint_requests tr) + 1
        <= length (costpoint_requests tr')
        <= length (costpoint_requests tr) + 2)%nat.
Proof.
  intros Hout Hclock Hne. destruct workforce as [|[key rec] rest]; [contradiction|].
  unfold run_phase_3. rewrite log_event_then. simpl dict_keys.
  destruct (get_employee_timed_out key
              ((tr ++ [EEvent LInfo "phase_3_starting"])
               ++ [EEvent LInfo "fetching_employee"]) Hout Hclock) as [payload Hget].
  cbv zeta in Hget. rewrite <- (app_assoc tr) in Hget. simpl app in Hget.
  eexists. exists payload. cbv zeta. split; [|split; [reflexivity|]].
  - erewrite bind_raise; [reflexivity|].
    rewrite for_each_cons. erewrite bind_raise; [reflexivity|].
    rewrite log_event_then. rewrite <- (app_assoc tr). simpl app.
    erewrite bind_raise; [reflexivity|exact Hget].
  - destruct (_ <=? _)%Z; rewrite !costpoint_requests_app; simpl;
      rewrite !length_app; simpl; lia.
Qed.

End LookupFailures.

Lemma run_phase_3_all_rejected_run be config (workforce : dict WorkforceRecord) tr :
  lookups_rejected be config ->
  exists tr', run_phase_3 be config workforce tr = (Done (Ok []), tr').
Proof.
  intros Hdown. unfold run_phase_3. rewrite log_event_then.
  destruct (phase_3_loop_all_rejected be config (dict_keys workforce) []
              (tr ++ [EEvent LInfo "phase_3_starting"]) Hdown) as (tr' & Hrun & _).
  eexists. erewrite bind_ok by exact Hrun.
  rewrite save_json_then, log_event_then, mret_run. reflexivity.
Qed.

Lemma lookups_down_rejected : lookups_rejected Edge.lookups_down Scenario.deltek_config.
Proof.
  intros tr payload timeout Hid. simpl. rewrite Hid. simpl.
  eexists. split; reflexivity.
Qed.

Lemma run_phase_3_all_lookups_rejected_witness :
  lookups_rejected Edge.lookups_down Scenario.deltek_config
  /\ exists tr',
       run_phase_3 Edge.lookups_down Scenario.deltek_config Scenario.workforce []
       = (Done (Ok []), tr')
       /\ length (costpoint_requests tr')
          = (length (costpoint_requests []) + length Scenario.workforce)%nat.
Proof.
  split; [exact lookups_down_rejected|].
  exact (run_phase_3_all_lookups_rejected _ _ Scenario.workforce []
           lookups_down_rejected).
Defined.

Lemma run_phase_3_lookup_timeout_aborts_witness :
  lookups_time_out Edge.costpoint_silent Scenario.deltek_config
  /\ timeouts_run_out Edge.costpoint_silent Scenario.deltek_config
  /\ Scenario.workforce <> []
  /\ map (fun e => match e with EDeltekPost _ payload _ => filter_id payload
                                | _ => "" end)
         (snd (run_phase_3 Edge.costpoint_silent Scenario.deltek_config
                 Scenario.workforce []))
     = [""; ""; "ldmeinforrexpt"; "ldmeinforrexpt"]
  /\ exists tr' payload,
       let before := [] ++ [EEvent LInfo "phase_3_starting";
                            EEvent LInfo "fetching_employee"] in
       let e := EDeltekPost (full_url Scenario.deltek_config) payload 30%Z in
       run_phase_3 Edge.costpoint_silent Scenario.deltek_config Scenario.workforce []
       = (Done (Raise TimeoutException), tr')
       /\ tr' = before
                ++ (if (STAMINA_TIMEOUT
                        <=? monotonic Edge.costpoint_silent (before ++ [e])
                            - monotonic Edge.costpoint_silent before)%Z
                    then [e] else [e; e])
       /\ (length (costpoint_requests []) + 1
           <= length (costpoint_requests tr')
           <= length (costpoint_requests []) + 2)%nat.
Proof.
  assert (H : lookups_time_out Edge.costpoint_silent Scenario.deltek_config)
    by (intros tr payload timeout _; reflexivity).
  assert (Hne : Scenario.workforce <> []) by discriminate.
  split; [exact H|]. split; [exact costpoint_silent_timeouts_run_out|].
  split; [exact Hne|]. split; [vm_compute; reflexivity|].
  exact (run_phase_3_lookup_timeout_aborts _ _ Scenario.workforce []
           H costpoint_silent_timeouts_run_out Hne).
Defined.

(** X9.  When the configurations load, Phases 1 and 2 return non-empty
    mappings and Costpoint then answers every employee lookup with a status
    outside 2xx, [sync] takes the exit of Phase 3 for "no active
    employees": it returns status 0, after closing both clients, without
    asking Connecteam for anything. *)
Theorem sync_all_lookups_rejected_returns_0 be fuel client_name dry_run tr
    deltek_config ct_config t1 ct_projects t2 workforce t3 :
  load_configs be client_name (sync_started be client_name tr)
    = (Done (Ok (Some (deltek_config, ct_config))), t1) ->
  run_phase_1 be deltek_config (t1 ++ [EEvent LInfo "configurations_loaded"])
    = (Done (Ok ct_projects), t2) ->
  ct_projects <> [] ->
  run_phase_2 be deltek_config ct_projects t2 = (Done (Ok workforce), t3) ->
  workforce <> [] ->
  lookups_rejected be deltek_config ->
  exists t4,
    run_phase_3 be deltek_config workforce t3 = (Done (Ok []), t4)
    /\ sync be fuel client_name dry_run tr
       = (Done (Ok 0%Z),
          t4 ++ [EEvent LInfo "no_active_employees_in_workforce";
                 ECloseDeltek; ECloseConnecteam]).
Proof.
  intros Hload H1 N1 H2 N2 Hdown.
  destruct (run_phase_3_all_rejected_run be deltek_config workforce t3 Hdown) as [t4 H3].
  exists t4. split; [exact H3|].
  rewrite (sync_returns_phases _ _ _ _ _ _ _ _ 0%Z
             (t4 ++ [EEvent LInfo "no_active_employees_in_workforce"]) Hload).
  - rewrite <- app_assoc. reflexivity.
  - unfold sync_phases.
    erewrite bind_ok by exact H1. rewrite (is_nil_false _ N1).
    erewrite bind_ok by exact H2. rewrite (is_nil_false _ N2).
    erewrite bind_ok by exact H3. reflexivity.
Qed.

Lemma sync_all_lookups_rejected_returns_0_witness :
  let be := Edge.lookups_down in
  let loaded := load_configs be "acme" (sync_started be "acme" []) in
  let run1 := run_phase_1 be Scenario.deltek_config
                (snd loaded ++ [EEvent LInfo "configurations_loaded"]) in
  let run2 := run_phase_2 be Scenario.deltek_config Scenario.ct_projects (snd run1) in
  loaded = (Done (Ok (Some (Scenario.deltek_config, Scenario.ct_config))), snd loaded)
  /\ run1 = (Done (Ok Scenario.ct_projects), snd run1)
  /\ run2 = (Done (Ok Scenario.workforce), snd run2)
  /\ fst (sync be 2 "acme" false []) = Done (Ok 0%Z)
  /\ exists t4,
       run_phase_3 be Scenario.deltek_config Scenario.workforce (snd run2)
       = (Done (Ok []), t4)
       /\ sync be 2 "acme" false []
          = (Done (Ok 0%Z),
             t4 ++ [EEvent LInfo "no_active_employees_in_workforce";
                    ECloseDeltek; ECloseConnecteam]).
Proof.
  cbv zeta.
  match goal with |- ?A /\ ?B /\ ?C /\ _ =>
    assert (Hload : A) by (vm_compute; reflexivity);
    assert (H1 : B) by (vm_compute; reflexivity);
    assert (H2 : C) by (vm_compute; reflexivity)
  end.
  split; [exact Hload|]. split; [exact H1|]. split; [exact H2|].
  split; [vm_compute; reflexivity|].
  refine (sync_all_lookups_rejected_returns_0 _ 2 _ false _ _ _ _ _ _ _ _
            Hload H1 _ H2 _ lookups_down_rejected); discriminate.
Defined.

(** ** The identities that Phase 4 collects *)

Lemma add_cp_ids_fields (cfs : list UserCustomField) (acc : gset string) x :
  x ∈ fold_left
        (fun cp_ids cf =>
           match ucf_value cf with
           | Some v =>
               if bool_decide (ucf_customFieldId cf = Some CF_CP_ID)
                  && truthy (ucf_value cf)
               then {[py_str v]} ∪ cp_ids
               else cp_ids
           | None => cp_ids
           end) cfs acc
  <-> x ∈ acc
      \/ exists cf v, cf ∈ cfs /\ ucf_customFieldId cf = Some CF_CP_ID
                      /\ ucf_value cf = Some v /\ truthy (Some v) = true
                      /\ x = py_str v.
Proof.
  revert acc. induction cfs as [|cf cfs IH]; intros acc; cbn [fold_left].
  - split; [auto|]. intros [H|(cf & v & Hin & _)]; [exact H|by apply elem_of_nil in Hin].
  - rewrite IH. clear IH. split.
    + intros [H|(cf' & v & Hin & Hrest)].
      * destruct (ucf_value cf) as [v|] eqn:Hv; [|by left].
        destruct (bool_decide (ucf_customFieldId cf = Some CF_CP_ID)) eqn:Hid;
          cbn [andb] in H; [|by left].
        destruct (truthy (Some v)) eqn:Ht; [|by left].
        apply elem_of_union in H as [H|H]; [|by left].
        apply elem_of_singleton in H. apply bool_decide_eq_true_1 in Hid.
        right. exists cf, v. split; [apply list_elem_of_here|]. auto.
      * right. exists cf', v. split; [by apply list_elem_of_further|exact Hrest].
    + intros [H|(cf' & v & Hin & Hid & Hv & Ht & ->)].
      * left. destruct (ucf_value cf) as [v|]; [|exact H].
        destruct (_ && _); [|exact H]. apply elem_of_union. by right.
      * apply elem_of_cons in Hin as [->|Hin].
        -- left. rewrite Hv, Ht. rewrite bool_decide_eq_true_2 by exact Hid.
           cbn [andb]. apply elem_of_union. left. by apply elem_of_singleton.
        -- right. exists cf', v. auto.
Qed.

Lemma add_cp_ids_elem users (acc : gset string) x :
  x ∈ add_cp_ids users acc <-> x ∈ acc \/ carries_cp_id users x.
Proof.
  unfold add_cp_ids, carries_cp_id. revert acc.
  induction users as [|user users IH]; intros acc; cbn [fold_left].
  - split; [auto|].
    intros [H|(u & cf & v & Hin & _)]; [exact H|by apply elem_of_nil in Hin].
  - rewrite IH, add_cp_ids_fields. clear IH. split.
    + intros [[H|(cf & v & Hin & Hrest)]|(u & cf & v & Hin & Hrest)].
      * by left.
      * right. exists user, cf, v. split; [apply list_elem_of_here|]. auto.
      * right. exists u, cf, v. split; [by apply list_elem_of_further|exact Hrest].
    + intros [H|(u & cf & v & Hin & Hcf & Hrest)].
      * left. by left.
      * apply elem_of_cons in Hin as [->|Hin].
        -- left. right. exists cf, v. auto.
        -- right. exists u, cf, v. auto.
Qed.

Lemma cp_ids_of_pages_elem pages (acc : gset string) x :
  x ∈ fold_left (fun cp_ids page => add_cp_ids (page_users page) cp_ids) pages acc
  <-> x ∈ acc \/ exists page, page ∈ pages /\ carries_cp_id (page_users page) x.
Proof.
  revert acc. induction pages as [|page pages IH]; intros acc; simpl.
  - split; [auto|]. intros [H|(pg & Hin & _)]; [exact H|by apply elem_of_nil in Hin].
  - rewrite IH, add_cp_ids_elem. clear IH. split.
    + intros [[H|H]|(pg & Hin & H)].
      * by left.
      * right. exists page. split; [apply list_elem_of_here|exact H].
      * right. exists pg. split; [by apply list_elem_of_further|exact H].
    + intros [H|(pg & Hin & H)].
      * left. by left.
      * apply elem_of_cons in Hin as [->|Hin]; [left; by right|].
        right. exists pg. auto.
Qed.

(** X10.  The set that [_collect_cp_ids_by_status] returns for a listing
    holds exactly the dedup keys carried by the users of the pages served:
    the values, as strings, of the custom fields with the id of the
    Costpoint employee id whose value is neither missing, empty nor zero. *)
Theorem collect_cp_ids_membership be config user_status tr pages tr' fuel :
  listing be config user_status 0 tr pages tr' -> length pages <= fuel ->
  exists cp_ids,
    _collect_cp_ids_by_status be fuel config user_status tr = (Done (Ok cp_ids), tr')
    /\ forall x, x ∈ cp_ids
         <-> exists page, page ∈ pages /\ carries_cp_id (page_users page) x.
Proof.
  intros Hlist Hfuel. eexists. split.
  - unfold _collect_cp_ids_by_status. by apply collect_loop_listing.
  - intros x. rewrite cp_ids_of_pages_elem. split; [|auto].
    intros [H|H]; [by apply elem_of_empty in H|exact H].
Qed.

Lemma scenario_two_pages_listing user_status tr :
  listing Scenario.two_pages Scenario.ct_config user_status 0 tr
    [ {| page_users :=
           [{| user_customFields :=
                 [{| ucf_customFieldId := Some CF_CP_ID;
                     ucf_value := Some (SStr "E001") |}] |}];
         page_paging_offset := Some 500%Z |};
      {| page_users :=
           [{| user_customFields :=
                 [{| ucf_customFieldId := Some CF_CP_ID;
                     ucf_value := Some (SInt 7) |}] |}];
         page_paging_offset := None |} ]
    ((tr ++ [EUsersGet (users_base_url Scenario.ct_config) 500%Z 0%Z user_status])
     ++ [EUsersGet (users_base_url Scenario.ct_config) 500%Z 500%Z user_status]).
Proof.
  eapply listing_more.
  - apply get_users_page_responded. reflexivity.
  - split; [discriminate|]. split; [reflexivity|lia].
  - eapply listing_last.
    + apply get_users_page_responded. reflexivity.
    + right. left. reflexivity.
Qed.

Lemma collect_cp_ids_membership_witness :
  exists pages tr',
    listing Scenario.two_pages Scenario.ct_config "active" 0 [] pages tr'
    /\ length pages <= 2
    /\ exists cp_ids,
         _collect_cp_ids_by_status Scenario.two_pages 2 Scenario.ct_config "active" []
         = (Done (Ok cp_ids), tr')
         /\ forall x, x ∈ cp_ids
              <-> exists page, page ∈ pages /\ carries_cp_id (page_users page) x.
Proof.
  do 2 eexists. split; [apply (scenario_two_pages_listing "active" [])|].
  assert (Hlen : 2 <= 2) by lia.
  split; [exact Hlen|].
  exact (collect_cp_ids_membership _ _ _ _ _ _ 2
           (scenario_two_pages_listing "active" []) Hlen).
Defined.

Lemma sorted_spec (ids : gset string) :
  Sorted String.le (sorted ids) /\ NoDup (sorted ids)
  /\ forall x, x ∈ sorted ids <-> x ∈ ids.
Proof.
  unfold sorted. split; [apply Sorted_merge_sort; apply _|]. split.
  - rewrite merge_sort_Permutation. apply NoDup_elements.
  - intros x. rewrite merge_sort_Permutation. apply elem_of_elements.
Qed.

(** X11.  Phase 4 lists the active users and then the archived users, and
    returns the union of the dedup keys of both listings, so that a key
    present under both statuses counts once; the list it stores holds the
    same keys, each once, in ascending order. *)
Theorem run_phase_4_union_of_statuses be fuel config tr active t1 archived t2 :
  listing be config "active" 0 (tr ++ [EEvent LInfo "phase_4_starting"]) active t1 ->
  listing be config "archived" 0 t1 archived t2 ->
  length active <= fuel -> length archived <= fuel ->
  exists stored,
    run_phase_4 be fuel config tr
    = (Done (Ok (cp_ids_of_pages active ∪ cp_ids_of_pages archived)),
       t2 ++ [EPutObject "new-employees/ne_existing_cp_ids.json" (SIds stored);
              EEvent LInfo "phase_4_complete"])
    /\ Sorted String.le stored /\ NoDup stored
    /\ forall x, x ∈ stored
         <-> x ∈ cp_ids_of_pages active \/ x ∈ cp_ids_of_pages archived.
Proof.
  intros Hact Harch Hfa Hfb.
  exists (sorted (cp_ids_of_pages active ∪ cp_ids_of_pages archived)).
  destruct (sorted_spec (cp_ids_of_pages active ∪ cp_ids_of_pages archived))
    as (Hsorted & Hnd & Helem).
  split; [|split; [exact Hsorted|split; [exact Hnd|]]].
  - unfold run_phase_4. rewrite log_event_then.
    erewrite bind_ok.
    + rewrite save_json_then, log_event_then, mret_run, <- app_assoc. reflexivity.
    + unfold get_existing_cp_ids, _collect_cp_ids_by_status.
      erewrite bind_ok by (apply collect_loop_listing; eassumption).
      erewrite bind_ok by (apply collect_loop_listing; eassumption).
      reflexivity.
  - intros x. rewrite Helem. apply elem_of_union.
Qed.

Lemma run_phase_4_union_of_statuses_witness :
  exists active t1 archived t2,
    listing Scenario.two_pages Scenario.ct_config "active" 0
      ([] ++ [EEvent LInfo "phase_4_starting"]) active t1
    /\ listing Scenario.two_pages Scenario.ct_config "archived" 0 t1 archived t2
    /\ length active <= 2 /\ length archived <= 2
    /\ fst (run_phase_4 Scenario.two_pages 2 Scenario.ct_config [])
       = Done (Ok {["E001"; "7"]})
    /\ exists stored,
         run_phase_4 Scenario.two_pages 2 Scenario.ct_config []
         = (Done (Ok (cp_ids_of_pages active ∪ cp_ids_of_pages archived)),
            t2 ++ [EPutObject "new-employees/ne_existing_cp_ids.json" (SIds stored);
                   EEvent LInfo "phase_4_complete"])
         /\ Sorted String.le stored /\ NoDup stored
         /\ forall x, x ∈ stored
              <-> x ∈ cp_ids_of_pages active \/ x ∈ cp_ids_of_pages archived.
Proof.
  do 4 eexists.
  pose proof (scenario_two_pages_listing "active"
                ([] ++ [EEvent LInfo "phase_4_starting"])) as Ha.
  match type of Ha with listing _ _ _ _ _ _ ?t =>
    pose proof (scenario_two_pages_listing "archived" t) as Hb
  end.
  assert (Hlen : 2 <= 2) by lia.
  split; [exact Ha|]. split; [exact Hb|]. split; [exact Hlen|]. split; [exact Hlen|].
  split; [vm_compute; reflexivity|].
  exact (run_phase_4_union_of_statuses _ 2 _ _ _ _ _ _ Ha Hb Hlen Hlen).
Defined.

(** ** Retries and failures of the creation requests *)

Section CreationRequests.

Context (be : Backend) (ct_config : ConnecteamConfig).

(** X12.  When the first attempt of a creation request times out before
    the 45 seconds of [stamina] are over and the second is accepted,
    [post_user] reports the employee as created, and the creation request
    has been sent to Connecteam twice. *)
Theorem post_user_resends_after_timeout wf emp p tr r body :
  build_payload wf emp = Ok p ->
  users_http_post be tr (users_base_url ct_config) [p] = TimedOut ->
  (monotonic be (tr ++ [EUsersPost (users_base_url ct_config) [p]])
   - monotonic be tr < STAMINA_TIMEOUT)%Z ->
  users_http_post be (tr ++ [EUsersPost (users_base_url ct_config) [p]])
    (users_base_url ct_config) [p] = Responded r ->
  is_success (status_code r) = true -> json r = Some body ->
  post_user be ct_config wf emp tr
  = (Done (Ok (Created (empl_id emp) (first_name emp +:+ " " +:+ last_name emp) body)),
     tr ++ [EUsersPost (users_base_url ct_config) [p];
            EUsersPost (users_base_url ct_config) [p]]).
Proof.
  intros Hp H1 Hclock H2 Hcode Hbody. unfold post_user. rewrite Hp.
  erewrite stamina_retry_again; [| |exact Hclock].
  2: { rewrite lift_ok_bind. erewrite bind_raise; [reflexivity|].
       by apply request_timed_out. }
  apply retrying_final; [|discriminate].
  rewrite lift_ok_bind. erewrite bind_ok; [|apply request_responded; exact H2].
  rewrite Hcode. unfold response_json. rewrite Hbody, lift_ok_bind, mret_run.
  rewrite <- app_assoc. reflexivity.
Qed.

(** X13.  When Connecteam accepts the creation request of the first
    missing employee with a 2xx response whose body is not JSON, live
    Phase 6 is left by the decoding error right after that request: no
    result is recorded or stored and no later employee is attempted. *)
Theorem run_phase_6_undecodable_success_aborts workforce employees eid rest
    wf emp p tr r :
  dict_get eid workforce = Some wf -> dict_get eid employees = Some emp ->
  build_payload wf emp = Ok p ->
  users_http_post be
    (tr ++ [EEvent LInfo "phase_6_starting"; EEvent LInfo "creating_user"])
    (users_base_url ct_config) [p] = Responded r ->
  is_success (status_code r) = true -> json r = None ->
  run_phase_6 be ct_config workforce employees (eid :: rest) false tr
  = (Done (Raise JSONDecodeError),
     tr ++ [EEvent LInfo "phase_6_starting"; EEvent LInfo "creating_user";
            EUsersPost (users_base_url ct_config) [p]]).
Proof.
  intros Hwf Hemp Hp Hr Hcode Hjson. unfold run_phase_6.
  rewrite log_event_then. cbv iota.
  erewrite bind_raise; [reflexivity|].
  rewrite for_each_cons. erewrite bind_raise; [reflexivity|].
  rewrite log_event_then. unfold dict_getitem. rewrite Hwf, Hemp, !lift_ok_bind.
  erewrite bind_raise; [reflexivity|].
  unfold post_user. rewrite Hp.
  apply stamina_retry_final; [|discriminate].
  rewrite lift_ok_bind. rewrite <- app_assoc. simpl app.
  erewrite bind_ok; [|apply request_responded; exact Hr].
  rewrite Hcode. unfold response_json. rewrite Hjson.
  rewrite <- app_assoc. reflexivity.
Qed.

End CreationRequests.

Lemma post_user_resends_after_timeout_witness :
  exists p,
    build_payload Scenario.e002_wf Scenario.e002 = Ok p
    /\ users_http_post Edge.connecteam_slow_start []
         (users_base_url Scenario.ct_config) [p] = TimedOut
    /\ (monotonic Edge.connecteam_slow_start
          ([] ++ [EUsersPost (users_base_url Scenario.ct_config) [p]])
        - monotonic Edge.connecteam_slow_start [] < STAMINA_TIMEOUT)%Z
    /\ post_user Edge.connecteam_slow_start Scenario.ct_config
         Scenario.e002_wf Scenario.e002 []
       = (Done (Ok (Created "E002" "Ben Baker" (JObj [("requestId", JStr "r-1")]))),
          [] ++ [EUsersPost (users_base_url Scenario.ct_config) [p];
                 EUsersPost (users_base_url Scenario.ct_config) [p]]).
Proof.
  eexists. split; [vm_compute; reflexivity|]. split; [reflexivity|].
  split; [reflexivity|].
  eapply (post_user_resends_after_timeout Edge.connecteam_slow_start Scenario.ct_config
            Scenario.e002_wf Scenario.e002); reflexivity.
Defined.

Lemma run_phase_6_undecodable_success_aborts_witness :
  exists p,
    build_payload Scenario.e002_wf Scenario.e002 = Ok p
    /\ run_phase_6 Edge.connecteam_plain_text Scenario.ct_config Scenario.workforce
         Scenario.employees ("E002" :: ["E003"]) false []
       = (Done (Raise JSONDecodeError),
          [] ++ [EEvent LInfo "phase_6_starting"; EEvent LInfo "creating_user";
                 EUsersPost (users_base_url Scenario.ct_config) [p]]).
Proof.
  eexists. split; [vm_compute; reflexivity|].
  eapply (run_phase_6_undecodable_success_aborts Edge.connecteam_plain_text
            Scenario.ct_config Scenario.workforce Scenario.employees "E002" ["E003"]
            Scenario.e002_wf Scenario.e002); reflexivity.
Defined.

(** ** The project list of [get_ct_projects] *)

Section CtProjects.

Context (filter_notes : string).

Lemma notes_loop_get pid (pname : string) children acc k :
  dict_get k
    (fold_left
       (fun ct_projects child_row =>
          if rsId_is child_row "PJMBASIC_PROJ_NOTES"
             && bool_decide (dict_get "NOTES" (row_data child_row) = Some filter_notes)
          then dict_setitem pid pname ct_projects
          else ct_projects)
       children acc)
  = if existsb
         (fun child_row =>
            rsId_is child_row "PJMBASIC_PROJ_NOTES"
            && bool_decide (dict_get "NOTES" (row_data child_row) = Some filter_notes))
         children
       && String.eqb k pid
    then Some pname else dict_get k acc.
Proof.
  revert acc. induction children as [|c children IH]; intros acc; [reflexivity|].
  cbn [fold_left existsb]. rewrite IH.
  destruct (rsId_is c "PJMBASIC_PROJ_NOTES"
            && bool_decide (dict_get "NOTES" (row_data c) = Some filter_notes)).
  - rewrite dict_get_setitem. cbn [orb andb].
    destruct (existsb _ children); cbn [andb]; destruct (String.eqb k pid); reflexivity.
  - reflexivity.
Qed.

Lemma collect_ct_projects_get rows k :
  dict_get k (collect_ct_projects filter_notes rows)
  = project_name_of
      <$> last (List.filter
                  (fun row => is_ct_project filter_notes row
                              && String.eqb k (project_id_of row)) rows).
Proof.
  unfold collect_ct_projects.
  induction rows as [|row rows IH] using rev_ind; [reflexivity|].
  rewrite fold_left_app, List.filter_app. cbn [fold_left List.filter].
  unfold is_ct_project at 2.
  destruct (rsId_is row "PJMBASIC_PROJ"); cbn [negb andb].
  - rewrite notes_loop_get, IH. fold (project_id_of row).
    destruct (existsb _ (row_children row) && String.eqb k (project_id_of row)).
    + rewrite last_snoc. reflexivity.
    + rewrite app_nil_r. reflexivity.
  - rewrite IH, app_nil_r. reflexivity.
Qed.

Lemma collect_ct_projects_NoDup rows :
  NoDup (dict_keys (collect_ct_projects filter_notes rows)).
Proof.
  unfold collect_ct_projects. apply fold_left_invariant; [constructor|].
  intros acc row _ Hacc. destruct (negb _); [exact Hacc|].
  apply fold_left_invariant; [exact Hacc|].
  intros acc' child _ Hacc'. destruct (_ && _); [|exact Hacc'].
  by apply NoDup_setitem.
Qed.

End CtProjects.

(** X14.  When Costpoint answers the project report with a document,
    [get_ct_projects] makes one request and returns a mapping without
    duplicate ids in which a project id is present exactly when some
    [PJMBASIC_PROJ] row with that id has a notes child equal to the
    configured value; its name is that of the last such row. *)
Theorem get_ct_projects_last_row_wins be config tr r rows :
  (forall payload, filter_id payload = "pjmbasicrrexpt" ->
     deltek_http_post be tr (full_url config) payload HTTP_TIMEOUT = Responded r) ->
  is_success (status_code r) = true -> json r = Some rows ->
  exists ct_projects request,
    get_ct_projects be config tr = (Done (Ok ct_projects), tr ++ [request])
    /\ NoDup (dict_keys ct_projects)
    /\ forall pid,
         dict_get pid ct_projects
         = project_name_of
             <$> last (List.filter
                         (fun row => is_ct_project (filter_notes_value config) row
                                     && String.eqb pid (project_id_of row)) rows).
Proof.
  intros Hr Hcode Hrows. unfold get_ct_projects. cbv zeta.
  do 2 eexists. split; [|split].
  - erewrite bind_ok; [rewrite mret_run; reflexivity|].
    apply (post_ok be config _ None tr r rows); [|exact Hcode|exact Hrows].
    by apply Hr.
  - apply collect_ct_projects_NoDup.
  - apply collect_ct_projects_get.
Qed.

Lemma get_ct_projects_last_row_wins_witness :
  let be := Scenario.backend
              (Scenario.two_projects
               ++ [Scenario.project_row "2392100" "Security North (renamed)"])
              Scenario.accepts in
  exists ct_projects request,
    get_ct_projects be Scenario.deltek_config [] = (Done (Ok ct_projects), [] ++ [request])
    /\ NoDup (dict_keys ct_projects)
    /\ dict_get "2392100" ct_projects = Some "Security North (renamed)".
Proof.
  cbv zeta.
  edestruct (get_ct_projects_last_row_wins
               (Scenario.backend
                  (Scenario.two_projects
                   ++ [Scenario.project_row "2392100" "Security North (renamed)"])
                  Scenario.accepts)
               Scenario.deltek_config [])
    as (ct_projects & request & Hrun & Hnd & Hget).
  - intros payload Hid. simpl. unfold Scenario.costpoint. rewrite Hid. reflexivity.
  - reflexivity.
  - reflexivity.
  - exists ct_projects, request. split; [exact Hrun|]. split; [exact Hnd|].
    rewrite Hget. vm_compute. reflexivity.
Defined.

(** ** What [sync] returns and raises *)

Lemma get_secret_cases be name tr :
  exists r, get_secret be name tr = (Done r, tr ++ [EGetSecretValue name]).
Proof.
  unfold get_secret.
  destruct (secrets_get_secret_value be tr name) as [code|[s|]|[s|]|];
    [destruct (String.eqb code _)|..]; eexists; reflexivity.
Qed.

(** The ways the reading of the configurations ends: an exception
    escapes, a [ValueError] is caught and recorded, or both configurations
    are there. *)
Lemma load_configs_cases be client_name tr :
  (exists e t, load_configs be client_name tr = (Done (Raise e), t))
  \/ (exists t, load_configs be client_name tr
                = (Done (Ok None), t ++ [EEvent LError "configuration_error"]))
  \/ (exists configs t,
        load_configs be client_name tr = (Done (Ok (Some configs)), t)).
Proof.
  unfold load_configs, try_except.
  match goal with
  | |- context [match ?m tr with _ => _ end] => destruct (m tr) as [[[configs|e]|] t] eqn:E
  end.
  - destruct configs as [configs|]; [right; right; eauto|].
    exfalso.
    apply bind_ok_inv in E as (s1 & t1 & _ & E).
    apply bind_ok_inv in E as (s2 & t2 & _ & E).
    apply bind_ok_inv in E as (c1 & t3 & _ & E).
    apply bind_ok_inv in E as (c2 & t4 & _ & E).
    rewrite mret_run in E. discriminate.
  - destruct e; try (left; do 2 eexists; reflexivity).
    right; left. exists t. rewrite log_event_then, mret_run. reflexivity.
  - exfalso. revert E. rewrite bind_unfold.
    destruct (get_secret_cases be ("costpoint/" +:+ client_name) tr) as [[s1|e1] ->];
      [|discriminate].
    rewrite bind_unfold.
    destruct (get_secret_cases be ("connectteam/" +:+ client_name)
                (tr ++ [EGetSecretValue ("costpoint/" +:+ client_name)])) as [[s2|e2] ->];
      [|discriminate].
    destruct (DeltekConfig_from_env s1); [|discriminate]. rewrite lift_ok_bind.
    destruct (ConnecteamConfig_from_env s2); discriminate.
Qed.

(** Every status that the phases return is preceded by its audit event. *)
Lemma sync_phases_final_event be fuel deltek_config ct_config dry_run tr s t' :
  sync_phases be fuel deltek_config ct_config dry_run tr = (Done (Ok s), t') ->
  exists t level name,
    t' = t ++ [EEvent level name] /\ (s, level, name) ∈ final_events
    /\ name <> "configuration_error".
Proof.
  unfold sync_phases. intros H.
  apply bind_ok_inv in H as (ct_projects & t1 & _ & H).
  destruct (is_nil ct_projects).
  { rewrite log_event_then, mret_run in H. injection H as <- <-.
    do 3 eexists. split; [reflexivity|]. split; [repeat constructor|discriminate]. }
  apply bind_ok_inv in H as (workforce & t2 & _ & H).
  destruct (is_nil workforce).
  { rewrite log_event_then, mret_run in H. injection H as <- <-.
    do 3 eexists. split; [reflexivity|]. split; [repeat constructor|discriminate]. }
  apply bind_ok_inv in H as (employees & t3 & _ & H).
  destruct (is_nil employees).
  { rewrite log_event_then, mret_run in H. injection H as <- <-.
    do 3 eexists. split; [reflexivity|]. split; [repeat constructor|discriminate]. }
  apply bind_ok_inv in H as (existing_cp_ids & t4 & _ & H).
  apply bind_ok_inv in H as (missing_ids & t5 & _ & H).
  destruct (is_nil missing_ids).
  { rewrite log_event_then, mret_run in H. injection H as <- <-.
    do 3 eexists. split; [reflexivity|]. split; [repeat constructor|discriminate]. }
  apply bind_ok_inv in H as (results & t6 & _ & H).
  apply bind_ok_inv in H as (sent & t7 & _ & H).
  cbv zeta in H.
  destruct (negb dry_run && _);
    rewrite log_event_then, mret_run in H; injection H as <- <-;
    (do 3 eexists; split; [reflexivity|]; split; [repeat constructor|discriminate]).
Qed.

(** The outcomes of [sync], by the way the reading of the configurations
    ended and by the outcome of the phases. *)
Lemma sync_cases be fuel client_name dry_run tr :
  (exists e t, sync be fuel client_name dry_run tr = (Done (Raise e), t))
  \/ (exists t, sync be fuel client_name dry_run tr
                = (Done (Ok 1%Z), t ++ [EEvent LError "configuration_error"]))
  \/ (exists s t level name,
        sync be fuel client_name dry_run tr
        = (Done (Ok s), t ++ [EEvent level name; ECloseDeltek; ECloseConnecteam])
        /\ (s, level, name) ∈ final_events /\ name <> "configuration_error")
  \/ (exists t, sync be fuel client_name dry_run tr = (Unfinished, t)).
Proof.
  unfold sync. rewrite emit_then, log_event_then.
  destruct (load_configs_cases be client_name
              ((tr ++ [EInitEventService client_name (function_name be)])
               ++ [EEvent LInfo "pipeline_starting"]))
    as [(e & t & Hload)|[(t & Hload)|([deltek_config ct_config] & t & Hload)]].
  - left. exists e, t. erewrite bind_raise by exact Hload. reflexivity.
  - right; left. exists t. erewrite bind_ok by exact Hload. reflexivity.
  - right; right. erewrite bind_ok by exact Hload. cbv beta iota.
    rewrite log_event_then. unfold try_finally, try_except.
    destruct (sync_phases be fuel deltek_config ct_config dry_run _)
      as [[[s|e]|] t1] eqn:Hphases.
    + left. apply sync_phases_final_event in Hphases as (t0 & level & name & -> & Hin & Hne).
      exists s, t0, level, name. split; [|auto].
      rewrite emit_then, emit_run, <- !app_assoc. reflexivity.
    + left. exists 1%Z, t1, LError, "pipeline_fatal_error".
      split; [|split; [repeat constructor|discriminate]].
      rewrite log_event_then, mret_run, emit_then, emit_run, <- !app_assoc. reflexivity.
    + right. eexists. reflexivity.
Qed.

(** X15.  Every status that [sync] returns is 0 or 1 and is preceded by
    the audit event of the [return] that produced it: status 1 by an error
    event, status 0 by an informational or success event.  Except after a
    configuration error, where no client has been created, the run ends by
    closing both clients. *)
Theorem sync_status_final_event be fuel client_name dry_run tr s t' :
  sync be fuel client_name dry_run tr = (Done (Ok s), t') ->
  exists t level name,
    (s, level, name) ∈ final_events
    /\ (name = "configuration_error" /\ t' = t ++ [EEvent level name]
        \/ name <> "configuration_error"
           /\ t' = t ++ [EEvent level name; ECloseDeltek; ECloseConnecteam]).
Proof.
  intros H.
  destruct (sync_cases be fuel client_name dry_run tr)
    as [(e & t & E)|[(t & E)|[(s' & t & level & name & E & Hin & Hne)|[t E]]]];
    rewrite E in H; try discriminate.
  - injection H as <- <-. exists t, LError, "configuration_error".
    split; [repeat constructor|]. left. auto.
  - injection H as <- <-. exists t, level, name. split; [exact Hin|]. right. auto.
Qed.

Lemma sync_status_final_event_witness :
  let be := Scenario.backend Scenario.two_projects Scenario.rejects_ben in
  sync be 2 "acme" false [] = (Done (Ok 1%Z), snd (sync be 2 "acme" false []))
  /\ exists t level name,
       (1%Z, level, name) ∈ final_events
       /\ (name = "configuration_error"
           /\ snd (sync be 2 "acme" false []) = t ++ [EEvent level name]
           \/ name <> "configuration_error"
              /\ snd (sync be 2 "acme" false [])
                 = t ++ [EEvent level name; ECloseDeltek; ECloseConnecteam]).
Proof.
  cbv zeta.
  match goal with |- ?L /\ _ => assert (H : L) by (vm_compute; reflexivity) end.
  split; [exact H|].
  exact (sync_status_final_event _ _ _ _ _ _ _ H).
Defined.

(** X16.  A failure of the second secret that is not a [ValueError] is
    not turned into status 1: it escapes [sync].  When the first secret
    is read and Secrets Manager refuses the second with a client error
    other than [ResourceNotFoundException], [sync] raises that client
    error; when the second secret is JSON but not an object, [sync]
    raises [AttributeError].  In both cases it has read the two secrets
    and done nothing else: no [configuration_error] event, no client, no
    phase. *)
Theorem sync_secret_failure_escapes be fuel client_name dry_run tr s1 e :
  let started := sync_started be client_name tr in
  let c1 := "costpoint/" +:+ client_name in
  let c2 := "connectteam/" +:+ client_name in
  secrets_get_secret_value be started c1 = SecretString (Some s1) ->
  (exists code,
     secrets_get_secret_value be (started ++ [EGetSecretValue c1]) c2
       = SecretClientError code
     /\ code <> "ResourceNotFoundException" /\ e = ClientError)
  \/ (secrets_get_secret_value be (started ++ [EGetSecretValue c1]) c2
        = SecretString (Some SecretValue)
      /\ e = AttributeError) ->
  sync be fuel client_name dry_run tr
  = (Done (Raise e), started ++ [EGetSecretValue c1; EGetSecretValue c2]).
Proof.
  intros started c1 c2 H1 H2. unfold sync. rewrite emit_then, log_event_then.
  rewrite <- app_assoc. simpl app. fold (sync_started be client_name tr). fold started.
  assert (Hload : load_configs be client_name started
                  = (Done (Raise e),
                     started ++ [EGetSecretValue c1; EGetSecretValue c2])).
  { unfold load_configs, try_except.
    erewrite bind_ok; [|unfold get_secret; fold c1; rewrite H1; reflexivity].
    destruct H2 as [(code & H2 & Hcode & ->)|[H2 ->]].
    - erewrite bind_raise.
      2: { unfold get_secret. fold c2. rewrite H2.
           destruct (String.eqb code "ResourceNotFoundException") eqn:E;
             [apply String.eqb_eq in E; contradiction|reflexivity]. }
      cbv beta iota. rewrite <- app_assoc. reflexivity.
    - erewrite bind_ok; [|unfold get_secret; fold c2; rewrite H2; reflexivity].
      destruct (DeltekConfig_from_env s1) as [deltek_config|e1] eqn:E1.
      + rewrite lift_ok_bind. cbn [ConnecteamConfig_from_env].
        rewrite lift_raise_bind. cbv beta iota. rewrite <- app_assoc. reflexivity.
      + destruct s1; [discriminate|]. injection E1 as <-.
        rewrite lift_raise_bind. cbv beta iota. rewrite <- app_assoc. reflexivity. }
  erewrite bind_raise by exact Hload. reflexivity.
Qed.

Lemma sync_secret_failure_escapes_witness :
  sync Edge.secret_denied 2 "acme" false []
  = (Done (Raise ClientError),
     sync_started Edge.secret_denied "acme" []
     ++ [EGetSecretValue ("costpoint/" +:+ "acme");
         EGetSecretValue ("connectteam/" +:+ "acme")]).
Proof.
  eapply (sync_secret_failure_escapes Edge.secret_denied 2 "acme" false []);
    [reflexivity|].
  left. exists "AccessDeniedException". split; [reflexivity|].
  split; [discriminate|reflexivity].
Defined.

Example sync_secret_not_object :
  fst (sync Edge.secret_not_object 2 "acme" false []) = Done (Raise AttributeError).
Proof. reflexivity. Qed.

(** X18.  When the Connecteam secret holds no [key] (or an empty one),
    [sync] returns 1 after reading the two secrets and recording
    [configuration_error]: no client is created and no request is sent. *)
Theorem sync_missing_api_key_returns_1 be fuel client_name dry_run tr s1 s2 :
  let started := sync_started be client_name tr in
  let c1 := "costpoint/" +:+ client_name in
  let c2 := "connectteam/" +:+ client_name in
  secrets_get_secret_value be started c1 = SecretString (Some (SecretObject s1)) ->
  secrets_get_secret_value be (started ++ [EGetSecretValue c1]) c2
    = SecretString (Some (SecretObject s2)) ->
  dict_get_default "key" "" s2 = "" ->
  sync be fuel client_name dry_run tr
  = (Done (Ok 1%Z),
     started ++ [EGetSecretValue c1; EGetSecretValue c2;
                 EEvent LError "configuration_error"]).
Proof.
  intros started c1 c2 H1 H2 Hkey. unfold sync. rewrite emit_then, log_event_then.
  rewrite <- app_assoc. simpl app. fold (sync_started be client_name tr). fold started.
  assert (Hload : load_configs be client_name started
                  = (Done (Ok None),
                     started ++ [EGetSecretValue c1; EGetSecretValue c2;
                                 EEvent LError "configuration_error"])).
  { unfold load_configs, try_except.
    erewrite bind_ok; [|unfold get_secret; fold c1; rewrite H1; reflexivity].
    erewrite bind_ok; [|unfold get_secret; fold c2; rewrite H2; reflexivity].
    cbn [DeltekConfig_from_env]. rewrite lift_ok_bind.
    cbv zeta. unfold ConnecteamConfig_from_env. rewrite Hkey. cbn [nonempty].
    rewrite lift_raise_bind. cbv beta iota.
    rewrite log_event_then, mret_run, <- !app_assoc. reflexivity. }
  erewrite bind_ok by exact Hload. reflexivity.
Qed.

Lemma sync_missing_api_key_returns_1_witness :
  sync Edge.no_api_key 2 "acme" true []
  = (Done (Ok 1%Z),
     sync_started Edge.no_api_key "acme" []
     ++ [EGetSecretValue ("costpoint/" +:+ "acme");
         EGetSecretValue ("connectteam/" +:+ "acme");
         EEvent LError "configuration_error"]).
Proof.
  eapply (sync_missing_api_key_returns_1 Edge.no_api_key 2 "acme" true []);
    reflexivity.
Defined.

(** ** What a run adds to the trace *)

Lemma emits_only_ret {A} allowed (a : A) : emits_only allowed (mret a : M A).
Proof. intros tr. exists []. rewrite mret_run, app_nil_r. auto. Qed.

Lemma emits_only_lift {A} allowed (r : Res A) : emits_only allowed (lift r).
Proof. intros tr. exists []. unfold lift. rewrite app_nil_r. auto. Qed.

Lemma emits_only_emit allowed e : allowed e = true -> emits_only allowed (emit e).
Proof. intros He tr. exists [e]. rewrite emit_run. auto. Qed.

Lemma emits_only_bind {A B} allowed (m : M A) (k : A -> M B) :
  emits_only allowed m -> (forall a, emits_only allowed (k a)) ->
  emits_only allowed (m ≫= k).
Proof.
  intros Hm Hk tr. destruct (Hm tr) as (n1 & E1 & F1). rewrite bind_unfold.
  destruct (m tr) as [[[a|e]|] tr1]; simpl in E1; subst tr1;
    [|exists n1; auto..].
  destruct (Hk a (tr ++ n1)) as (n2 & E2 & F2).
  exists (n1 ++ n2). rewrite E2, app_assoc. split; [reflexivity|].
  apply Forall_app. auto.
Qed.

Lemma emits_only_for_each {A S} allowed (l : list A) (body : S -> A -> M S) :
  (forall acc x, emits_only allowed (body acc x)) ->
  forall acc, emits_only allowed (for_each l body acc).
Proof.
  intros Hbody. induction l as [|x l IH]; intros acc.
  - apply (emits_only_ret allowed acc).
  - rewrite for_each_cons. apply emits_only_bind; auto.
Qed.

Lemma emits_only_stamina_retry {A} allowed clock attempts (m : M A) :
  emits_only allowed m -> emits_only allowed (stamina_retry clock attempts m).
Proof.
  intros Hm tr. unfold stamina_retry. generalize (clock tr) as start. intros start.
  revert tr.
  destruct attempts as [|n]; [|induction n as [|n IH]]; intros tr;
    destruct (Hm tr) as (n1 & E1 & F1); simpl;
    destruct (m tr) as [[[a|e]|] tr1]; simpl in E1; subst tr1;
    try (exists n1; split; [reflexivity|exact F1]);
    destruct e; try (exists n1; split; [reflexivity|exact F1]).
  destruct (_ <=? _)%Z; [exists n1; split; [reflexivity|exact F1]|].
  destruct (IH (tr ++ n1)) as (n2 & E2 & F2).
  exists (n1 ++ n2). rewrite app_assoc, <- E2. split; [reflexivity|].
  apply Forall_app. auto.
Qed.

Lemma emits_only_request {B} allowed e (x : Trace -> Exchange B) :
  allowed e = true -> emits_only allowed (request e x).
Proof. intros He tr. exists [e]. unfold request. destruct (x tr); auto. Qed.

Lemma emits_only_try_except {A} allowed (m : M A) (h : Exn -> option (M A)) :
  emits_only allowed m ->
  (forall e handler, h e = Some handler -> emits_only allowed handler) ->
  emits_only allowed (try_except m h).
Proof.
  intros Hm Hh tr. destruct (Hm tr) as (n1 & E1 & F1). unfold try_except.
  destruct (m tr) as [[[a|e]|] tr1]; simpl in E1; subst tr1;
    [exists n1; auto| |exists n1; auto].
  destruct (h e) as [handler|] eqn:E; [|exists n1; auto].
  destruct (Hh e handler E (tr ++ n1)) as (n2 & E2 & F2).
  exists (n1 ++ n2). rewrite E2, app_assoc. split; [reflexivity|].
  apply Forall_app. auto.
Qed.

Lemma emits_only_try_finally {A} allowed (m : M A) (fin : M unit) :
  emits_only allowed m -> emits_only allowed fin ->
  emits_only allowed (try_finally m fin).
Proof.
  intros Hm Hfin tr. destruct (Hm tr) as (n1 & E1 & F1). unfold try_finally.
  destruct (m tr) as [[r|] tr1]; simpl in E1; subst tr1; [|exists n1; auto].
  destruct (Hfin (tr ++ n1)) as (n2 & E2 & F2).
  exists (n1 ++ n2).
  destruct (fin (tr ++ n1)) as [[[[]|e]|] tr2]; simpl in E2; subst tr2;
    rewrite app_assoc; (split; [reflexivity|]); apply Forall_app; auto.
Qed.

(** What an observation of the trace sees of a run that emits none of
    the effects it selects. *)
Lemma emits_only_omap {A X} (g : Effect -> option X) allowed (m : M A) tr :
  emits_only allowed m -> (forall e, allowed e = true -> g e = None) ->
  omap g (snd (m tr)) = omap g tr.
Proof.
  intros Hm Hg. destruct (Hm tr) as (new & -> & Hnew).
  rewrite omap_app.
  assert (omap g new = []) as ->; [|apply app_nil_r].
  induction Hnew as [|e new He _ IH]; [reflexivity|].
  simpl. rewrite (Hg e He). exact IH.
Qed.

Section EmitsOnly.

Context (be : Backend) (allowed : Effect -> bool).

Hypothesis allowed_init : forall c f, allowed (EInitEventService c f) = true.
Hypothesis allowed_event : forall level name, allowed (EEvent level name) = true.
Hypothesis allowed_secret : forall name, allowed (EGetSecretValue name) = true.
Hypothesis allowed_query : forall url payload t, allowed (EDeltekPost url payload t) = true.
Hypothesis allowed_listing :
  forall url limit offset status, allowed (EUsersGet url limit offset status) = true.
Hypothesis allowed_upload : forall key body, allowed (EPutObject key body) = true.
Hypothesis allowed_sleep : forall ms, allowed (ESleep ms) = true.
Hypothesis allowed_close : allowed ECloseDeltek = true /\ allowed ECloseConnecteam = true.

Lemma emits_only_log_event level name : emits_only allowed (log_event level name).
Proof. apply emits_only_emit, allowed_event. Qed.

Lemma emits_only_sleep ms : emits_only allowed (sleep ms).
Proof. apply emits_only_emit, allowed_sleep. Qed.

Lemma emits_only_save_json data filename : emits_only allowed (save_json data filename).
Proof. apply emits_only_emit, allowed_upload. Qed.

Lemma emits_only_save_html html filename : emits_only allowed (save_html html filename).
Proof. apply emits_only_emit, allowed_upload. Qed.

Lemma emits_only_get_secret name : emits_only allowed (get_secret be name).
Proof.
  intros tr. exists [EGetSecretValue name]. unfold get_secret.
  destruct (secrets_get_secret_value be tr name) as [code|[s|]|[s|]|];
    [destruct (String.eqb code _)|..]; auto.
Qed.

Lemma emits_only_post config payload timeout :
  emits_only allowed (_post be config payload timeout).
Proof.
  unfold _post. apply emits_only_stamina_retry. cbv zeta.
  apply emits_only_bind; [apply emits_only_request, allowed_query|]. intros r.
  apply emits_only_bind; [apply emits_only_lift|]. intros _. apply emits_only_lift.
Qed.

Lemma emits_only_get_ct_projects config : emits_only allowed (get_ct_projects be config).
Proof.
  unfold get_ct_projects. cbv zeta.
  apply emits_only_bind; [apply emits_only_post|]. intros data. apply emits_only_ret.
Qed.

Lemma emits_only_get_workforce config pid pname :
  emits_only allowed (get_workforce be config pid pname).
Proof.
  unfold get_workforce. cbv zeta.
  apply emits_only_bind; [apply emits_only_post|]. intros data. apply emits_only_lift.
Qed.

Lemma emits_only_get_employee config eid :
  emits_only allowed (get_employee be config eid).
Proof.
  unfold get_employee. cbv zeta. apply emits_only_bind.
  - apply emits_only_try_except.
    + apply emits_only_bind; [apply emits_only_post|]. intros data. apply emits_only_ret.
    + intros e handler. destruct e; intros [= <-]. apply emits_only_ret.
  - intros [[|row rows]|]; apply emits_only_ret.
Qed.

Lemma emits_only_get_users_page config user_status offset limit :
  emits_only allowed (_get_users_page be config user_status offset limit).
Proof.
  unfold _get_users_page. apply emits_only_stamina_retry.
  apply emits_only_bind; [apply emits_only_request, allowed_listing|]. intros r.
  apply emits_only_bind; [apply emits_only_lift|]. intros _. apply emits_only_lift.
Qed.

Lemma emits_only_collect_loop fuel config user_status cp_ids offset :
  emits_only allowed (collect_loop be fuel config user_status cp_ids offset).
Proof.
  revert cp_ids offset. induction fuel as [|fuel IH]; intros cp_ids offset.
  - intros tr. exists []. simpl. rewrite app_nil_r. auto.
  - cbn [collect_loop]. apply emits_only_bind; [apply emits_only_get_users_page|].
    intros data. cbv zeta. destruct (is_nil _); [apply emits_only_ret|].
    destruct (page_paging_offset data) as [next_offset|]; [|apply emits_only_ret].
    destruct (next_offset <=? offset)%Z; [apply emits_only_ret|apply IH].
Qed.

Lemma emits_only_get_existing_cp_ids fuel config :
  emits_only allowed (get_existing_cp_ids be fuel config).
Proof.
  unfold get_existing_cp_ids, _collect_cp_ids_by_status.
  apply emits_only_bind; [apply emits_only_collect_loop|]. intros active_ids.
  apply emits_only_bind; [apply emits_only_collect_loop|]. intros archived_ids.
  apply emits_only_ret.
Qed.

Lemma emits_only_run_phase_1 config : emits_only allowed (run_phase_1 be config).
Proof.
  unfold run_phase_1.
  apply emits_only_bind; [apply emits_only_log_event|]. intros _.
  apply emits_only_bind; [apply emits_only_get_ct_projects|]. intros ct_projects.
  apply emits_only_bind; [apply emits_only_save_json|]. intros _.
  apply emits_only_bind; [apply emits_only_log_event|]. intros _. apply emits_only_ret.
Qed.

Lemma emits_only_run_phase_2 config ct_projects :
  emits_only allowed (run_phase_2 be config ct_projects).
Proof.
  unfold run_phase_2.
  apply emits_only_bind; [apply emits_only_log_event|]. intros _.
  apply emits_only_bind.
  { apply emits_only_for_each. intros acc [pid pname].
    apply emits_only_bind; [apply emits_only_get_workforce|]. intros records. cbv zeta.
    apply emits_only_bind; [apply emits_only_sleep|]. intros _. apply emits_only_ret. }
  intros workforce.
  apply emits_only_bind; [apply emits_only_save_json|]. intros _.
  apply emits_only_bind; [apply emits_only_log_event|]. intros _. apply emits_only_ret.
Qed.

Lemma emits_only_run_phase_3 config workforce :
  emits_only allowed (run_phase_3 be config workforce).
Proof.
  unfold run_phase_3.
  apply emits_only_bind; [apply emits_only_log_event|]. intros _.
  apply emits_only_bind.
  { apply emits_only_for_each. intros acc eid.
    apply emits_only_bind; [apply emits_only_log_event|]. intros _.
    apply emits_only_bind; [apply emits_only_get_employee|]. intros emp.
    apply emits_only_bind.
    - destruct emp as [emp|].
      + destruct (negb (is_active emp)); [|apply emits_only_ret].
        apply emits_only_bind; [apply emits_only_log_event|]. intros _.
        apply emits_only_ret.
      + apply emits_only_bind; [apply emits_only_log_event|]. intros _.
        apply emits_only_ret.
    - intros employees.
      apply emits_only_bind; [apply emits_only_sleep|]. intros _. apply emits_only_ret. }
  intros employees.
  apply emits_only_bind; [apply emits_only_save_json|]. intros _.
  apply emits_only_bind; [apply emits_only_log_event|]. intros _. apply emits_only_ret.
Qed.

Lemma emits_only_run_phase_4 fuel config : emits_only allowed (run_phase_4 be fuel config).
Proof.
  unfold run_phase_4.
  apply emits_only_bind; [apply emits_only_log_event|]. intros _.
  apply emits_only_bind; [apply emits_only_get_existing_cp_ids|]. intros ids.
  apply emits_only_bind; [apply emits_only_save_json|]. intros _.
  apply emits_only_bind; [apply emits_only_log_event|]. intros _. apply emits_only_ret.
Qed.

Lemma emits_only_run_phase_5 employees existing_cp_ids :
  emits_only allowed (run_phase_5 employees existing_cp_ids).
Proof.
  unfold run_phase_5.
  apply emits_only_bind; [apply emits_only_log_event|]. intros _. cbv zeta.
  apply emits_only_bind; [apply emits_only_save_json|]. intros _.
  apply emits_only_bind; [apply emits_only_log_event|]. intros _. apply emits_only_ret.
Qed.

Lemma emits_only_load_configs client_name :
  emits_only allowed (load_configs be client_name).
Proof.
  unfold load_configs. apply emits_only_try_except.
  - apply emits_only_bind; [apply emits_only_get_secret|]. intros s1.
    apply emits_only_bind; [apply emits_only_get_secret|]. intros s2.
    apply emits_only_bind; [apply emits_only_lift|]. intros c1.
    apply emits_only_bind; [apply emits_only_lift|]. intros c2. apply emits_only_ret.
  - intros e handler. destruct e; intros [= <-].
    apply emits_only_bind; [apply emits_only_log_event|]. intros _. apply emits_only_ret.
Qed.

End EmitsOnly.

Section EmitsOnlyPhase6.

Context (be : Backend) (allowed : Effect -> bool) (dry_run : bool).

Hypothesis allowed_init : forall c f, allowed (EInitEventService c f) = true.
Hypothesis allowed_event : forall level name, allowed (EEvent level name) = true.
Hypothesis allowed_secret : forall name, allowed (EGetSecretValue name) = true.
Hypothesis allowed_query : forall url payload t, allowed (EDeltekPost url payload t) = true.
Hypothesis allowed_listing :
  forall url limit offset status, allowed (EUsersGet url limit offset status) = true.
Hypothesis allowed_upload : forall key body, allowed (EPutObject key body) = true.
Hypothesis allowed_sleep : forall ms, allowed (ESleep ms) = true.
Hypothesis allowed_close : allowed ECloseDeltek = true /\ allowed ECloseConnecteam = true.
Hypothesis allowed_write : dry_run = false -> forall e, is_write e = true -> allowed e = true.

Lemma emits_only_post_user config wf emp :
  dry_run = false -> emits_only allowed (post_user be config wf emp).
Proof.
  intros Hlive. unfold post_user. apply emits_only_stamina_retry.
  apply emits_only_bind; [apply emits_only_lift|]. intros payload.
  apply emits_only_bind; [apply emits_only_request, (allowed_write Hlive); reflexivity|].
  intros r. destruct (is_success _); [|apply emits_only_ret].
  apply emits_only_bind; [apply emits_only_lift|]. intros body. apply emits_only_ret.
Qed.

Lemma emits_only_run_phase_6 config workforce employees missing_ids :
  emits_only allowed (run_phase_6 be config workforce employees missing_ids dry_run).
Proof.
  unfold run_phase_6.
  apply emits_only_bind; [by apply emits_only_log_event|]. intros _.
  destruct (decide (dry_run = false)) as [Hmode|Hmode].
  - rewrite Hmode. apply emits_only_bind.
    { apply emits_only_for_each. intros acc eid.
      apply emits_only_bind; [by apply emits_only_log_event|]. intros _.
      apply emits_only_bind; [apply emits_only_lift|]. intros wf.
      apply emits_only_bind; [apply emits_only_lift|]. intros emp.
      apply emits_only_bind; [by apply emits_only_post_user|]. intros result.
      apply emits_only_bind; [by apply emits_only_sleep|]. intros _.
      apply emits_only_ret. }
    intros results.
    apply emits_only_bind; [by apply emits_only_save_json|]. intros _.
    apply emits_only_bind; [by apply emits_only_log_event|]. intros _.
    apply emits_only_ret.
  - apply not_false_is_true in Hmode. rewrite Hmode.
    apply emits_only_bind; [apply emits_only_lift|]. intros preview.
    apply emits_only_bind; [by apply emits_only_save_json|]. intros _.
    apply emits_only_bind; [by apply emits_only_log_event|]. intros _.
    apply emits_only_ret.
Qed.

Lemma emits_only_send_import_email workforce employees missing_ids results :
  emits_only allowed
    (send_import_email be workforce employees missing_ids results dry_run).
Proof.
  unfold send_import_email.
  apply emits_only_bind; [apply emits_only_lift|]. intros html.
  apply emits_only_bind; [apply emits_only_lift|]. intros text_body.
  destruct (decide (dry_run = false)) as [Hmode|Hmode].
  - rewrite Hmode. cbv zeta. destruct (is_nil _); [apply emits_only_ret|].
    apply emits_only_bind; [apply emits_only_lift|]. intros projects.
    intros tr. eexists [ESendEmail _]. unfold deliver.
    destruct (ses_send_email be tr _); (split; [reflexivity|]);
      (constructor; [by apply allowed_write|constructor]).
  - apply not_false_is_true in Hmode. rewrite Hmode.
    apply emits_only_bind; [by apply emits_only_save_html|]. intros _.
    apply emits_only_ret.
Qed.

Lemma emits_only_sync_phases fuel deltek_config ct_config :
  emits_only allowed (sync_phases be fuel deltek_config ct_config dry_run).
Proof.
  unfold sync_phases.
  apply emits_only_bind; [by apply emits_only_run_phase_1|]. intros ct_projects.
  destruct (is_nil ct_projects).
  { apply emits_only_bind; [by apply emits_only_log_event|]. intros _.
    apply emits_only_ret. }
  apply emits_only_bind; [by apply emits_only_run_phase_2|]. intros workforce.
  destruct (is_nil workforce).
  { apply emits_only_bind; [by apply emits_only_log_event|]. intros _.
    apply emits_only_ret. }
  apply emits_only_bind; [by apply emits_only_run_phase_3|]. intros employees.
  destruct (is_nil employees).
  { apply emits_only_bind; [by apply emits_only_log_event|]. intros _.
    apply emits_only_ret. }
  apply emits_only_bind; [by apply emits_only_run_phase_4|]. intros existing_cp_ids.
  apply emits_only_bind; [by apply emits_only_run_phase_5|]. intros missing_ids.
  destruct (is_nil missing_ids).
  { apply emits_only_bind; [by apply emits_only_log_event|]. intros _.
    apply emits_only_ret. }
  apply emits_only_bind; [apply emits_only_run_phase_6|]. intros results.
  apply emits_only_bind; [apply emits_only_send_import_email|]. intros sent.
  cbv zeta. destruct (negb dry_run && _);
    (apply emits_only_bind; [by apply emits_only_log_event|]); intros _;
    apply emits_only_ret.
Qed.

Lemma emits_only_sync fuel client_name :
  emits_only allowed (sync be fuel client_name dry_run).
Proof.
  unfold sync.
  apply emits_only_bind; [apply emits_only_emit, allowed_init|]. intros _.
  apply emits_only_bind; [by apply emits_only_log_event|]. intros _.
  apply emits_only_bind; [by apply emits_only_load_configs|].
  intros [[deltek_config ct_config]|]; [|apply emits_only_ret].
  apply emits_only_bind; [by apply emits_only_log_event|]. intros _.
  apply emits_only_try_finally.
  - apply emits_only_try_except; [apply emits_only_sync_phases|].
    intros e handler [= <-].
    apply emits_only_bind; [by apply emits_only_log_event|]. intros _.
    apply emits_only_ret.
  - apply emits_only_bind; [apply emits_only_emit, allowed_close|]. intros _.
    apply emits_only_emit, allowed_close.
Qed.

End EmitsOnlyPhase6.

(** X19.  A dry run of [sync] writes nothing outside, whatever the
    backends answer and however the run ends: it only extends the trace,
    and by no creation request to Connecteam and no e-mail. *)
Theorem sync_dry_run_writes_nothing be fuel client_name tr :
  exists new,
    snd (sync be fuel client_name true tr) = tr ++ new
    /\ Forall (fun e => is_write e = false) new
    /\ posted (tr ++ new) = posted tr /\ emails (tr ++ new) = emails tr.
Proof.
  assert (H : emits_only (fun e => negb (is_write e)) (sync be fuel client_name true)).
  { apply emits_only_sync; try reflexivity; [split; reflexivity|discriminate]. }
  pose proof (emits_only_omap
                (fun e => match e with EUsersPost _ body => Some body | _ => None end)
                _ _ tr H) as Hposted.
  pose proof (emits_only_omap
                (fun e => match e with ESendEmail mail => Some mail | _ => None end)
                _ _ tr H) as Hmails.
  destruct (H tr) as (new & E & Hnew). exists new. split; [exact E|].
  rewrite E in Hposted, Hmails. split; [|split].
  - eapply Forall_impl; [exact Hnew|]. intros e He. by apply negb_true_iff.
  - apply Hposted. by intros [].
  - apply Hmails. by intros [].
Qed.

(** ** A date that is not an ISO date *)

Lemma build_payload_malformed wf emp :
  ~ iso_or_empty (orig_hire_dt emp) \/ ~ iso_or_empty (birth_dt emp) ->
  build_payload wf emp = Raise ValueError.
Proof.
  intros Hbad. destruct (build_payload wf emp) as [p|e] eqn:E.
  - exfalso. revert E. unfold build_payload, append_date, format_date, iso_or_empty in *.
    destruct (orig_hire_dt emp) as [|c1 s1] eqn:Eh; cbn [nonempty].
    + destruct (birth_dt emp) as [|c2 s2] eqn:Eb; cbn [nonempty].
      * destruct Hbad as [H|H]; exfalso; apply H; by left.
      * destruct (fromisoformat (String c2 s2)) eqn:F; [|discriminate].
        destruct Hbad as [H|H]; exfalso; apply H; [by left|right; eauto].
    + destruct (fromisoformat (String c1 s1)) eqn:F1; [|discriminate]. cbn [res_bind].
      destruct (birth_dt emp) as [|c2 s2] eqn:Eb; cbn [nonempty].
      * destruct Hbad as [H|H]; exfalso; apply H; [right; eauto|by left].
      * destruct (fromisoformat (String c2 s2)) eqn:F2; [|discriminate].
        destruct Hbad as [H|H]; exfalso; apply H; right; eauto.
  - f_equal. by eapply build_payload_raises.
Qed.

Lemma comprehension_raises_at {A B} (f : A -> Res B) before x after e :
  (forall y, y ∈ before -> exists z, f y = Ok z) -> f x = Raise e ->
  comprehension f (before ++ x :: after) = Raise e.
Proof.
  intros Hok Hx. induction before as [|y before IH]; simpl.
  - rewrite Hx. reflexivity.
  - destruct (Hok y (list_elem_of_here _ _)) as [z ->]. simpl.
    rewrite IH; [reflexivity|]. intros y' Hy'. apply Hok. by apply list_elem_of_further.
Qed.

Lemma for_each_app {A S} (l1 l2 : list A) (body : S -> A -> M S) acc tr :
  for_each (l1 ++ l2) body acc tr = (for_each l1 body acc ≫= for_each l2 body) tr.
Proof.
  revert acc tr. induction l1 as [|x l1 IH]; intros acc tr; [reflexivity|].
  rewrite <- app_comm_cons, !for_each_cons, !bind_unfold.
  destruct (body acc x tr) as [[[a|e]|] t]; [|reflexivity..].
  rewrite IH, bind_unfold. reflexivity.
Qed.

(** X20.  When the member detail of one missing employee holds a hire or
    birth date that is not empty and that [datetime.fromisoformat] does
    not read, Phase 6 is left by a [ValueError] in either mode, and nothing is stored: neither the
    preview nor the results.  In live mode the employees listed before
    that one have been sent to Connecteam by then. *)
Theorem run_phase_6_malformed_date_aborts be ct_config workforce employees
    before eid after wf emp dry_run tr :
  creation_answered be ->
  phase_6_inputs workforce employees before ->
  dict_get eid workforce = Some wf -> dict_get eid employees = Some emp ->
  ~ iso_or_empty (orig_hire_dt emp) \/ ~ iso_or_empty (birth_dt emp) ->
  exists tr',
    run_phase_6 be ct_config workforce employees (before ++ eid :: after) dry_run tr
    = (Done (Raise ValueError), tr')
    /\ uploads tr' = uploads tr
    /\ length (posted tr')
       = (length (posted tr) + if dry_run then 0 else length before)%nat.
Proof.
  intros Hans Hin Hwf Hemp Hbad. apply (build_payload_malformed wf) in Hbad.
  unfold run_phase_6. destruct dry_run.
  - exists (tr ++ [EEvent LInfo "phase_6_starting"]). split; [|split].
    + rewrite log_event_then.
      rewrite (comprehension_raises_at _ before eid after ValueError).
      * reflexivity.
      * intros y Hy.
        destruct (phase_6_inputs_payload _ _ _ y Hin Hy) as (wf' & emp' & p & H1 & H2 & H3).
        unfold preview_entry, dict_getitem. rewrite H1, H2. simpl. rewrite H3. simpl. eauto.
      * unfold preview_entry, dict_getitem. rewrite Hwf, Hemp. simpl. rewrite Hbad.
        reflexivity.
    + unfold uploads. rewrite omap_app. apply app_nil_r.
    + rewrite posted_app, length_app. simpl. lia.
  - set (tr0 := tr ++ [EEvent LInfo "phase_6_starting"]).
    destruct (phase_6_live_loop be ct_config workforce employees before [] tr0 Hans Hin)
      as (results & bodies & t1 & Hloop & Hposted & Hsent & _ & _).
    exists (t1 ++ [EEvent LInfo "creating_user"]). split; [|split].
    + rewrite log_event_then. fold tr0. erewrite bind_raise; [reflexivity|].
      rewrite for_each_app. erewrite bind_ok by exact Hloop.
      rewrite for_each_cons. erewrite bind_raise; [reflexivity|].
      rewrite log_event_then. unfold dict_getitem. rewrite Hwf, Hemp, !lift_ok_bind.
      erewrite bind_raise; [reflexivity|].
      unfold post_user. apply stamina_retry_final; [|discriminate].
      rewrite Hbad. reflexivity.
    + unfold uploads. rewrite omap_app. simpl. rewrite app_nil_r.
      replace t1 with (snd (for_each before
        (fun results empl_id =>
           log_event LInfo "creating_user";;
           wf ← lift (dict_getitem empl_id workforce);
           emp ← lift (dict_getitem empl_id employees);
           result ← post_user be ct_config wf emp;
           sleep 300;;
           mret (results ++ [result])) [] tr0)) by (rewrite Hloop; reflexivity).
      rewrite (emits_only_omap _ (fun e => negb (is_upload e))).
      * unfold tr0. rewrite omap_app. apply app_nil_r.
      * apply emits_only_for_each. intros acc x.
        apply emits_only_bind; [by apply emits_only_log_event|]. intros _.
        apply emits_only_bind; [apply emits_only_lift|]. intros wf'.
        apply emits_only_bind; [apply emits_only_lift|]. intros emp'.
        apply emits_only_bind;
          [apply (emits_only_post_user be _ false); [by intros _ []|reflexivity]|].
        intros result.
        apply emits_only_bind; [by apply emits_only_sleep|]. intros _.
        apply emits_only_ret.
      * by intros [].
    + rewrite posted_app, length_app, Hposted, length_app. unfold tr0.
      rewrite posted_app, length_app. simpl.
      apply Forall2_length in Hsent. lia.
Qed.

Lemma run_phase_6_malformed_date_aborts_witness :
  let be := Scenario.backend Scenario.two_projects Scenario.rejects_ben in
  exists tr',
    run_phase_6 be Scenario.ct_config Scenario.workforce Edge.employees_bad_date
      (["E002"] ++ "E003" :: []) false []
    = (Done (Raise ValueError), tr')
    /\ uploads tr' = uploads []
    /\ length (posted tr') = (length (posted []) + length ["E002"])%nat.
Proof.
  cbv zeta.
  apply (run_phase_6_malformed_date_aborts _ Scenario.ct_config Scenario.workforce
           Edge.employees_bad_date ["E002"] "E003" [] Scenario.e003_wf
           Edge.e003_bad_date false []).
  - exact scenario_rejects_ben_answered.
  - intros eid Hin. apply list_elem_of_singleton in Hin as ->.
    exists Scenario.e002_wf, Scenario.e002.
    split; [reflexivity|]. split; [reflexivity|]. split.
    + right. eexists. vm_compute. reflexivity.
    + left. reflexivity.
  - reflexivity.
  - reflexivity.
  - left. intros [H|[dt H]]; [discriminate|]. vm_compute in H. discriminate.
Defined.

(** ** Delivery of the report *)

Lemma strip_spaces_blank fuel backwards s :
  string_forall is_whitespace s = true -> String.length s <= fuel ->
  strip_spaces fuel backwards s = "".
Proof.
  revert fuel. induction s as [|c s IH]; intros fuel H Hfuel.
  - destruct fuel; reflexivity.
  - cbn [string_forall] in H. apply andb_true_iff in H as [Hc H].
    destruct fuel as [|fuel]; [simpl in Hfuel; lia|].
    cbn [strip_spaces after_space]. rewrite Hc. apply IH; [exact H|].
    simpl in Hfuel. lia.
Qed.

Lemma strip_blank s : string_forall is_whitespace s = true -> strip s = "".
Proof.
  intros H. unfold strip, lstrip.
  rewrite (strip_spaces_blank _ false s H) by lia.
  destruct (String.length s); reflexivity.
Qed.

Lemma split_commas_blank s :
  names_nobody s = true ->
  Forall (fun piece => string_forall is_whitespace piece = true) (split_commas s).
Proof.
  unfold names_nobody. induction s as [|c s IH]; cbn [string_forall split_commas].
  - intros _. repeat constructor.
  - intros H. apply andb_true_iff in H as [Hc H]. specialize (IH H).
    destruct (Ascii.eqb c ",") eqn:E; [by constructor|].
    simpl in Hc. destruct (split_commas s) as [|x xs].
    + constructor; [|constructor]. cbn [string_forall]. rewrite Hc. reflexivity.
    + apply Forall_cons in IH as [Hx Hxs]. constructor; [|exact Hxs].
      cbn [string_forall]. rewrite Hc, Hx. reflexivity.
Qed.

Lemma recipients_nobody s :
  names_nobody s = true -> List.filter nonempty (map strip (split_commas s)) = [].
Proof.
  intros H. apply split_commas_blank in H.
  induction H as [|piece pieces Hp _ IH]; [reflexivity|].
  cbn [map List.filter]. rewrite (strip_blank piece Hp). exact IH.
Qed.

Section Delivery.

Context (be : Backend) (workforce : dict WorkforceRecord)
        (employees : dict EmployeeRecord) (missing_ids : list string).

Hypothesis found : forall eid, eid ∈ missing_ids -> attempted workforce employees eid.

(** X21.  When [SES_TO_EMAILS] is unset, empty, or holds nothing but
    commas and white space, the live report is not sent:
    [send_import_email] returns [False] and no e-mail leaves. *)
Theorem send_import_email_no_recipients results tr :
  names_nobody (SES_TO_EMAILS be) = true ->
  send_import_email be workforce employees missing_ids results false tr
  = (Done (Ok false), tr).
Proof.
  intros Hnobody. unfold send_import_email.
  destruct (build_html_email_ok workforce employees missing_ids results false found)
    as [html ->].
  destruct (build_plain_text_email_ok workforce employees missing_ids results false found)
    as [text_body ->].
  rewrite !lift_ok_bind. cbv iota zeta.
  rewrite (recipients_nobody _ Hnobody). reflexivity.
Qed.

(** X22.  A live [send_import_email] whose report can be built never
    raises.  Its recipients are the comma-separated pieces of
    [SES_TO_EMAILS], stripped of white space, that are not empty.  When
    there is none it sends nothing and returns [False].  Otherwise it
    sends exactly one e-mail: from [SES_FROM_EMAIL], to these recipients,
    with the number of missing employees and the sorted project ids as
    subject and the two reports as bodies; it returns [True] exactly when
    SES accepted that e-mail, a failure of SES being swallowed. *)
Theorem send_import_email_live_outcome results tr :
  let recipients :=
    List.filter nonempty (map strip (split_commas (SES_TO_EMAILS be))) in
  exists html text_body projects,
    build_html_email workforce employees missing_ids results false = Ok html
    /\ build_plain_text_email workforce employees missing_ids results false = Ok text_body
    /\ project_set workforce missing_ids = Ok projects
    /\ Forall (fun r => r <> "") recipients
    /\ let mail :=
         {| mail_source := SES_FROM_EMAIL be;
            mail_to := recipients;
            mail_subject := (Z.of_nat (length missing_ids),
                             String.concat ", " (sorted projects));
            mail_text := text_body;
            mail_html := html |} in
       send_import_email be workforce employees missing_ids results false tr
       = match recipients with
         | [] => (Done (Ok false), tr)
         | _ :: _ =>
             (Done (Ok (match ses_send_email be tr mail with
                        | Some _ => true
                        | None => false
                        end)),
              tr ++ [ESendEmail mail])
         end.
Proof.
  intros recipients. unfold send_import_email.
  destruct (build_html_email_ok workforce employees missing_ids results false found)
    as [html Hhtml].
  destruct (build_plain_text_email_ok workforce employees missing_ids results false found)
    as [text_body Htext].
  destruct (project_set_ok _ _ _ (attempted_found _ _ _ found)) as [projects Hprojects].
  exists html, text_body, projects.
  split; [exact Hhtml|]. split; [exact Htext|]. split; [exact Hprojects|]. split.
  { apply Forall_forall. intros x Hx.
    apply list_elem_of_In, filter_In in Hx as [_ Hx]. by intros ->. }
  cbv zeta. rewrite Hhtml, Htext, !lift_ok_bind. cbv iota. fold recipients.
  destruct recipients as [|r recipients']; [reflexivity|].
  cbn [is_nil]. rewrite Hprojects, lift_ok_bind. unfold deliver.
  destruct (ses_send_email be tr _); reflexivity.
Qed.

End Delivery.

Lemma scenario_attempted :
  forall eid, eid ∈ Scenario.missing_ids ->
    attempted Scenario.workforce Scenario.employees eid.
Proof.
  intros eid Hin.
  destruct (phase_6_inputs_payload _ _ _ eid scenario_phase_6_inputs Hin)
    as (wf & emp & p & Hwf & Hemp & Hp).
  exists wf, emp, p. tauto.
Qed.

Lemma send_import_email_no_recipients_witness :
  names_nobody (SES_TO_EMAILS Edge.no_recipients) = true
  /\ send_import_email Edge.no_recipients Scenario.workforce Scenario.employees
       Scenario.missing_ids None false []
     = (Done (Ok false), []).
Proof.
  split; [reflexivity|].
  exact (send_import_email_no_recipients Edge.no_recipients Scenario.workforce
           Scenario.employees Scenario.missing_ids scenario_attempted None [] eq_refl).
Defined.

Lemma send_import_email_live_outcome_witness :
  exists html text_body projects,
    build_html_email Scenario.workforce Scenario.employees Scenario.missing_ids
      None false = Ok html
    /\ build_plain_text_email Scenario.workforce Scenario.employees Scenario.missing_ids
         None false = Ok text_body
    /\ project_set Scenario.workforce Scenario.missing_ids = Ok projects
    /\ Forall (fun r => r <> "") ["hr@example.com"]
    /\ let mail :=
         {| mail_source := "noreply@pci-federal.com";
            mail_to := ["hr@example.com"];
            mail_subject := (2%Z, String.concat ", " (sorted projects));
            mail_text := text_body;
            mail_html := html |} in
       send_import_email Edge.ses_down Scenario.workforce Scenario.employees
         Scenario.missing_ids None false []
       = (Done (Ok false), [] ++ [ESendEmail mail]).
Proof.
  exact (send_import_email_live_outcome Edge.ses_down Scenario.workforce
           Scenario.employees Scenario.missing_ids scenario_attempted None []).
Defined.

(** ** The report against the results of Phase 6 *)

Lemma result_map_other k results m :
  k ∉ map result_empl_id results ->
  dict_get k (fold_left (fun m r => dict_setitem (result_empl_id r) (success r) m) results m)
  = dict_get k m.
Proof.
  revert m. induction results as [|r results IH]; intros m Hk; [reflexivity|].
  cbn [fold_left]. rewrite IH.
  - rewrite dict_get_setitem. destruct (String.eqb k (result_empl_id r)) eqn:E; [|reflexivity].
    apply String.eqb_eq in E. subst k. exfalso. apply Hk. simpl. apply list_elem_of_here.
  - intros H. apply Hk. simpl. by apply list_elem_of_further.
Qed.

Lemma result_map_get r results :
  NoDup (map result_empl_id results) -> r ∈ results ->
  dict_get (result_empl_id r) (result_map results) = Some (success r).
Proof.
  unfold result_map. generalize (@nil (string * bool)) as m.
  induction results as [|r0 results IH]; intros m Hnd Hr; [by apply elem_of_nil in Hr|].
  cbn [fold_left]. simpl in Hnd. apply NoDup_cons in Hnd as [Hfresh Hnd].
  apply elem_of_cons in Hr as [->|Hr].
  - rewrite (result_map_other _ _ _ Hfresh), dict_get_setitem, String.eqb_refl. reflexivity.
  - by apply IH.
Qed.

Lemma count_failed results :
  (Z.of_nat (length results) - count_success results)%Z
  = Z.of_nat (length (List.filter (fun r => negb (success r)) results)).
Proof.
  unfold count_success. induction results as [|r results IH]; [reflexivity|].
  cbn [List.filter length]. destruct (success r); cbn [negb length]; lia.
Qed.

Lemma comprehension_Forall2 {A B} (f : A -> Res B) l ys :
  comprehension f l = Ok ys -> Forall2 (fun x y => f x = Ok y) l ys.
Proof.
  revert ys. induction l as [|x l IH]; intros ys; simpl.
  - intros [= <-]. constructor.
  - destruct (f x) as [y|e] eqn:E; [|discriminate]. simpl.
    destruct (comprehension f l) as [ys'|e]; [|discriminate]. simpl.
    intros [= <-]. constructor; auto.
Qed.

Lemma Forall2_join {A B C} (P : A -> B -> Prop) (Q : A -> C -> Prop)
    (R : B -> C -> Prop) l bs cs :
  Forall2 P l bs -> Forall2 Q l cs ->
  (forall a b c, a ∈ l -> b ∈ bs -> P a b -> Q a c -> R b c) ->
  Forall2 R bs cs.
Proof.
  intros HP. revert cs. induction HP as [|a b l bs Hab HP IH]; intros cs HQ HR.
  - inversion HQ. constructor.
  - inversion HQ as [|a' c l' cs' Hac HQ']; subst. constructor.
    + apply (HR a); auto; apply list_elem_of_here.
    + apply IH; [exact HQ'|]. intros a0 b0 c0 Ha0 Hb0. apply HR; by apply list_elem_of_further.
Qed.

(** X23.  The live HTML report tells what Phase 6 recorded.  For member
    details kept under their own id, a missing list without duplicates
    and results recorded one per missing id, the report has one row per
    result, in order, for the same employee and with the badge of that
    result, and its two counts are the numbers of created and of failed
    results. *)
Theorem build_html_email_shows_results workforce employees missing_ids results report :
  keyed_by empl_id employees -> NoDup missing_ids ->
  Forall2 (recorded_for employees) missing_ids results ->
  build_html_email workforce employees missing_ids (Some results) false = Ok report ->
  rep_counts report
  = Some (Z.of_nat (length (List.filter success results)),
          Z.of_nat (length (List.filter (fun r => negb (success r)) results)))
  /\ Forall2 (fun r row => row_empl_id row = result_empl_id r
                           /\ row_status row = Some (success r))
       results (rep_rows report).
Proof.
  intros [_ Hkey] Hnd Hrec Hbuild.
  assert (Hids : Forall2 (fun eid r => result_empl_id r = eid) missing_ids results).
  { eapply Forall2_impl; [exact Hrec|]. intros eid r (emp & Hemp & ->). eauto. }
  assert (Hmap : map result_empl_id results = missing_ids).
  { clear -Hids. induction Hids as [|eid r ids rs E _ IH]; [reflexivity|].
    simpl. rewrite E, IH. reflexivity. }
  unfold build_html_email in Hbuild.
  destruct (project_set workforce missing_ids) as [projects|e]; [|discriminate].
  cbn [res_bind default negb] in Hbuild.
  match type of Hbuild with
  | res_bind (comprehension ?f _) _ = _ =>
      destruct (comprehension f missing_ids) as [rows|e] eqn:Hrows; [|discriminate]
  end.
  apply comprehension_Forall2 in Hrows. injection Hbuild as <-. cbn. unfold id in *.
  split.
  - rewrite (Forall2_length _ _ _ Hids), count_failed. reflexivity.
  - eapply Forall2_join; [exact Hids|exact Hrows|].
    intros eid r row _ Hr Hid Hrow. cbv beta in Hrow.
    unfold dict_getitem in Hrow.
    destruct (dict_get eid employees) as [emp|] eqn:Hemp; [|discriminate].
    destruct (dict_get eid workforce) as [wf|]; [|discriminate].
    cbn [res_bind] in Hrow.
    destruct (hire_date_cell emp) as [hire|]; [|discriminate].
    injection Hrow as <-. cbn. split.
    + rewrite (Hkey _ _ Hemp). congruence.
    + unfold status_cell, dict_get_default. rewrite <- Hid.
      rewrite result_map_get; [reflexivity| |exact Hr]. by rewrite Hmap.
Qed.

Lemma build_html_email_shows_results_witness :
  let results :=
    [Failed "E002" "Ben Baker" 400 (DetailText "bad request");
     Created "E003" "Cy Clark" JNull] in
  exists report,
    build_html_email Scenario.workforce Scenario.employees Scenario.missing_ids
      (Some results) false = Ok report
    /\ rep_counts report = Some (1%Z, 1%Z)
    /\ Forall2 (fun r row => row_empl_id row = result_empl_id r
                             /\ row_status row = Some (success r))
         results (rep_rows report).
Proof.
  cbv zeta.
  assert (Hkey : keyed_by empl_id Scenario.employees).
  { split.
    - apply (bool_decide_unpack _). vm_compute. exact I.
    - intros k v H. unfold Scenario.employees in H. cbn [dict_get] in H.
      repeat match type of H with
             | (if String.eqb k ?x then _ else _) = _ =>
                 destruct (String.eqb_spec k x) as [->|_];
                 [injection H as <-; reflexivity|]
             end.
      discriminate. }
  assert (Hnd : NoDup Scenario.missing_ids).
  { apply (bool_decide_unpack _). vm_compute. exact I. }
  assert (Hrec : Forall2 (recorded_for Scenario.employees) Scenario.missing_ids
                   [Failed "E002" "Ben Baker" 400 (DetailText "bad request");
                    Created "E003" "Cy Clark" JNull]).
  { constructor; [exists Scenario.e002; split; reflexivity|].
    constructor; [exists Scenario.e003; split; reflexivity|]. constructor. }
  eexists. split; [vm_compute; reflexivity|].
  exact (build_html_email_shows_results Scenario.workforce Scenario.employees
           Scenario.missing_ids _ _ Hkey Hnd Hrec eq_refl).
Defined.

(** ** A dry run that reaches Phase 6 *)

(** X24.  A dry run of [sync] that reaches Phase 6 with the records of
    every missing employee and well-formed dates returns 0.  After Phase 5
    it stores the payload preview and the HTML report built without
    results, records [pipeline_complete] and closes both clients, and does
    nothing else. *)
Theorem sync_dry_run_returns_0 be fuel client_name tr ct_config workforce employees
    missing_ids t6 :
  reaches_phase_6 be fuel client_name tr ct_config workforce employees missing_ids t6 ->
  phase_6_inputs workforce employees missing_ids ->
  exists preview html,
    comprehension (preview_entry workforce employees) missing_ids = Ok preview
    /\ build_html_email workforce employees missing_ids None true = Ok html
    /\ sync be fuel client_name true tr
       = (Done (Ok 0%Z),
          t6 ++ [EEvent LInfo "phase_6_starting";
                 EPutObject "new-employees/ne_dry_run_preview.json" (SPreview preview);
                 EEvent LInfo "phase_6_dry_run_complete";
                 EPutObject "new-employees/dry_run_email_preview.html" (SHtml html);
                 EEvent LSuccess "pipeline_complete";
                 ECloseDeltek; ECloseConnecteam]).
Proof.
  intros (deltek_config & t1 & ct_projects & t2 & t3 & t4 & existing & t5
          & Hload & H1 & N1 & H2 & N2 & H3 & N3 & H4 & H5 & N5) Hin.
  assert (Hatt : forall eid, eid ∈ missing_ids -> attempted workforce employees eid).
  { intros eid He.
    destruct (phase_6_inputs_payload _ _ _ eid Hin He) as (wf & emp & p & Hwf & Hemp & Hp).
    exists wf, emp, p. tauto. }
  destruct (preview_comprehension workforce employees missing_ids Hin)
    as (preview & Hprev & _).
  destruct (build_html_email_ok workforce employees missing_ids None true Hatt)
    as [html Hhtml].
  destruct (build_plain_text_email_ok workforce employees missing_ids None true Hatt)
    as [text_body Htext].
  exists preview, html. split; [exact Hprev|]. split; [exact Hhtml|].
  assert (Hphases :
    sync_phases be fuel deltek_config ct_config true
      (t1 ++ [EEvent LInfo "configurations_loaded"])
    = (Done (Ok 0%Z),
       t6 ++ [EEvent LInfo "phase_6_starting";
              EPutObject "new-employees/ne_dry_run_preview.json" (SPreview preview);
              EEvent LInfo "phase_6_dry_run_complete";
              EPutObject "new-employees/dry_run_email_preview.html" (SHtml html);
              EEvent LSuccess "pipeline_complete"])).
  { unfold sync_phases.
    erewrite bind_ok by exact H1. rewrite (is_nil_false _ N1).
    erewrite bind_ok by exact H2. rewrite (is_nil_false _ N2).
    erewrite bind_ok by exact H3. rewrite (is_nil_false _ N3).
    erewrite bind_ok by exact H4.
    erewrite bind_ok by exact H5. rewrite (is_nil_false _ N5).
    erewrite bind_ok.
    2: { unfold run_phase_6. rewrite log_event_then. cbv iota.
         rewrite Hprev, lift_ok_bind, save_json_then, log_event_then, mret_run.
         reflexivity. }
    cbn [is_nil]. erewrite bind_ok.
    2: { unfold send_import_email. rewrite Hhtml, Htext, !lift_ok_bind. cbv iota.
         unfold save_html. rewrite emit_then, mret_run. reflexivity. }
    cbn. rewrite log_event_then, mret_run, <- !app_assoc. reflexivity. }
  rewrite (sync_returns_phases _ _ _ _ _ _ _ _ _ _ Hload Hphases), <- app_assoc.
  reflexivity.
Qed.

Lemma sync_dry_run_returns_0_witness :
  let be := Scenario.backend Scenario.two_projects Scenario.accepts in
  exists preview html,
    comprehension (preview_entry Scenario.workforce Scenario.employees)
      Scenario.missing_ids = Ok preview
    /\ build_html_email Scenario.workforce Scenario.employees Scenario.missing_ids
         None true = Ok html
    /\ sync be 2 "acme" true []
       = (Done (Ok 0%Z),
          ScenarioRun.t6 be
          ++ [EEvent LInfo "phase_6_starting";
              EPutObject "new-employees/ne_dry_run_preview.json" (SPreview preview);
              EEvent LInfo "phase_6_dry_run_complete";
              EPutObject "new-employees/dry_run_email_preview.html" (SHtml html);
              EEvent LSuccess "pipeline_complete";
              ECloseDeltek; ECloseConnecteam]).
Proof.
  cbv zeta.
  exact (sync_dry_run_returns_0 _ 2 "acme" [] Scenario.ct_config Scenario.workforce
           Scenario.employees Scenario.missing_ids _
           (scenario_reaches_phase_6 Scenario.accepts) scenario_phase_6_inputs).
Defined.
